(** * ai-memory: three HTTP services over memory libraries

    Shallow embedding of the request handlers of
    - service A, [cognee/cognee_app/main.py]   (module [Cognee]),
    - service B, [graphiti/graphiti_app/main.py] (module [Graphiti]),
    - service C, [mem0/mem0_app/main.py]       (module [Mem0]),
    followed by the properties of the namespace and cleanup contract.

    Conventions.
    - JSON payloads and library results are Python values ([Py.value]);
      JSON floats are outside the model.
    - A Python expression that can raise is a [Py.result].
    - A handler that talks to the wrapped library is a program ([Eff.prog])
      whose nodes are the library calls; the library's answers come from an
      arbitrary environment ([Eff.oracle]).
    - The relational store of service A and the graph store of service B are
      explicit states; the SQL and Cypher statements are functions on them.
    - Instants are integers (microseconds since the epoch for Python's
      datetime, seconds for [time.time()]) on an unbounded line. *)

From Stdlib Require Import String Ascii List ZArith Lia Bool Arith.
From Stdlib Require Import Decimal DecimalString Permutation.
Import ListNotations.
Open Scope string_scope.
Open Scope list_scope.
Open Scope Z_scope.

(* ===================================================================== *)
(** * Python values                                                       *)
(* ===================================================================== *)

Module Py.

#[local] Set Warnings "-register-all".
Inductive value : Type :=
| VNone
| VBool (b : bool)
| VInt (n : Z)
| VStr (s : string)
| VList (l : list value)
| VDict (d : list (string * value)).

(** An exception carries its class name and [str(e)].  The class of an
    error raised by the interpreter is CPython's; its message is CPython's
    where the text is short, and a paraphrase otherwise. *)
Inductive exn : Type :=
| Exn (kind : string) (msg : string).

Definition exn_str (e : exn) : string :=
  match e with Exn _ m => m end.

Inductive result (A : Type) : Type :=
| Ok (a : A)
| Raise (e : exn).
Arguments Ok {A} a.
Arguments Raise {A} e.

Definition rbind {A B} (r : result A) (k : A -> result B) : result B :=
  match r with
  | Ok a => k a
  | Raise e => Raise e
  end.

Definition type_name (v : value) : string :=
  match v with
  | VNone => "NoneType"
  | VBool _ => "bool"
  | VInt _ => "int"
  | VStr _ => "str"
  | VList _ => "list"
  | VDict _ => "dict"
  end.

(** [bool(v)]: None, False, 0, the empty string, list and dict are falsy. *)
Definition truthy (v : value) : bool :=
  match v with
  | VNone => false
  | VBool b => b
  | VInt n => negb (n =? 0)
  | VStr s => negb (String.eqb s "")
  | VList l => match l with [] => false | _ => true end
  | VDict d => match d with [] => false | _ => true end
  end.

(** A dict is an association list read from the front. *)
Fixpoint lookup (k : string) (d : list (string * value)) : option value :=
  match d with
  | [] => None
  | (k', v) :: d' => if String.eqb k k' then Some v else lookup k d'
  end.

Definition has_key (k : string) (d : list (string * value)) : bool :=
  match lookup k d with Some _ => true | None => false end.

Definition no_attribute (v : value) (attr : string) : exn :=
  Exn "AttributeError"
      ("'" ++ type_name v ++ "' object has no attribute '" ++ attr ++ "'")%string.

(** [v.get(k, default)]; only dicts have [get]. *)
Definition get_default (v : value) (k : string) (dflt : value) : result value :=
  match v with
  | VDict d => Ok (match lookup k d with Some x => x | None => dflt end)
  | _ => Raise (no_attribute v "get")
  end.

(** [v.get(k)] *)
Definition get (v : value) (k : string) : result value :=
  get_default v k VNone.

Definition is_substring (k s : string) : bool :=
  match String.index 0 k s with Some _ => true | None => false end.

Definition is_str (k : string) (v : value) : bool :=
  match v with VStr s => String.eqb s k | _ => false end.

(** [k in v] for a string [k]: key of a dict, element of a list,
    substring of a string; other types are not iterable. *)
Definition contains (k : string) (v : value) : result bool :=
  match v with
  | VDict d => Ok (has_key k d)
  | VList l => Ok (existsb (is_str k) l)
  | VStr s => Ok (is_substring k s)
  | _ => Raise (Exn "TypeError"
                  ("argument of type '" ++ type_name v ++ "' is not iterable")%string)
  end.

(** [v[k]] for a string [k]. *)
Definition subscript (v : value) (k : string) : result value :=
  match v with
  | VDict d =>
      match lookup k d with
      | Some x => Ok x
      | None => Raise (Exn "KeyError" ("'" ++ k ++ "'")%string)
      end
  | VList _ => Raise (Exn "TypeError" "list indices must be integers or slices, not str")
  | VStr _ => Raise (Exn "TypeError" "string indices must be integers, not 'str'")
  | _ => Raise (Exn "TypeError"
                  ("'" ++ type_name v ++ "' object is not subscriptable")%string)
  end.

Definition num (v : value) : option Z :=
  match v with
  | VBool b => Some (if b then 1 else 0)
  | VInt n => Some n
  | _ => None
  end.

(** [a == b]: numbers by value (bool is an int), strings and None by
    identity of content, lists pointwise, dicts as mappings. *)
Fixpoint equal (a b : value) {struct a} : bool :=
  match a with
  | VNone => match b with VNone => true | _ => false end
  | VBool x =>
      match num b with Some m => (if x then 1 else 0) =? m | None => false end
  | VInt n =>
      match num b with Some m => n =? m | None => false end
  | VStr s => match b with VStr t => String.eqb s t | _ => false end
  | VList l =>
      match b with
      | VList l' =>
          (fix all2 (xs : list value) (ys : list value) {struct xs} : bool :=
             match xs, ys with
             | [], [] => true
             | x :: xs', y :: ys' => equal x y && all2 xs' ys'
             | _, _ => false
             end) l l'
      | _ => false
      end
  | VDict d =>
      match b with
      | VDict d' =>
          Nat.eqb (length d) (length d') &&
          (fix all (kvs : list (string * value)) {struct kvs} : bool :=
             match kvs with
             | [] => true
             | (k, v) :: kvs' =>
                 match lookup k d' with
                 | Some w => equal v w && all kvs'
                 | None => false
                 end
             end) d
      | _ => false
      end
  end.

(** The elements [for x in v] visits: the items of a list, the keys of a
    dict, the characters of a string; other types are not iterable. *)
Fixpoint chars (s : string) : list value :=
  match s with
  | EmptyString => []
  | String c s' => VStr (String c EmptyString) :: chars s'
  end.

Definition iter (v : value) : result (list value) :=
  match v with
  | VList l => Ok l
  | VDict d => Ok (map (fun kv => VStr (fst kv)) d)
  | VStr s => Ok (chars s)
  | _ => Raise (Exn "TypeError" ("'" ++ type_name v ++ "' object is not iterable")%string)
  end.

(** [v[:n]] on a list or a string; a dict does not take a slice
    (the message is the one of CPython up to 3.11). *)
Definition slice_to (n : nat) (v : value) : result value :=
  match v with
  | VList l => Ok (VList (firstn n l))
  | VStr s => Ok (VStr (String.substring 0 n s))
  | VDict _ => Raise (Exn "TypeError" "unhashable type: 'slice'")
  | _ => Raise (Exn "TypeError"
                  ("'" ++ type_name v ++ "' object is not subscriptable")%string)
  end.

(** Decimal rendering of an integer, as [str(n)] prints it. *)
Definition str_of_Z (n : Z) : string :=
  NilZero.string_of_int (Z.to_int n).

(** Python's datetime: an instant in microseconds and whether the object
    carries a time zone (aware) or not (naive). *)
Record datetime : Type := mk_datetime { micros : Z; aware : bool }.

Definition micros_per_day : Z := 86400 * 1000000.

(** The instant [n] days before [d], on the unbounded time line. *)
Definition minus_days (d : datetime) (n : Z) : datetime :=
  mk_datetime (micros d - n * micros_per_day) (aware d).

(** The instants a datetime can hold, 0001-01-01T00:00:00 to
    9999-12-31T23:59:59.999999, in microseconds since 1970-01-01T00:00:00. *)
Definition min_micros : Z := -62135596800000000.
Definition max_micros : Z := 253402300799999999.

(** [timedelta(days=n)], given by its days: CPython takes [n] as a C int
    and holds at most 999999999 days either way. *)
Definition timedelta (n : Z) : result Z :=
  if Z.abs n <=? 999999999 then Ok n
  else if (-2147483648 <=? n) && (n <=? 2147483647)
  then Raise (Exn "OverflowError"
                ("days=" ++ str_of_Z n ++ "; must have magnitude <= 999999999")%string)
  else Raise (Exn "OverflowError" "Python int too large to convert to C int").

(** [d - delta] for a delta of [delta_days] days: the result has to be an
    instant a datetime can hold. *)
Definition datetime_sub (d : datetime) (delta_days : Z) : result datetime :=
  let r := minus_days d delta_days in
  if (min_micros <=? micros r) && (micros r <=? max_micros)
  then Ok r
  else Raise (Exn "OverflowError" "date value out of range").

(** [a < b] on datetimes; mixing naive and aware raises. *)
Definition datetime_lt (a b : datetime) : result bool :=
  if Bool.eqb (aware a) (aware b)
  then Ok (micros a <? micros b)
  else Raise (Exn "TypeError" "can't compare offset-naive and offset-aware datetimes").

(** Builtins of the interpreter whose full behaviour the handlers do not
    depend on are taken as given. *)
Record builtins : Type := mk_builtins {
  repr_container : value -> string;           (* str() of a list or dict *)
  int_of_str : string -> result Z;            (* int(s) for a str *)
  fromisoformat : string -> result datetime;  (* datetime.fromisoformat *)
  isoformat : datetime -> string              (* datetime.isoformat *)
}.

Section WithBuiltins.
Variable B : builtins.

(** [str(v)], which is what an f-string field [{v}] renders. *)
Definition str (v : value) : string :=
  match v with
  | VNone => "None"
  | VBool true => "True"
  | VBool false => "False"
  | VInt n => str_of_Z n
  | VStr s => s
  | VList _ | VDict _ => repr_container B v
  end.

(** [int(v)] *)
Definition int (v : value) : result Z :=
  match v with
  | VInt n => Ok n
  | VBool b => Ok (if b then 1 else 0)
  | VStr s => int_of_str B s
  | _ => Raise (Exn "TypeError"
                  ("int() argument must be a string, a bytes-like object or a real number, not '"
                     ++ type_name v ++ "'")%string)
  end.

(** [datetime.fromisoformat(v)] *)
Definition parse_datetime (v : value) : result datetime :=
  match v with
  | VStr s => fromisoformat B s
  | _ => Raise (Exn "TypeError" "fromisoformat: argument must be str")
  end.
End WithBuiltins.

End Py.

(* ===================================================================== *)
(** * HTTP responses                                                      *)
(* ===================================================================== *)

Module Http.

(** What a handler returns: [jsonify(body), status]. *)
Record response : Type := mk_response { status : Z; body : Py.value }.

(** [jsonify({...})] of a dict literal. *)
Definition json (fields : list (string * Py.value)) : Py.value := Py.VDict fields.

(** The framework's answer when a handler raises. *)
Definition internal_server_error : response :=
  mk_response 500 (Py.VStr "Internal Server Error").

(** The framework's answer when no route matches. *)
Definition not_found : response :=
  mk_response 404 (Py.VStr "Not Found").

(** The framework's answer when the path is routed for another method. *)
Definition method_not_allowed : response :=
  mk_response 405 (Py.VStr "Method Not Allowed").

Inductive method : Type := GET | POST.

Definition one_of (path : string) (paths : list string) : bool :=
  existsb (String.eqb path) paths.

End Http.

(* ===================================================================== *)
(** * Programs over an external library                                   *)
(* ===================================================================== *)

Module Eff.

(** What a library call gives back: a value, or an exception. *)
Definition answer : Type := Py.result Py.value.

Inductive prog (call A : Type) : Type :=
| Ret (a : A)
| Throw (e : Py.exn)
| Call (c : call) (k : answer -> prog call A).
Arguments Ret {call A} a.
Arguments Throw {call A} e.
Arguments Call {call A} c k.

Fixpoint bind {call A B} (p : prog call A) (f : A -> prog call B) : prog call B :=
  match p with
  | Ret a => f a
  | Throw e => Throw e
  | Call c k => Call c (fun r => bind (k r) f)
  end.

(** [try: p  except Exception as e: h e] *)
Fixpoint catch {call A} (p : prog call A) (h : Py.exn -> prog call A) : prog call A :=
  match p with
  | Ret a => Ret a
  | Throw e => h e
  | Call c k => Call c (fun r => catch (k r) h)
  end.

(** Run [p] to its end and hand back how it ended. *)
Fixpoint attempt {call A} (p : prog call A) : prog call (Py.result A) :=
  match p with
  | Ret a => Ret (Py.Ok a)
  | Throw e => Ret (Py.Raise e)
  | Call c k => Call c (fun r => attempt (k r))
  end.

(** A pure Python expression inside a program. *)
Definition lift {call A} (r : Py.result A) : prog call A :=
  match r with
  | Py.Ok a => Ret a
  | Py.Raise e => Throw e
  end.

(** A library call: its exception, if any, propagates. *)
Definition invoke {call} (c : call) : prog call Py.value :=
  Call c (fun r => lift r).

(** The environment: the answer to a call may depend on everything that
    happened before. *)
Definition event (call : Type) : Type := (call * answer)%type.
Definition oracle (call : Type) : Type := list (event call) -> call -> answer.

(** [run o p hist] plays [p] against [o] after the events [hist]; it gives
    the outcome and all events in the order they happened. *)
Fixpoint run {call A} (o : oracle call) (p : prog call A) (hist : list (event call))
  : Py.result A * list (event call) :=
  match p with
  | Ret a => (Py.Ok a, hist)
  | Throw e => (Py.Raise e, hist)
  | Call c k => let r := o hist c in run o (k r) (hist ++ [(c, r)])
  end.

(** The calls a program makes against [o], in order. *)
Definition calls {call A} (o : oracle call) (p : prog call A) : list call :=
  map fst (snd (run o p [])).

(** What the client receives: an uncaught exception becomes a 500. *)
Definition respond {call} (o : oracle call) (p : prog call Http.response) : Http.response :=
  match fst (run o p []) with
  | Py.Ok r => r
  | Py.Raise _ => Http.internal_server_error
  end.

End Eff.

Declare Scope prog_scope.
Delimit Scope prog_scope with prog.
Notation "x <- p ;; q" := (Eff.bind p (fun x => q))
  (at level 61, p at next level, right associativity) : prog_scope.
Notation "p ;; q" := (Eff.bind p (fun _ => q))
  (at level 61, right associativity) : prog_scope.

Local Open Scope prog_scope.

(* ===================================================================== *)
(** * Service A: cognee_app/main.py                                       *)
(* ===================================================================== *)

Module Cognee.
Import Py Http Eff.

(** The calls into the wrapped library. *)
Inductive call : Type :=
| Add (text_data : value) (dataset_name : string)   (* cognee.add(text, dataset_name=...) *)
| Cognify                                           (* cognee.cognify() *)
| Search (query : value) (datasets : list string).  (* cognee.search(query, datasets=[...]) *)

(** ** The module's global name [datetime]

    Line 3 binds it to the module ([import datetime]); line 7 rebinds it to
    the class ([from datetime import datetime, timedelta, timezone]). *)
Inductive datetime_name : Type :=
| DatetimeModule
| DatetimeClass.

Definition import_datetime (_ : datetime_name) : datetime_name := DatetimeModule.
Definition from_datetime_import_datetime (_ : datetime_name) : datetime_name := DatetimeClass.

Definition global_datetime : datetime_name :=
  from_datetime_import_datetime (import_datetime DatetimeModule).

(** [x.datetime]: the module has the class as an attribute, the class has no
    such attribute. *)
Definition attr_datetime (x : datetime_name) : result datetime_name :=
  match x with
  | DatetimeModule => Ok DatetimeClass
  | DatetimeClass =>
      Raise (Exn "AttributeError" "type object 'datetime.datetime' has no attribute 'datetime'")
  end.

(** ** The relational store *)

Definition uuid : Type := N.

Record dataset_row : Type := mk_dataset { ds_id : uuid; ds_name : string }.
Record data_row : Type := mk_data { data_id : uuid; updated_at : option Z }.
Record dataset_data_row : Type := mk_link { dd_dataset_id : uuid; dd_data_id : uuid }.
(** A row of [acls], [dataset_database] or [pipeline_runs]: its own key and
    the dataset it refers to. *)
Record dependent_row : Type := mk_dependent { dep_key : N; dep_dataset_id : uuid }.

Record db : Type := mk_db {
  datasets : list dataset_row;
  data : list data_row;
  dataset_data : list dataset_data_row;
  acls : list dependent_row;
  dataset_database : list dependent_row;
  pipeline_runs : list dependent_row
}.

(** [x = ANY(xs)] *)
Definition any_uuid (x : uuid) (xs : list uuid) : bool := existsb (N.eqb x) xs.
Definition any_text (x : string) (xs : list string) : bool := existsb (String.eqb x) xs.

(** [d.updated_at < $cutoff]; a NULL timestamp is not less than anything. *)
Definition older_than (cutoff : Z) (d : data_row) : bool :=
  match updated_at d with
  | Some t => t <? cutoff
  | None => false
  end.

(** [SELECT id, name FROM datasets WHERE name = ANY($1)] *)
Definition select_datasets (names : list string) (s : db) : list dataset_row :=
  filter (fun r => any_text (ds_name r) names) (datasets s).

(** [SELECT d.id FROM data d JOIN dataset_data dd ON d.id = dd.data_id
     WHERE dd.dataset_id = ANY($1) AND d.updated_at < $2]:
    one row per pair of a data row and a link row that satisfy the
    conditions. *)
Definition select_old_data (dataset_ids : list uuid) (cutoff : Z) (s : db) : list uuid :=
  flat_map
    (fun d =>
       flat_map
         (fun dd =>
            if N.eqb (data_id d) (dd_data_id dd)
               && any_uuid (dd_dataset_id dd) dataset_ids
               && older_than cutoff d
            then [data_id d] else [])
         (dataset_data s))
    (data s).

(** [DELETE FROM dataset_data WHERE data_id = ANY($1) AND dataset_id = ANY($2)] *)
Definition delete_links (data_ids dataset_ids : list uuid) (s : db) : db :=
  mk_db (datasets s) (data s)
        (filter (fun dd => negb (any_uuid (dd_data_id dd) data_ids
                                 && any_uuid (dd_dataset_id dd) dataset_ids))
                (dataset_data s))
        (acls s) (dataset_database s) (pipeline_runs s).

(** [DELETE FROM data WHERE id = ANY($1)] *)
Definition delete_data (data_ids : list uuid) (s : db) : db :=
  mk_db (datasets s)
        (filter (fun d => negb (any_uuid (data_id d) data_ids)) (data s))
        (dataset_data s) (acls s) (dataset_database s) (pipeline_runs s).

(** [COUNT(dd.data_id)] of the group of dataset id [i] in
    [datasets d LEFT JOIN dataset_data dd ON d.id = dd.dataset_id]. *)
Definition group_count (i : uuid) (s : db) : nat :=
  length
    (flat_map
       (fun d =>
          if N.eqb (ds_id d) i
          then filter (fun dd => N.eqb (ds_id d) (dd_dataset_id dd)) (dataset_data s)
          else [])
       (datasets s)).

(** [SELECT d.id FROM datasets d LEFT JOIN dataset_data dd ON d.id = dd.dataset_id
     WHERE d.id = ANY($1) GROUP BY d.id HAVING COUNT(dd.data_id) = 0] *)
Definition select_empty_datasets (dataset_ids : list uuid) (s : db) : list uuid :=
  filter (fun i => Nat.eqb (group_count i s) 0)
         (nodup N.eq_dec
                (map ds_id (filter (fun d => any_uuid (ds_id d) dataset_ids) (datasets s)))).

Definition delete_dependents (ids : list uuid) (rows : list dependent_row) : list dependent_row :=
  filter (fun r => negb (any_uuid (dep_dataset_id r) ids)) rows.

(** The four [DELETE ... WHERE dataset_id = ANY($1)] / [WHERE id = ANY($1)]
    statements on [acls], [dataset_database], [pipeline_runs], [datasets]. *)
Definition delete_datasets (ids : list uuid) (s : db) : db :=
  mk_db (filter (fun d => negb (any_uuid (ds_id d) ids)) (datasets s))
        (data s) (dataset_data s)
        (delete_dependents ids (acls s))
        (delete_dependents ids (dataset_database s))
        (delete_dependents ids (pipeline_runs s)).

Definition is_list (v : value) : bool :=
  match v with VList _ => true | _ => false end.

Definition is_none (v : value) : bool :=
  match v with VNone => true | _ => false end.

Definition list_items (v : value) : list value :=
  match v with VList l => l | _ => [] end.

Section Handlers.
Variable B : builtins.

(** [GET /health] *)
Definition health_check (now : datetime) : response :=
  match attr_datetime global_datetime with
  | Ok _ =>
      mk_response 200
        (json [("status", VStr "healthy");
               ("timestamp", VStr (isoformat B now));
               ("services", json [("postgres", VStr "connected");
                                  ("cognee", VStr "initialized")])])
  | Raise e =>
      mk_response 500 (json [("status", VStr "unhealthy"); ("error", VStr (exn_str e))])
  end.

(** [POST /add] *)
Definition add_memory (payload : value) : prog call response :=
  catch
    (text_data <- lift (get payload "data") ;;
     category <- lift (get_default payload "category" (VStr "general")) ;;
     user_id <- lift (get payload "user_id") ;;
     if negb (truthy text_data) || negb (truthy user_id)
     then Ret (mk_response 400
                 (json [("error", VStr "Both 'data' and 'user_id' are required")]))
     else
       let composite_dataset_name := (str B user_id ++ "_" ++ str B category)%string in
       invoke (Add text_data composite_dataset_name) ;;
       invoke Cognify ;;
       Ret (mk_response 200 (json [("status", VStr "success")])))
    (fun e => Ret (mk_response 500 (json [("error", VStr (exn_str e))]))).

(** [POST /search] *)
Definition search_memory (payload : value) : prog call response :=
  catch
    (query <- lift (get payload "query") ;;
     category <- lift (get payload "category") ;;
     user_id <- lift (get payload "user_id") ;;
     if negb (truthy query) || negb (truthy user_id) || negb (truthy category)
     then Ret (mk_response 400
                 (json [("error", VStr "Query, user_id, and category are required")]))
     else
       let composite_dataset_name := (str B user_id ++ "_" ++ str B category)%string in
       results <- invoke (Search query [composite_dataset_name]) ;;
       Ret (mk_response 200 (json [("results", results)])))
    (fun e => Ret (mk_response 500 (json [("error", VStr (exn_str e))]))).

(** The body of [async with conn.transaction()] in [delete_old_data]. *)
Definition cleanup_transaction (composite_names : list string) (cutoff_date : datetime)
                               (s : db) : response * db :=
  let dataset_rows := select_datasets composite_names s in
  match dataset_rows with
  | [] =>
      (mk_response 404 (json [("status", VStr "not_found");
                              ("message", VStr "No matching datasets found.")]), s)
  | _ =>
      let dataset_ids := map ds_id dataset_rows in
      let old_data_ids := select_old_data dataset_ids (micros cutoff_date) s in
      let deleted_count := Z.of_nat (length old_data_ids) in
      let s1 := if 0 <? deleted_count
                then delete_data old_data_ids (delete_links old_data_ids dataset_ids s)
                else s in
      let empty_dataset_ids := select_empty_datasets dataset_ids s1 in
      let datasets_removed_count := Z.of_nat (length empty_dataset_ids) in
      let s2 := match empty_dataset_ids with
                | [] => s1
                | _ => delete_datasets empty_dataset_ids s1
                end in
      (mk_response 200
         (json [("status", VStr "success");
                ("message", VStr "Processed cleanup.");
                ("details",
                 json [("data_entries_deleted", VInt deleted_count);
                       ("empty_datasets_removed", VInt datasets_removed_count);
                       ("cutoff_date", VStr (isoformat B cutoff_date))])]), s2)
  end.

(** [POST /delete].  [now_utc] is the instant [datetime.now(timezone.utc)]
    gives, [connect] the outcome of [get_db_connection()], [s] the content
    of the store. *)
Definition delete_old_data (payload : value) (now_utc : Z) (connect : result unit) (s : db)
  : response * db :=
  let error e := (mk_response 500 (json [("error", VStr (exn_str e))]), s) in
  match get payload "user_id" with Raise e => error e | Ok user_id =>
  match get payload "categories" with Raise e => error e | Ok categories =>
  match get payload "days" with Raise e => error e | Ok days =>
    if negb (truthy user_id) || negb (truthy categories) || is_none days
    then (mk_response 400
            (json [("error", VStr "user_id, categories (list), and days (int) are required")]), s)
    else if negb (is_list categories)
    then (mk_response 400 (json [("error", VStr "categories must be a list")]), s)
    else
      match int B days with Raise e => error e | Ok n =>
      match timedelta n with Raise e => error e | Ok delta =>
      match datetime_sub (mk_datetime now_utc true) delta with Raise e => error e
      | Ok cutoff_date =>
        let composite_names :=
          map (fun cat => (str B user_id ++ "_" ++ str B cat)%string) (list_items categories) in
        match connect with Raise e => error e | Ok _ =>
          cleanup_transaction composite_names cutoff_date s
        end
      end end end
  end end end.

(** [os.getenv(k)] *)
Definition getenv (env : list (string * string)) (k : string) : value :=
  match find (fun kv => String.eqb (fst kv) k) env with
  | Some kv => VStr (snd kv)
  | None => VNone
  end.

(** [GET /config] *)
Definition get_config (env : list (string * string)) : response :=
  mk_response 200
    (json [("llm_model", getenv env "LLM_MODEL");
           ("vector_store", getenv env "VECTOR_STORE");
           ("cache_enabled", getenv env "CACHE_ENABLED");
           ("embedding_model", getenv env "EMBEDDING_MODEL");
           ("has_postgres", VBool (existsb (fun kv => String.eqb (fst kv) "DATABASE_URL") env))]).

(** The routes of the application: which handler serves a request, and
    what becomes of the store. *)
Definition handle (env : list (string * string)) (now_utc : Z) (connect : result unit)
                  (m : method) (path : string) (payload : value) (s : db)
  : prog call (response * db) :=
  match m with
  | GET =>
      if String.eqb path "/health" then Ret (health_check (mk_datetime now_utc false), s)
      else if String.eqb path "/config" then Ret (get_config env, s)
      else if one_of path ["/add"; "/search"; "/delete"] then Ret (method_not_allowed, s)
      else Ret (not_found, s)
  | POST =>
      if String.eqb path "/add" then r <- add_memory payload ;; Ret (r, s)
      else if String.eqb path "/search" then r <- search_memory payload ;; Ret (r, s)
      else if String.eqb path "/delete" then Ret (delete_old_data payload now_utc connect s)
      else if one_of path ["/health"; "/config"] then Ret (method_not_allowed, s)
      else Ret (not_found, s)
  end.

End Handlers.

End Cognee.

(* ===================================================================== *)
(** * Service B: graphiti_app/main.py                                     *)
(* ===================================================================== *)

(** Cypher's string functions used by the cleanup query. *)
Module Cypher.

(** [split(s, sep)] for a one-character separator. *)
Fixpoint split (sep : ascii) (s : string) : list string :=
  match s with
  | EmptyString => [EmptyString]
  | String c s' =>
      if Ascii.eqb c sep then EmptyString :: split sep s'
      else match split sep s' with
           | [] => [String c EmptyString]
           | w :: ws => String c w :: ws
           end
  end.

(** [s STARTS WITH p] *)
Definition starts_with (s p : string) : bool := String.prefix p s.

End Cypher.

Module Graphiti.
Import Py Http Eff.

(** The calls into the wrapped library. *)
Inductive call : Type :=
| AddEpisode (name : string) (episode_body : value)
             (source_description : string) (group_id : string)
| Search (query : value) (group_ids : list string).

(** The global objects [graphiti] and [async_driver]: set or still None. *)
Record globals : Type := mk_globals { graphiti : bool; async_driver : bool }.

(** ** The graph store *)

Record node : Type := mk_node {
  node_id : N;
  labels : list string;
  name : option string          (* the property [name], if the node has one *)
}.

Record graph : Type := mk_graph {
  nodes : list node;
  relationships : list (N * N)  (* start node, end node *)
}.

Definition has_label (l : string) (n : node) : bool := existsb (String.eqb l) (labels n).

Definition touches (i : N) (r : N * N) : bool := N.eqb (fst r) i || N.eqb (snd r) i.

(** [DETACH DELETE] of the nodes that satisfy [victim]: they go, and with
    them every relationship that starts or ends at one of them. *)
Definition detach_delete (victim : node -> bool) (g : graph) : graph :=
  mk_graph
    (filter (fun n => negb (victim n)) (nodes g))
    (filter (fun r => negb (existsb (fun n => victim n && touches (node_id n) r) (nodes g)))
            (relationships g)).

Definition days_to_keep : Z := 90.

Section Handlers.
Variable B : builtins.
(** Cypher's [toInteger] on a string; null is [None]. *)
Variable toInteger : string -> option Z.

(** [WHERE e.name STARTS WITH $user_prefix
     AND toInteger(split(e.name, '_')[3]) < $cutoff] on [(e:Episodic)];
    a null operand makes the condition fail. *)
Definition expired (user_prefix : string) (cutoff : Z) (e : node) : bool :=
  has_label "Episodic" e &&
  match name e with
  | None => false
  | Some nm =>
      Cypher.starts_with nm user_prefix &&
      match nth_error (Cypher.split "_" nm) 3 with
      | None => false
      | Some field =>
          match toInteger field with
          | Some t => t <? cutoff
          | None => false
          end
      end
  end.

(** [del_query]: the graph after it and [deleted_count]. *)
Definition run_del_query (user_prefix : string) (cutoff : Z) (g : graph) : graph * Z :=
  let matched := filter (expired user_prefix cutoff) (nodes g) in
  (detach_delete (expired user_prefix cutoff) g, Z.of_nat (length matched)).

(** [orphan_query]: [MATCH (n) WHERE NOT (n)--() DELETE n]. *)
Definition run_orphan_query (g : graph) : graph * Z :=
  let orphan n := negb (existsb (touches (node_id n)) (relationships g)) in
  let matched := filter orphan (nodes g) in
  (mk_graph (filter (fun n => negb (orphan n)) (nodes g)) (relationships g),
   Z.of_nat (length matched)).

(** [GET /health] *)
Definition health_check (gl : globals) : response :=
  if graphiti gl && async_driver gl
  then mk_response 200 (json [("status", VStr "healthy"); ("message", VStr "System ready")])
  else mk_response 503 (json [("status", VStr "unhealthy"); ("message", VStr "Initializing...")]).

(** [POST /ingest]; [now] is [int(time.time())]. *)
Definition add_data (gl : globals) (now : Z) (payload : value) : prog call response :=
  if negb (graphiti gl)
  then Ret (mk_response 500 (json [("status", VStr "error");
                                   ("message", VStr "Graphiti not initialized")]))
  else
    text_data <- lift (get payload "data") ;;
    category <- lift (get_default payload "category" (VStr "general")) ;;
    user_id <- lift (get payload "user_id") ;;
    if negb (truthy text_data) || negb (truthy user_id)
    then Ret (mk_response 400 (json [("status", VStr "error");
                                     ("message", VStr "Missing 'data' or 'user_id'")]))
    else
      catch
        (let episode_name := ("User_" ++ str B user_id ++ "_Ingest_" ++ str_of_Z now)%string in
         let composite_group_id := (str B user_id ++ "_" ++ str B category)%string in
         invoke (AddEpisode episode_name text_data
                   ("user:" ++ str B user_id ++ "|category:" ++ str B category)%string
                   composite_group_id) ;;
         Ret (mk_response 201
                (json [("status", VStr "success");
                       ("message", VStr ("Ingested for user " ++ str B user_id
                                           ++ ", category " ++ str B category)%string);
                       ("episode_name", VStr episode_name);
                       ("group_id", VStr composite_group_id)])))
        (fun e => Ret (mk_response 500 (json [("status", VStr "error");
                                              ("message", VStr (exn_str e))]))).

(** [getattr(r, a, dflt)] on a library object, given by its attributes. *)
Definition getattr (r : value) (a : string) (dflt : value) : value :=
  match r with
  | VDict d => match lookup a d with Some x => x | None => dflt end
  | _ => dflt
  end.

Definition hasattr (r : value) (a : string) : bool :=
  match r with VDict d => has_key a d | _ => false end.

(** One step of the loop that shapes the search results. *)
Definition shape (category user_id : value) (r : value) : result (list value) :=
  if hasattr r "fact" then
    Ok [json [("type", VStr "graph_match");
              ("entity", getattr r "source_node_name" (VStr "Unknown Entity"));
              ("summary", getattr r "fact" (VStr ""));
              ("entity_id", getattr r "source_node_uuid" VNone);
              ("category", category);
              ("user_id", user_id);
              ("facts", VList [json [("fact", getattr r "fact" VNone);
                                     ("type", getattr r "edge_name" (VStr "related"));
                                     ("target", getattr r "target_node_name" (VStr "Unknown"))]])]]
  else if hasattr r "content" then
    match getattr r "content" VNone with
    | VStr s =>
        Ok [json [("type", VStr "text_match");
                  ("entity", VStr "Source Text");
                  ("summary", VStr (String.substring 0 200 s ++ "...")%string);
                  ("category", category);
                  ("user_id", user_id);
                  ("facts", VList [])]]
    | v => Raise (Exn "TypeError" ("cannot build the summary of a '" ++ type_name v ++ "'")%string)
    end
  else Ok [].

Fixpoint shape_all (category user_id : value) (rs : list value) : result (list value) :=
  match rs with
  | [] => Ok []
  | r :: rs' =>
      rbind (shape category user_id r) (fun x =>
      rbind (shape_all category user_id rs') (fun xs => Ok (x ++ xs)))
  end.

(** [POST /strict_search] *)
Definition strict_search (gl : globals) (payload : value) : prog call response :=
  query <- lift (get payload "query") ;;
  category <- lift (get payload "category") ;;
  user_id <- lift (get payload "user_id") ;;
  if negb (truthy query) || negb (truthy category) || negb (truthy user_id)
  then Ret (mk_response 400 (json [("error", VStr "Missing required fields")]))
  else
    catch
      (let composite_group_id := (str B user_id ++ "_" ++ str B category)%string in
       results <- (if graphiti gl
                   then invoke (Search query [composite_group_id])
                   else Throw (no_attribute VNone "search")) ;;
       rs <- lift (iter results) ;;
       data <- lift (shape_all category user_id rs) ;;
       Ret (mk_response 200
              (json [("status", VStr "success");
                     ("count", VInt (Z.of_nat (length data)));
                     ("results", VList data);
                     ("scoped_to", VStr composite_group_id)])))
      (fun e => Ret (mk_response 500 (json [("error", VStr (exn_str e))]))).

(** [POST /delete_old]; [now] is [int(time.time())], [g] the graph the
    driver's session works on.  An exception outside the handler's [try]
    is answered by the framework. *)
Definition delete_old_data (gl : globals) (now : Z) (payload : value) (g : graph)
  : response * graph :=
  match get payload "user_id" with
  | Raise _ => (internal_server_error, g)
  | Ok user_id =>
      if negb (truthy user_id)
      then (mk_response 400 (json [("status", VStr "error");
                                   ("message", VStr "Missing 'user_id'")]), g)
      else
        let cutoff_time := now - days_to_keep * 24 * 60 * 60 in
        let user_prefix := ("User_" ++ str B user_id ++ "_Ingest_")%string in
        if negb (async_driver gl)
        then (mk_response 500
                (json [("status", VStr "error");
                       ("message", VStr (exn_str (no_attribute VNone "session")))]), g)
        else
          let '(g1, deleted_episodes) := run_del_query user_prefix cutoff_time g in
          let '(g2, deleted_nodes) := run_orphan_query g1 in
          (mk_response 200
             (json [("status", VStr "success");
                    ("message", VStr ("Removed " ++ str_of_Z deleted_episodes
                                        ++ " episodes and " ++ str_of_Z deleted_nodes
                                        ++ " orphaned nodes.")%string)]), g2)
  end.

(** The routes of the application: which handler serves a request, and
    what becomes of the graph. *)
Definition handle (gl : globals) (now : Z) (m : method) (path : string)
                  (payload : value) (g : graph)
  : prog call (response * graph) :=
  match m with
  | GET =>
      if String.eqb path "/health" then Ret (health_check gl, g)
      else if one_of path ["/ingest"; "/strict_search"; "/delete_old"]
      then Ret (method_not_allowed, g)
      else Ret (not_found, g)
  | POST =>
      if String.eqb path "/ingest" then r <- add_data gl now payload ;; Ret (r, g)
      else if String.eqb path "/strict_search" then r <- strict_search gl payload ;; Ret (r, g)
      else if String.eqb path "/delete_old" then Ret (delete_old_data gl now payload g)
      else if String.eqb path "/health" then Ret (method_not_allowed, g)
      else Ret (not_found, g)
  end.

End Handlers.

(** ** Startup and shutdown (lines 24 to 132) *)

(** The Cypher statements of the startup. *)
Inductive statement : Type :=
| ShowIndexes        (* SHOW INDEXES *)
| CreateNodeIndex    (* CREATE FULLTEXT INDEX node_name_and_summary IF NOT EXISTS ... *)
| CreateEdgeIndex.   (* CREATE FULLTEXT INDEX edge_name_and_fact IF NOT EXISTS ... *)

(** What the startup prints. *)
Inductive line : Type :=
| WaitingForNeo4j (uri : string)           (* "Waiting for Neo4j at {NEO4J_URI}..." *)
| Neo4jReady                               (* "Neo4j is ready!" *)
| StillWaiting (attempt max_retries : Z)   (* "Still waiting for Neo4j... ({i+1}/{max_retries})" *)
| VerifyingIndexes                         (* "Verifying fulltext indexes..." *)
| CreatingNodeIndex                        (* "Creating 'node_name_and_summary' index..." *)
| CreatingEdgeIndex                        (* "Creating 'edge_name_and_fact' index..." *)
| IndexesVerified                          (* "Indexes verified." *)
| IndexWarning (e : exn)                   (* "Index setup warning: {e}" *)
| InitializingGraphiti                     (* "Initializing Graphiti Core..." *)
| BuildWarning (e : exn)                   (* "Graphiti index build warning: {e}" *)
| GraphitiInitialized                      (* "Graphiti initialized!" *)
| ConnectingDriver                         (* "Connecting global Async Driver..." *)
| DriverConnected                          (* "Async Driver connected." *)
| ClosingDriver                            (* "Closing Async Driver..." *)
| DriverClosed.                            (* "Async Driver closed." *)

(** What the startup does to the outside. *)
Inductive boot_call : Type :=
| Print (l : line)                              (* print(...) *)
| NewDriver (uri user password : string)        (* GraphDatabase.driver(uri, auth=(user, password)) *)
| VerifyConnectivity                            (* driver.verify_connectivity() *)
| CloseDriver                                   (* driver.close() *)
| Sleep (seconds : Z)                           (* time.sleep *)
| OpenSession                                   (* driver.session(), entering the [with] block *)
| CloseSession                                  (* the end of the [with] block *)
| RunStatement (s : statement)                  (* session.run(...) *)
| NewNeo4jDriver (uri user password : string)   (* Neo4jDriver(uri=..., user=..., password=...) *)
| BuildIndices                                  (* neo4j_driver.build_indices_and_constraints() *)
| NewLLMConfig (api_key : value)                (* LLMConfig(api_key=..., model=..., base_url=...) *)
| NewLLMClient                                  (* OpenAIGenericClient(config=llm_config) *)
| NewGraphiti                                   (* Graphiti(graph_driver=..., llm_client=...) *)
| NewAsyncDriver (uri user password : string)   (* AsyncGraphDatabase.driver(uri, auth=...) *)
| CloseAsyncDriver.                             (* async_driver.close() *)

(** [[record["name"] for record in result]] *)
Fixpoint names (records : list value) : result (list value) :=
  match records with
  | [] => Ok []
  | record :: records' =>
      rbind (subscript record "name") (fun n =>
      rbind (names records') (fun ns => Ok (n :: ns)))
  end.

Section Startup.
(** The environment variables the module reads when it is loaded. *)
Variable env : list (string * string).

Definition getenv_default (k dflt : string) : string :=
  match find (fun kv => String.eqb (fst kv) k) env with
  | Some kv => snd kv
  | None => dflt
  end.

Definition getenv (k : string) : value :=
  match find (fun kv => String.eqb (fst kv) k) env with
  | Some kv => VStr (snd kv)
  | None => VNone
  end.

Definition NEO4J_URI : string := getenv_default "NEO4J_URI" "bolt://localhost:7687".
Definition NEO4J_USER : string := getenv_default "NEO4J_USERNAME" "neo4j".
Definition NEO4J_PASSWORD : string := getenv_default "NEO4J_PASSWORD" "password".
Definition OPENAI_KEY : value := getenv "OPENAI_API_KEY".

(** The iterations [i], [i+1], ... of [for i in range(max_retries)] in
    [wait_for_neo4j], of which [remaining] are left. *)
Fixpoint neo4j_attempts (max_retries : Z) (i : Z) (remaining : nat) : prog boot_call value :=
  match remaining with
  | O => Throw (Exn "Exception" "Neo4j did not become ready in time")
  | S remaining' =>
      catch
        (invoke (NewDriver NEO4J_URI NEO4J_USER NEO4J_PASSWORD) ;;
         invoke VerifyConnectivity ;;
         invoke CloseDriver ;;
         invoke (Print Neo4jReady) ;;
         Ret (VBool true))
        (fun _ =>
           (if i mod 5 =? 0
            then invoke (Print (StillWaiting (i + 1) max_retries))
            else Ret VNone) ;;
           invoke (Sleep 2) ;;
           neo4j_attempts max_retries (i + 1) remaining')
  end.

(** [wait_for_neo4j(max_retries)] *)
Definition wait_for_neo4j (max_retries : Z) : prog boot_call value :=
  invoke (Print (WaitingForNeo4j NEO4J_URI)) ;;
  neo4j_attempts max_retries 0 (Z.to_nat max_retries).

(** [create_fulltext_index_manually()] *)
Definition create_fulltext_index_manually : prog boot_call value :=
  invoke (Print VerifyingIndexes) ;;
  invoke (NewDriver NEO4J_URI NEO4J_USER NEO4J_PASSWORD) ;;
  outcome <- attempt
    (catch
       (invoke OpenSession ;;
        block <- attempt
          (result <- invoke (RunStatement ShowIndexes) ;;
           records <- lift (iter result) ;;
           indexes <- lift (names records) ;;
           (if negb (existsb (is_str "node_name_and_summary") indexes)
            then invoke (Print CreatingNodeIndex) ;; invoke (RunStatement CreateNodeIndex)
            else Ret VNone) ;;
           (if negb (existsb (is_str "edge_name_and_fact") indexes)
            then invoke (Print CreatingEdgeIndex) ;; invoke (RunStatement CreateEdgeIndex)
            else Ret VNone) ;;
           invoke (Print IndexesVerified)) ;;
        invoke CloseSession ;;
        lift block)
       (fun e => invoke (Print (IndexWarning e)))) ;;
  invoke CloseDriver ;;
  lift outcome ;;
  Ret VNone.

(** [init_graphiti()]; the global [graphiti] is assigned by line 102. *)
Definition init_graphiti : prog boot_call value :=
  invoke (Print InitializingGraphiti) ;;
  invoke (NewNeo4jDriver NEO4J_URI NEO4J_USER NEO4J_PASSWORD) ;;
  catch (invoke BuildIndices) (fun e => invoke (Print (BuildWarning e))) ;;
  invoke (NewLLMConfig OPENAI_KEY) ;;
  invoke NewLLMClient ;;
  invoke NewGraphiti ;;
  invoke (Print GraphitiInitialized).

(** [startup()], run before the server accepts requests; it gives the
    globals as they are when it has run through. *)
Definition startup : prog boot_call globals :=
  wait_for_neo4j 60 ;;
  create_fulltext_index_manually ;;
  init_graphiti ;;
  invoke (Print ConnectingDriver) ;;
  invoke (NewAsyncDriver NEO4J_URI NEO4J_USER NEO4J_PASSWORD) ;;
  invoke (Print DriverConnected) ;;
  Ret (mk_globals true true).

(** [shutdown()], run when the server stops. *)
Definition shutdown (gl : globals) : prog boot_call value :=
  if async_driver gl
  then invoke (Print ClosingDriver) ;;
       invoke CloseAsyncDriver ;;
       invoke (Print DriverClosed)
  else Ret VNone.

End Startup.

End Graphiti.

(* ===================================================================== *)
(** * Service C: mem0_app/main.py                                         *)
(* ===================================================================== *)

Module Mem0.
Import Py Http Eff.

(** The calls into the wrapped library. *)
Inductive call : Type :=
| Add (data : value) (user_id : value) (metadata_category : value)
      (* memory.add(data, user_id=..., metadata={"category": ...}) *)
| Search (query : value) (user_id : value) (limit : Z) (threshold_percent : Z)
      (* memory.search(query=..., user_id=..., limit=20, threshold=0.55) *)
| GetAll (user_id : value)      (* memory.get_all(user_id=...) *)
| Delete (memory_id : value).   (* memory.delete(memory_id=...) *)

(** The start of the module (lines 36 to 86): the global [memory] is set if
    the initialisation runs through, and stays None if it raises; the
    application serves requests in both cases. *)
Definition startup (initialisation : result unit) : bool :=
  match initialisation with
  | Ok _ => true
  | Raise _ => false
  end.

Definition not_initialized : response :=
  mk_response 500 (json [("status", VStr "error"); ("message", VStr "Memory not initialized")]).

Definition failure (e : exn) : response :=
  mk_response 500 (json [("status", VStr "error"); ("message", VStr (exn_str e))]).

(** [not payload or k1 not in payload or k2 not in payload], left to right. *)
Definition missing (payload : value) (keys : list string) : result bool :=
  if negb (truthy payload) then Ok true
  else
    (fix go (ks : list string) : result bool :=
       match ks with
       | [] => Ok false
       | k :: ks' =>
           match contains k payload with
           | Raise e => Raise e
           | Ok false => Ok true
           | Ok true => go ks'
           end
       end) keys.

Definition is_dict (v : value) : bool :=
  match v with VDict _ => true | _ => false end.

Definition is_list (v : value) : bool :=
  match v with VList _ => true | _ => false end.

(** [m.get("metadata", {}).get("category") == category] *)
Definition prefers (category : value) (m : value) : result bool :=
  rbind (get_default m "metadata" (VDict [])) (fun md =>
  rbind (get md "category") (fun c => Ok (equal c category))).

(** [[m for m in candidates if ...]] *)
Fixpoint preferred (category : value) (ms : list value) : result (list value) :=
  match ms with
  | [] => Ok []
  | m :: ms' =>
      rbind (prefers category m) (fun keep =>
      rbind (preferred category ms') (fun rest =>
      Ok (if keep then m :: rest else rest)))
  end.

Section Handlers.
Variable B : builtins.

(** [POST /add]; [memory] tells whether the global [memory] is set. *)
Definition add_memory (memory : bool) (payload : value) : prog call response :=
  if negb memory then Ret not_initialized
  else
    bad <- lift (missing payload ["data"; "user_id"]) ;;
    if (bad : bool)
    then Ret (mk_response 400
                (json [("status", VStr "error");
                       ("message", VStr "Missing 'data' or 'user_id' in request")]))
    else
      catch
        (data <- lift (subscript payload "data") ;;
         user_id <- lift (subscript payload "user_id") ;;
         category <- lift (get_default payload "category" (VStr "general")) ;;
         invoke (Add data user_id category) ;;
         Ret (mk_response 201 (json [("status", VStr "success");
                                     ("message", VStr "Memory added")])))
        (fun e => Ret (failure e)).

(** [POST /search] *)
Definition search_memories (memory : bool) (payload : value) : prog call response :=
  if negb memory then Ret not_initialized
  else
    bad <- lift (missing payload ["query"; "user_id"]) ;;
    if (bad : bool)
    then Ret (mk_response 400
                (json [("status", VStr "error");
                       ("message", VStr "Missing 'query' or 'user_id' in request")]))
    else
      query <- lift (subscript payload "query") ;;
      user_id <- lift (subscript payload "user_id") ;;
      category <- lift (get payload "category") ;;
      catch
        (raw_response <- invoke (Search query user_id 20 55) ;;
         candidates <- (if is_dict raw_response
                        then lift (get_default raw_response "results" (VList []))
                        else if is_list raw_response then Ret raw_response
                        else Ret (VList [])) ;;
         candidates <- (if truthy category && truthy candidates
                        then
                          ms <- lift (iter candidates) ;;
                          pref <- lift (preferred category ms) ;;
                          match pref with
                          | [] => Ret candidates
                          | _ => Ret (VList pref)
                          end
                        else Ret candidates) ;;
         results <- lift (slice_to 5 candidates) ;;
         Ret (mk_response 200 (json [("status", VStr "success"); ("results", results)])))
        (fun e => Ret (failure e)).

(** The body of [for mem in user_memories], with the two accumulators. *)
Fixpoint delete_loop (cutoff_date : datetime) (mems : list value)
                     (deleted_count : Z) (errors : list value)
  : prog call (Z * list value) :=
  match mems with
  | [] => Ret (deleted_count, errors)
  | mem :: rest =>
      created_at_str <- lift (get mem "created_at") ;;
      if negb (truthy created_at_str)
      then delete_loop cutoff_date rest deleted_count errors
      else
        memory_date <- lift (parse_datetime B created_at_str) ;;
        old <- lift (datetime_lt memory_date cutoff_date) ;;
        if (old : bool)
        then
          outcome <- attempt (id <- lift (subscript mem "id") ;; invoke (Delete id)) ;;
          match outcome with
          | Ok _ => delete_loop cutoff_date rest (deleted_count + 1) errors
          | Raise e =>
              id <- lift (subscript mem "id") ;;
              delete_loop cutoff_date rest deleted_count
                (errors ++ [VStr ("Could not delete memory " ++ str B id
                                    ++ ": " ++ exn_str e)%string])
          end
        else delete_loop cutoff_date rest deleted_count errors
  end.

(** [POST /delete_old]; [now_utc] is the clock.  Ninety days before the
    time of a request is an instant a datetime holds, so the subtraction of
    line 192 is taken on the time line. *)
Definition delete_old_memories (memory : bool) (now_utc : Z) (payload : value)
  : prog call response :=
  if negb memory then Ret not_initialized
  else
    bad <- lift (missing payload ["user_id"]) ;;
    if (bad : bool)
    then Ret (mk_response 400 (json [("status", VStr "error");
                                     ("message", VStr "Missing 'user_id' in request")]))
    else
      user_id <- lift (subscript payload "user_id") ;;
      let cutoff_date := minus_days (mk_datetime now_utc true) 90 in
      catch
        (get_all_response <- invoke (GetAll user_id) ;;
         user_memories <- lift (get_default get_all_response "results" (VList [])) ;;
         mems <- lift (iter user_memories) ;;
         acc <- delete_loop cutoff_date mems 0 [] ;;
         let '(deleted_count, errors) := acc in
         match errors with
         | _ :: _ =>
             Ret (mk_response 207 (json [("status", VStr "partial_success");
                                         ("deleted_count", VInt deleted_count);
                                         ("errors", VList errors)]))
         | [] =>
             Ret (mk_response 200 (json [("status", VStr "success");
                                         ("deleted_count", VInt deleted_count)]))
         end)
        (fun e => Ret (failure e)).

(** The routes of the application: which handler serves a request. *)
Definition handle (memory : bool) (now_utc : Z) (m : method) (path : string) (payload : value)
  : prog call response :=
  match m with
  | GET =>
      if one_of path ["/add"; "/search"; "/delete_old"] then Ret method_not_allowed
      else Ret not_found
  | POST =>
      if String.eqb path "/add" then add_memory memory payload
      else if String.eqb path "/search" then search_memories memory payload
      else if String.eqb path "/delete_old" then delete_old_memories memory now_utc payload
      else Ret not_found
  end.

End Handlers.

(** ** The start of the module (lines 12 to 86) *)

(** What the module prints while it starts. *)
Inductive line : Type :=
| Rule                                     (* "=" * 60 *)
| Starting                                 (* "Starting Mem0 Application with Qdrant API" *)
| WaitingFor (host : string) (port : Z)    (* "Waiting for Qdrant at {host}:{port}..." *)
| QdrantReady                              (* "Qdrant is ready!" *)
| StillWaiting (attempt max_retries : Z)   (* "Still waiting... ({i+1}/{max_retries})" *)
| KeyNotSet                                (* "WARNING: DEEPSEEK_API_KEY ... not set" *)
| InitializingMemory                       (* "Initializing Memory with Qdrant backend ..." *)
| MemoryInitialized                        (* "Memory initialized successfully!" *)
| FatalError (e : exn).                    (* "FATAL ERROR during initialization: {e}" *)

(** What the start of the module does to the outside. *)
Inductive boot_call : Type :=
| Print (l : line)                                          (* print(...) *)
| CreateConnection (host : string) (port : Z) (timeout : Z) (* socket.create_connection *)
| CloseConnection                                           (* the end of the [with] block *)
| Sleep (seconds : Z)                                       (* time.sleep *)
| FromConfig (host : string) (port : Z) (api_key : value).  (* Memory.from_config(config) *)

(** [try: p  except <classes>: h], where [caught e] tells whether [e] is an
    instance of one of the classes. *)
Fixpoint catch_if {call A} (caught : exn -> bool) (p : prog call A) (h : exn -> prog call A)
  : prog call A :=
  match p with
  | Ret a => Ret a
  | Throw e => if caught e then h e else Throw e
  | Call c k => Call c (fun r => catch_if caught (k r) h)
  end.

(** [os.getenv(k)] and [os.getenv(k, default)] *)
Definition getenv (env : list (string * string)) (k : string) : value :=
  match find (fun kv => String.eqb (fst kv) k) env with
  | Some kv => VStr (snd kv)
  | None => VNone
  end.

Definition getenv_default (env : list (string * string)) (k dflt : string) : string :=
  match find (fun kv => String.eqb (fst kv) k) env with
  | Some kv => snd kv
  | None => dflt
  end.

Section Boot.
Variable B : builtins.
(** [isinstance(e, (socket.timeout, ConnectionRefusedError))] *)
Variable transient : exn -> bool.

(** The iterations [i], [i+1], ... of [for i in range(max_retries)], of
    which [remaining] are left. *)
Fixpoint wait_attempts (host : string) (port max_retries : Z) (i : Z) (remaining : nat)
  : prog boot_call value :=
  match remaining with
  | O => Throw (Exn "Exception" "Qdrant did not become ready in time")
  | S remaining' =>
      catch_if transient
        (invoke (CreateConnection host port 2) ;;
         outcome <- attempt (invoke (Print QdrantReady) ;;
                             invoke (Sleep 5) ;;
                             Ret (VBool true)) ;;
         invoke CloseConnection ;;
         lift outcome)
        (fun _ =>
           (if i mod 5 =? 0
            then invoke (Print (StillWaiting (i + 1) max_retries))
            else Ret VNone) ;;
           invoke (Sleep 2) ;;
           wait_attempts host port max_retries (i + 1) remaining')
  end.

(** [wait_for_qdrant(host, port, max_retries)] *)
Definition wait_for_qdrant (host : string) (port max_retries : Z) : prog boot_call value :=
  invoke (Print (WaitingFor host port)) ;;
  wait_attempts host port max_retries 0 (Z.to_nat max_retries).

(** Lines 26 to 86; the outcome tells whether the global [memory] is set
    when the module has been loaded.  It is assigned by line 81, before the
    last line of the [try] block is printed. *)
Definition initialise (env : list (string * string)) : prog boot_call bool :=
  invoke (Print Rule) ;;
  invoke (Print Starting) ;;
  invoke (Print Rule) ;;
  assigned <- attempt
    (let qdrant_host := getenv_default env "QDRANT_HOST" "localhost" in
     qdrant_port <- lift (int B (VStr (getenv_default env "QDRANT_PORT" "6333"))) ;;
     let deepseek_api_key := getenv env "DEEPSEEK_API_KEY" in
     (if negb (truthy deepseek_api_key) then invoke (Print KeyNotSet) else Ret VNone) ;;
     wait_for_qdrant qdrant_host qdrant_port 60 ;;
     invoke (Print InitializingMemory) ;;
     invoke (FromConfig qdrant_host qdrant_port deepseek_api_key)) ;;
  match assigned with
  | Ok _ =>
      catch (invoke (Print MemoryInitialized) ;; Ret true)
            (fun e => invoke (Print (FatalError e)) ;; Ret true)
  | Raise e => invoke (Print (FatalError e)) ;; Ret false
  end.

End Boot.

End Mem0.

(* ===================================================================== *)
(** * The namespace and cleanup contract                                  *)
(* ===================================================================== *)

Module Contract.
Import Py Http Eff.

(** The composite namespace key ["{user_id}_{category}"]. *)
Definition composite_key (user_id category : string) : string :=
  (user_id ++ "_" ++ category)%string.

(** The name service B gives an episode ingested for [user_id] at [t]. *)
Definition episode_name (user_id : string) (t : Z) : string :=
  ("User_" ++ user_id ++ "_Ingest_" ++ str_of_Z t)%string.

Fixpoint occurs (c : ascii) (s : string) : bool :=
  match s with
  | EmptyString => false
  | String a s' => Ascii.eqb a c || occurs c s'
  end.

Definition underscore_free (s : string) : Prop := occurs "_" s = false.

(** The first library call of a program, if it starts with one. *)
Definition first_call {call A} (p : prog call A) : option call :=
  match p with
  | Call c _ => Some c
  | _ => None
  end.

(** A field of a JSON body. *)
Definition field (k : string) (v : value) : option value :=
  match v with
  | VDict d => lookup k d
  | _ => None
  end.

(** ** Service A *)

(** The key constraints of the schema: the primary keys of [data] and of
    [dataset_data], and the foreign key from [dataset_data] to [data]. *)
Record schema_ok (s : Cognee.db) : Prop := mk_schema_ok {
  data_key : NoDup (map Cognee.data_id (Cognee.data s));
  link_key : NoDup (map (fun dd => (Cognee.dd_dataset_id dd, Cognee.dd_data_id dd))
                        (Cognee.dataset_data s));
  link_data : forall dd, In dd (Cognee.dataset_data s) ->
                         In (Cognee.dd_data_id dd) (map Cognee.data_id (Cognee.data s))
}.






(** [details[k]] of the cleanup report. *)
Definition detail (k : string) (r : response) : option value :=
  match field "details" (body r) with
  | Some d => field k d
  | None => None
  end.

(** ** Service C *)





(** The creation time of a memory record is older than [cutoff]. *)
Definition expired (B : builtins) (cutoff : datetime) (mem : value) : bool :=
  match field "created_at" mem with
  | Some (VStr s) =>
      negb (String.eqb s "") &&
      match fromisoformat B s with
      | Ok t => micros t <? micros cutoff
      | Raise _ => false
      end
  | _ => false
  end.

(** A memory record as the library returns it: a dict with an id whose
    creation time, if present and not empty, is an ISO-8601 string with a
    time zone. *)
Definition record_ok (B : builtins) (mem : value) : Prop :=
  exists d, mem = VDict d /\
            (exists i, lookup "id" d = Some i) /\
            match lookup "created_at" d with
            | None => True
            | Some v =>
                truthy v = false \/
                exists s t, v = VStr s /\ fromisoformat B s = Ok t /\ aware t = true
            end.

Definition is_delete (e : event Mem0.call) : bool :=
  match fst e with Mem0.Delete _ => true | _ => false end.

Definition failed (e : event Mem0.call) : bool :=
  match snd e with Raise _ => true | Ok _ => false end.

(** The delete calls among the events, and those of them that failed. *)
Definition deletes (evs : list (event Mem0.call)) : list (event Mem0.call) :=
  filter is_delete evs.

Definition failed_deletes (evs : list (event Mem0.call)) : list (event Mem0.call) :=
  filter failed (deletes evs).

End Contract.

(* ===================================================================== *)
(** * Sample instances for the examples                                   *)
(* ===================================================================== *)

Module Sample.
Import Py.

(** Two instants with their ISO-8601 spelling. *)
Definition january_2020 : datetime := mk_datetime 1577836800000000 true.
Definition january_2030 : datetime := mk_datetime 1893456000000000 true.

Definition fromisoformat (s : string) : result datetime :=
  if String.eqb s "2020-01-01T00:00:00+00:00" then Ok january_2020
  else if String.eqb s "2030-01-01T00:00:00+00:00" then Ok january_2030
  else Raise (Exn "ValueError" ("Invalid isoformat string: '" ++ s ++ "'")%string).

Definition isoformat (d : datetime) : string :=
  if micros d =? 1577836800000000 then "2020-01-01T00:00:00+00:00"
  else if micros d =? 1893456000000000 then "2030-01-01T00:00:00+00:00"
  else str_of_Z (micros d).

Definition int_of_str (s : string) : result Z :=
  match NilZero.int_of_string s with
  | Some d => Ok (Z.of_int d)
  | None => Raise (Exn "ValueError"
                     ("invalid literal for int() with base 10: '" ++ s ++ "'")%string)
  end.

Definition builtins : Py.builtins :=
  mk_builtins (fun _ => "[...]") int_of_str fromisoformat isoformat.

(** An integer parser for decimal strings, null on anything else. *)
Definition toInteger (s : string) : option Z :=
  option_map Z.of_int (NilZero.int_of_string s).

(** 2026-11-03T00:00:00Z, in seconds and in microseconds. *)
Definition today : Z := 1793664000.
Definition today_micros : Z := today * 1000000.

(** Three memory records: an old one, a recent one, one without a
    creation time. *)
Definition memory_a : value :=
  VDict [("id", VStr "a"); ("memory", VStr "likes tea");
         ("created_at", VStr "2020-01-01T00:00:00+00:00");
         ("metadata", VDict [("category", VStr "home")])].
Definition memory_b : value :=
  VDict [("id", VStr "b"); ("memory", VStr "ships on friday");
         ("created_at", VStr "2030-01-01T00:00:00+00:00");
         ("metadata", VDict [("category", VStr "work")])].
Definition memory_c : value :=
  VDict [("id", VStr "c"); ("memory", VStr "no date")].
(** A fourth one, old, whose creation time is not ISO-8601. *)
Definition memory_d : value :=
  VDict [("id", VStr "d"); ("memory", VStr "bad date"); ("created_at", VStr "yesterday")].
(** A fifth one, old as the first. *)
Definition memory_e : value :=
  VDict [("id", VStr "e"); ("memory", VStr "likes coffee");
         ("created_at", VStr "2020-01-01T00:00:00+00:00")].

(** A library that answers every search and every listing with the given
    records and every other call with None. *)
Definition library (records : list value) : Eff.oracle Mem0.call :=
  fun _ c =>
    match c with
    | Mem0.Search _ _ _ _ | Mem0.GetAll _ => Ok (VDict [("results", VList records)])
    | _ => Ok VNone
    end.

(** The same, but deleting the record with id [bad] fails. *)
Definition failing_library (records : list value) (bad : string) : Eff.oracle Mem0.call :=
  fun _ c =>
    match c with
    | Mem0.Search _ _ _ _ | Mem0.GetAll _ => Ok (VDict [("results", VList records)])
    | Mem0.Delete (VStr i) =>
        if String.eqb i bad then Raise (Exn "Exception" "point not found") else Ok VNone
    | _ => Ok VNone
    end.

(** A store with two datasets of user alice: "alice_work" holds an old
    and a recent data row, "alice_home" holds one old data row. *)
Definition work : Cognee.dataset_row := Cognee.mk_dataset 1%N "alice_work".
Definition home : Cognee.dataset_row := Cognee.mk_dataset 2%N "alice_home".

Definition store : Cognee.db :=
  Cognee.mk_db
    [work; home]
    [Cognee.mk_data 10%N (Some 1577836800000000);
     Cognee.mk_data 11%N (Some 1893456000000000);
     Cognee.mk_data 12%N (Some 1577836800000000)]
    [Cognee.mk_link 1%N 10%N; Cognee.mk_link 1%N 11%N; Cognee.mk_link 2%N 12%N]
    [Cognee.mk_dependent 100%N 1%N; Cognee.mk_dependent 101%N 2%N]
    [Cognee.mk_dependent 200%N 1%N; Cognee.mk_dependent 201%N 2%N]
    [Cognee.mk_dependent 300%N 1%N; Cognee.mk_dependent 301%N 2%N].

(** A cleanup request for one category of alice, ninety days back. *)
Definition cleanup_request (category : string) : list (string * value) :=
  [("user_id", VStr "alice"); ("categories", VList [VStr category]); ("days", VInt 90)].

(** An environment in which every library call succeeds with None. *)
Definition always_ok {call : Type} : Eff.oracle call := fun _ _ => Ok VNone.

(** A graph of service B: an old and a fresh episode of user "bob", each
    with a relationship to an entity, and an entity that no relationship
    touches. *)
Definition old_episode : Graphiti.node :=
  Graphiti.mk_node 1%N ["Episodic"] (Some "User_bob_Ingest_100").
Definition fresh_episode : Graphiti.node :=
  Graphiti.mk_node 2%N ["Episodic"] (Some "User_bob_Ingest_1793664000").
Definition tea : Graphiti.node := Graphiti.mk_node 3%N ["Entity"] (Some "tea").
Definition coffee : Graphiti.node := Graphiti.mk_node 4%N ["Entity"] (Some "coffee").
Definition lonely : Graphiti.node := Graphiti.mk_node 5%N ["Entity"] (Some "lonely").

Definition graph : Graphiti.graph :=
  Graphiti.mk_graph [old_episode; fresh_episode; tea; coffee; lonely]
                    [(1%N, 3%N); (2%N, 4%N)].

(** Two search results of service B: an edge with a fact, and an episode
    with a content. *)
Definition edge_result : value :=
  VDict [("fact", VStr "bob likes tea"); ("source_node_name", VStr "bob");
         ("target_node_name", VStr "tea")].
Definition episode_result : value :=
  VDict [("content", VStr "bob said he likes tea")].

Definition graph_library (results : list value) : Eff.oracle Graphiti.call :=
  fun _ _ => Ok (VList results).

(** Environments for the start of service C: a vector store that refuses
    every connection, one whose host name does not resolve, and one that is
    up.  Printing, sleeping and closing succeed in all of them. *)
Definition transient (e : exn) : bool :=
  match e with
  | Exn kind _ => String.eqb kind "ConnectionRefusedError" || String.eqb kind "TimeoutError"
  end.

Definition refused : exn := Exn "ConnectionRefusedError" "[Errno 111] Connection refused".
Definition unknown_host : exn := Exn "gaierror" "[Errno -2] Name or service not known".

Definition qdrant_fails (e : exn) : Eff.oracle Mem0.boot_call :=
  fun _ c =>
    match c with
    | Mem0.CreateConnection _ _ _ => Raise e
    | _ => Ok VNone
    end.

(** Environments for the startup of service B: a database that rejects
    every driver, and one in which everything succeeds and [SHOW INDEXES]
    lists the given records. *)
Definition neo4j_fails (e : exn) : Eff.oracle Graphiti.boot_call :=
  fun _ c =>
    match c with
    | Graphiti.NewDriver _ _ _ => Raise e
    | _ => Ok VNone
    end.

Definition neo4j_up (indexes : list value) : Eff.oracle Graphiti.boot_call :=
  fun _ c =>
    match c with
    | Graphiti.RunStatement Graphiti.ShowIndexes => Ok (VList indexes)
    | _ => Ok VNone
    end.

Definition unauthorized : exn :=
  Exn "AuthError" "The client is unauthorized due to authentication failure.".

End Sample.

(* ===================================================================== *)
(** * Notions for the further properties                                  *)
(* ===================================================================== *)

Module Coverage.
Import Py Http Eff.

(** The value is a JSON object. *)
Definition is_object (v : value) : bool :=
  match v with VDict _ => true | _ => false end.

(** [l'] is [l] with some rows taken out, the others in their order. *)
Definition subtable {A} (l' l : list A) : Prop :=
  exists keep : A -> bool, l' = filter keep l.

(** Every table of [s'] is the table of [s] with some rows taken out. *)
Definition only_removes (s' s : Cognee.db) : Prop :=
  subtable (Cognee.datasets s') (Cognee.datasets s) /\
  subtable (Cognee.data s') (Cognee.data s) /\
  subtable (Cognee.dataset_data s') (Cognee.dataset_data s) /\
  subtable (Cognee.acls s') (Cognee.acls s) /\
  subtable (Cognee.dataset_database s') (Cognee.dataset_database s) /\
  subtable (Cognee.pipeline_runs s') (Cognee.pipeline_runs s).

(** The composite names a delete request of service A stands for. *)
Definition requested_names (B : builtins) (user_id : value) (categories : list value)
  : list string :=
  map (fun cat => (str B user_id ++ "_" ++ str B cat)%string) categories.

(** Every relationship of [g] starts and ends at a node of [g]. *)
Definition well_formed (g : Graphiti.graph) : Prop :=
  forall r, In r (Graphiti.relationships g) ->
            In (fst r) (map Graphiti.node_id (Graphiti.nodes g)) /\
            In (snd r) (map Graphiti.node_id (Graphiti.nodes g)).

(** No relationship of [g] starts or ends at [n]. *)
Definition isolated (g : Graphiti.graph) (n : Graphiti.node) : bool :=
  negb (existsb (Graphiti.touches (Graphiti.node_id n)) (Graphiti.relationships g)).

(** A search result of service B that makes it into the answer. *)
Definition shown (r : value) : bool :=
  Graphiti.hasattr r "fact" || Graphiti.hasattr r "content".

(** A search result without a fact has, if it has a content, a string as
    content. *)
Definition content_ok (r : value) : Prop :=
  Graphiti.hasattr r "fact" = false -> Graphiti.hasattr r "content" = true ->
  exists s, Graphiti.getattr r "content" VNone = VStr s.

(** The answer [raw] of [memory.search] stands for the candidates [l]: a
    dict gives its [results] (none if it has no such key), a list gives
    itself, anything else gives none. *)
Definition lists (raw : value) (l : list value) : Prop :=
  (exists r, raw = VDict r /\ lookup "results" r = Some (VList l)) \/
  (exists r, raw = VDict r /\ lookup "results" r = None /\ l = []) \/
  raw = VList l \/
  (Mem0.is_dict raw = false /\ Mem0.is_list raw = false /\ l = []).

(** The request names no category: the key is absent or its value is
    falsy. *)
Definition no_category (p : list (string * value)) : Prop :=
  match lookup "category" p with
  | Some c => truthy c = false
  | None => True
  end.

(** Events of the start of service C. *)
Definition is_connect (ev : event Mem0.boot_call) : bool :=
  match fst ev with Mem0.CreateConnection _ _ _ => true | _ => false end.

Definition is_from_config (ev : event Mem0.boot_call) : bool :=
  match fst ev with Mem0.FromConfig _ _ _ => true | _ => false end.

Definition is_sleep (seconds : Z) (ev : event Mem0.boot_call) : bool :=
  match fst ev with Mem0.Sleep n => n =? seconds | _ => false end.

Definition succeeded {call} (ev : event call) : bool :=
  match snd ev with Ok _ => true | Raise _ => false end.

(** Printing, sleeping and closing a socket do not fail. *)
Definition quiet (o : oracle Mem0.boot_call) : Prop :=
  forall hist c,
    match c with
    | Mem0.CreateConnection _ _ _ | Mem0.FromConfig _ _ _ => True
    | _ => exists v, o hist c = Ok v
    end.

(** What one round of waiting and all the rounds after it do: at most one
    connection attempt per round, no [Memory.from_config], and the only
    value ever returned is True, after a connection that succeeded. *)
Definition waited (n : nat) (out : result value) (rest : list (event Mem0.boot_call)) : Prop :=
  (length (filter is_connect rest) <= n)%nat /\
  Forall (fun ev => is_from_config ev = false) rest /\
  (forall v, out = Ok v ->
             v = VBool true /\ existsb (fun ev => is_connect ev && succeeded ev) rest = true).

(** What the [try] block of the module start does up to the assignment of
    [memory]: [Memory.from_config] is called at most once and only after a
    connection that succeeded, and the block runs through exactly when that
    call succeeds. *)
Definition configured (out : result value) (rest : list (event Mem0.boot_call)) : Prop :=
  (length (filter is_from_config rest) <= 1)%nat /\
  ((exists v, out = Ok v) <->
   existsb (fun ev => is_from_config ev && succeeded ev) rest = true) /\
  (existsb is_from_config rest = true ->
   existsb (fun ev => is_connect ev && succeeded ev) rest = true).

(** Events of the startup of service B. *)
Definition is_attempt (ev : event Graphiti.boot_call) : bool :=
  match fst ev with Graphiti.NewDriver _ _ _ => true | _ => false end.

Definition opened_driver (ev : event Graphiti.boot_call) : bool :=
  match ev with (Graphiti.NewDriver _ _ _, Ok _) => true | _ => false end.

Definition closes_driver (ev : event Graphiti.boot_call) : bool :=
  match fst ev with Graphiti.CloseDriver => true | _ => false end.

Definition verified (ev : event Graphiti.boot_call) : bool :=
  match ev with (Graphiti.VerifyConnectivity, Ok _) => true | _ => false end.

Definition not_verified (ev : event Graphiti.boot_call) : bool :=
  match ev with (Graphiti.VerifyConnectivity, Raise _) => true | _ => false end.

Definition sleeps (ev : event Graphiti.boot_call) : bool :=
  match fst ev with Graphiti.Sleep _ => true | _ => false end.

(** The drivers opened are the drivers closed and the drivers whose
    verification failed. *)
Definition balanced (tr : list (event Graphiti.boot_call)) : Prop :=
  length (filter opened_driver tr)
  = (length (filter closes_driver tr) + length (filter not_verified tr))%nat.

(** What the rounds of [wait_for_neo4j] do. *)
Definition waited_neo4j (n : nat) (out : result value)
    (rest : list (event Graphiti.boot_call)) : Prop :=
  (length (filter is_attempt rest) <= n)%nat /\
  balanced rest /\
  (forall v, out = Ok v -> v = VBool true /\ existsb verified rest = true).

(** Printing and sleeping do not fail. *)
Definition calm (o : oracle Graphiti.boot_call) : Prop :=
  forall hist c,
    match c with
    | Graphiti.Print _ | Graphiti.Sleep _ => exists v, o hist c = Ok v
    | _ => True
    end.

(** The statement [s] was run. *)
Definition ran (s : Graphiti.statement) (tr : list (event Graphiti.boot_call)) : Prop :=
  In (Graphiti.RunStatement s) (map fst tr).

(** [SHOW INDEXES] was answered with records whose names do not include
    [name]. *)
Definition not_listed (name : string) (tr : list (event Graphiti.boot_call)) : Prop :=
  exists result records indexes,
    In (Graphiti.RunStatement Graphiti.ShowIndexes, Ok result) tr /\
    iter result = Ok records /\ Graphiti.names records = Ok indexes /\
    existsb (is_str name) indexes = false.

End Coverage.

(* ===================================================================== *)
(** * Properties                                                          *)
(* ===================================================================== *)

Import Py Http Eff Contract.

(** ** Strings *)

Lemma truthy_str (s : string) : s <> ""%string -> truthy (VStr s) = true.
Proof.
  intros H. simpl. destruct (String.eqb_spec s ""); [contradiction | reflexivity].
Qed.

Lemma composite_key_injective (u1 c1 u2 c2 : string) :
  underscore_free u1 -> underscore_free u2 ->
  composite_key u1 c1 = composite_key u2 c2 -> u1 = u2 /\ c1 = c2.
Proof.
  unfold underscore_free, composite_key.
  revert u2. induction u1 as [|a u1 IH]; intros [|b u2] H1 H2 E; simpl in *.
  - inversion E. auto.
  - inversion E; subst. simpl in H2. discriminate.
  - inversion E; subst. simpl in H1. discriminate.
  - inversion E; subst.
    apply orb_false_iff in H1 as [_ H1]. apply orb_false_iff in H2 as [_ H2].
    destruct (IH u2 H1 H2 H3) as [-> ->]. auto.
Qed.

(** ** C1: the composite key as scoping token *)

(** C1, counterexample.  The claim has every service derive the token
    ["{user_id}_{category}"] in its add and search handlers and reach a
    write by a read under the same pair.  Service C passes the bare user id
    to the library, on write and on read; and in service A a write under the
    pair ("alice", "") goes to the dataset "alice_" while the search under
    the same pair is refused with 400 before any library call. *)
Lemma C1_counterexample :
  let write := VDict [("data", VStr "note"); ("user_id", VStr "alice");
                      ("category", VStr "work")] in
  let read := VDict [("query", VStr "note"); ("user_id", VStr "alice");
                     ("category", VStr "work")] in
  let write0 := VDict [("data", VStr "note"); ("user_id", VStr "alice");
                       ("category", VStr "")] in
  let read0 := VDict [("query", VStr "note"); ("user_id", VStr "alice");
                      ("category", VStr "")] in
  composite_key "alice" "work" = "alice_work"%string /\
  VStr "alice" <> VStr (composite_key "alice" "work") /\
  first_call (Mem0.add_memory true write)
    = Some (Mem0.Add (VStr "note") (VStr "alice") (VStr "work")) /\
  first_call (Mem0.search_memories true read)
    = Some (Mem0.Search (VStr "note") (VStr "alice") 20 55) /\
  first_call (Cognee.add_memory Sample.builtins write0)
    = Some (Cognee.Add (VStr "note") (composite_key "alice" "")) /\
  Cognee.search_memory Sample.builtins read0
    = Ret (mk_response 400 (json [("error", VStr "Query, user_id, and category are required")])).
Proof. repeat split. discriminate. Qed.

Lemma has_key_lookup (k : string) (d : list (string * value)) (v : value) :
  lookup k d = Some v -> has_key k d = true.
Proof. unfold has_key. now intros ->. Qed.

Lemma truthy_dict_lookup (k : string) (d : list (string * value)) (v : value) :
  lookup k d = Some v -> truthy (VDict d) = true.
Proof. destruct d; simpl; [discriminate | reflexivity]. Qed.

(** C1, amended.  The key is injective on pairs without underscore, and
    for such a pair accepted by the handlers (non-empty data, query, user id
    and category) the add and search handlers of services A and B hand the
    library the same token [composite_key user_id category]; service C
    derives no composite token: it scopes the write and the read by the
    user id alone and passes the category as metadata. *)
Theorem C1_namespace_token (B : builtins) (driver : bool) (now : Z)
    (w r : list (string * value)) (d q u c u' c' : string) :
  lookup "data" w = Some (VStr d) ->
  lookup "user_id" w = Some (VStr u) ->
  lookup "category" w = Some (VStr c) ->
  lookup "query" r = Some (VStr q) ->
  lookup "user_id" r = Some (VStr u) ->
  lookup "category" r = Some (VStr c) ->
  d <> ""%string -> q <> ""%string -> u <> ""%string -> c <> ""%string ->
  underscore_free u -> underscore_free c ->
  underscore_free u' -> underscore_free c' ->
  (composite_key u c = composite_key u' c' -> u = u' /\ c = c') /\
  first_call (Cognee.add_memory B (VDict w))
    = Some (Cognee.Add (VStr d) (composite_key u c)) /\
  first_call (Cognee.search_memory B (VDict r))
    = Some (Cognee.Search (VStr q) [composite_key u c]) /\
  first_call (Graphiti.add_data B (Graphiti.mk_globals true driver) now (VDict w))
    = Some (Graphiti.AddEpisode (episode_name u now) (VStr d)
              ("user:" ++ u ++ "|category:" ++ c)%string (composite_key u c)) /\
  first_call (Graphiti.strict_search B (Graphiti.mk_globals true driver) (VDict r))
    = Some (Graphiti.Search (VStr q) [composite_key u c]) /\
  first_call (Mem0.add_memory true (VDict w))
    = Some (Mem0.Add (VStr d) (VStr u) (VStr c)) /\
  first_call (Mem0.search_memories true (VDict r))
    = Some (Mem0.Search (VStr q) (VStr u) 20 55).
Proof.
  intros Hd Hu Hc Hq Hu' Hc' Nd Nq Nu Nc Fu Fc Fu' Fc'.
  pose proof (truthy_str d Nd) as Td. pose proof (truthy_str q Nq) as Tq.
  pose proof (truthy_str u Nu) as Tu. pose proof (truthy_str c Nc) as Tc.
  split; [intros E; exact (composite_key_injective u c u' c' Fu Fu' E)|].
  split; [unfold Cognee.add_memory, get, get_default; rewrite Hd, Hu, Hc;
          cbn [lift bind]; rewrite Td, Tu; reflexivity|].
  split; [unfold Cognee.search_memory, get, get_default; rewrite Hq, Hu', Hc';
          cbn [lift bind]; rewrite Tq, Tu, Tc; reflexivity|].
  split; [unfold Graphiti.add_data, get, get_default; rewrite Hd, Hu, Hc;
          cbn [lift bind Graphiti.graphiti negb]; rewrite Td, Tu; reflexivity|].
  split; [unfold Graphiti.strict_search, get, get_default; rewrite Hq, Hu', Hc';
          cbn [lift bind Graphiti.graphiti negb]; rewrite Tq, Tu, Tc; reflexivity|].
  split.
  - unfold Mem0.add_memory, Mem0.missing, contains, subscript, get_default.
    rewrite (truthy_dict_lookup _ _ _ Hd), (has_key_lookup _ _ _ Hd),
      (has_key_lookup _ _ _ Hu), Hd, Hu, Hc. reflexivity.
  - unfold Mem0.search_memories, Mem0.missing, contains, subscript, get, get_default.
    rewrite (truthy_dict_lookup _ _ _ Hq), (has_key_lookup _ _ _ Hq),
      (has_key_lookup _ _ _ Hu'), Hq, Hu', Hc'. reflexivity.
Qed.

Lemma C1_namespace_token_witness :
  let w := [("data", VStr "note"); ("user_id", VStr "alice"); ("category", VStr "work")] in
  let r := [("query", VStr "note"); ("user_id", VStr "alice"); ("category", VStr "work")] in
  (composite_key "alice" "work" = composite_key "bob" "home" ->
   "alice"%string = "bob"%string /\ "work"%string = "home"%string) /\
  first_call (Cognee.add_memory Sample.builtins (VDict w))
    = Some (Cognee.Add (VStr "note") (composite_key "alice" "work")) /\
  first_call (Cognee.search_memory Sample.builtins (VDict r))
    = Some (Cognee.Search (VStr "note") [composite_key "alice" "work"]) /\
  first_call (Graphiti.add_data Sample.builtins (Graphiti.mk_globals true true)
                Sample.today (VDict w))
    = Some (Graphiti.AddEpisode (episode_name "alice" Sample.today) (VStr "note")
              "user:alice|category:work" (composite_key "alice" "work")) /\
  first_call (Graphiti.strict_search Sample.builtins (Graphiti.mk_globals true true) (VDict r))
    = Some (Graphiti.Search (VStr "note") [composite_key "alice" "work"]) /\
  first_call (Mem0.add_memory true (VDict w))
    = Some (Mem0.Add (VStr "note") (VStr "alice") (VStr "work")) /\
  first_call (Mem0.search_memories true (VDict r))
    = Some (Mem0.Search (VStr "note") (VStr "alice") 20 55).
Proof.
  intros w r.
  apply (C1_namespace_token Sample.builtins true Sample.today w r
           "note" "note" "alice" "work" "bob" "home");
    try reflexivity; discriminate.
Defined.

(** ** C7: add/ingest without [data] or [user_id] *)

(** C7, counterexample.  When the initialisation of service C fails (the
    vector store did not come up), the application serves with [memory] still
    None, and an add request that lacks [data] is answered 500, not 400. *)
Lemma C7_counterexample :
  let memory := Mem0.startup (Raise (Exn "Exception" "Qdrant did not become ready in time")) in
  let payload := VDict [("user_id", VStr "alice")] in
  lookup "data" [("user_id", VStr "alice")] = None /\
  Mem0.add_memory memory payload
  = Ret (mk_response 500 (json [("status", VStr "error");
                                ("message", VStr "Memory not initialized")])) /\
  forall o : oracle Mem0.call, status (respond o (Mem0.add_memory memory payload)) <> 400.
Proof.
  repeat split. intros o. cbn. discriminate.
Qed.

Lemma missing_absent (d : list (string * value)) :
  lookup "data" d = None \/ lookup "user_id" d = None ->
  Mem0.missing (VDict d) ["data"; "user_id"] = Ok true.
Proof.
  intros H. unfold Mem0.missing, contains, has_key.
  destruct d as [|kv d]; [reflexivity|]. cbn [truthy negb].
  destruct (lookup "data" (kv :: d)); [|reflexivity].
  destruct H as [H|H]; [discriminate | now rewrite H].
Qed.

(** C7, amended.  For an add/ingest request whose JSON object lacks [data]
    or [user_id], no handler makes any library call; service A answers 400,
    and services B and C answer 400 when their global object is
    initialised and 500 when it is not. *)
Theorem C7_missing_fields (B : builtins) (gl : Graphiti.globals) (memory : bool) (now : Z)
    (p : list (string * value)) :
  lookup "data" p = None \/ lookup "user_id" p = None ->
  (exists r, Cognee.add_memory B (VDict p) = Ret r /\ status r = 400) /\
  (exists r, Graphiti.add_data B gl now (VDict p) = Ret r /\
             status r = if Graphiti.graphiti gl then 400 else 500) /\
  (exists r, Mem0.add_memory memory (VDict p) = Ret r /\
             status r = if memory then 400 else 500).
Proof.
  intros H.
  assert (F : exists a b, get (VDict p) "data" = Ok a /\ get (VDict p) "user_id" = Ok b /\
                          negb (truthy a) || negb (truthy b) = true).
  { unfold get, get_default. do 2 eexists. split; [reflexivity|]. split; [reflexivity|].
    destruct H as [H|H]; rewrite H; cbn; [reflexivity | apply orb_true_r]. }
  destruct F as (a & b & Ha & Hb & F).
  split; [|split].
  - eexists. unfold Cognee.add_memory. rewrite Ha, Hb.
    unfold get_default. cbn [lift bind]. rewrite F. cbn. split; reflexivity.
  - unfold Graphiti.add_data. destruct (Graphiti.graphiti gl); cbn [negb].
    + eexists. rewrite Ha, Hb. unfold get_default. cbn [lift bind]. rewrite F.
      split; reflexivity.
    + eexists. split; reflexivity.
  - unfold Mem0.add_memory. destruct memory; cbn [negb].
    + rewrite (missing_absent p H). eexists. split; reflexivity.
    + eexists. split; reflexivity.
Qed.

Lemma C7_missing_fields_witness :
  (exists r, Cognee.add_memory Sample.builtins (VDict [("user_id", VStr "alice")]) = Ret r /\
             status r = 400) /\
  (exists r, Graphiti.add_data Sample.builtins (Graphiti.mk_globals true true) Sample.today
               (VDict [("user_id", VStr "alice")]) = Ret r /\ status r = 400) /\
  (exists r, Mem0.add_memory true (VDict [("user_id", VStr "alice")]) = Ret r /\
             status r = 400).
Proof.
  apply (C7_missing_fields Sample.builtins (Graphiti.mk_globals true true) true Sample.today
           [("user_id", VStr "alice")]).
  left. reflexivity.
Defined.

(** ** C9: key presence in service C, truthiness in services A and B *)

Lemma missing_dict (d : list (string * value)) (b : bool) :
  Mem0.missing (VDict d) ["data"; "user_id"] = Ok b ->
  b = match d with
      | [] => true
      | _ => negb (has_key "data" d) || negb (has_key "user_id" d)
      end.
Proof.
  unfold Mem0.missing, contains. destruct d as [|kv d]; cbn [truthy negb].
  - now intros [= <-].
  - destruct (has_key "data" (kv :: d)); cbn [negb orb].
    + destruct (has_key "user_id" (kv :: d)); now intros [= <-].
    + now intros [= <-].
Qed.

(** C9.  Service C answers 400 to an add request only if the body is
    empty or lacks the key [data] or [user_id]; with both keys present and
    empty strings as values it calls the library's add with them.  Services
    A and B answer 400 as soon as [data] or [user_id] is the empty string. *)
Theorem C9_presence_not_truthiness (B : builtins) (driver : bool) (now : Z)
    (p : list (string * value)) :
  lookup "data" p = Some (VStr "") ->
  lookup "user_id" p = Some (VStr "") ->
  first_call (Mem0.add_memory true (VDict p))
    = Some (Mem0.Add (VStr "") (VStr "")
              (match lookup "category" p with Some c => c | None => VStr "general" end)) /\
  (forall (o : oracle Mem0.call) (memory : bool) (q : list (string * value)),
     status (respond o (Mem0.add_memory memory (VDict q))) = 400 ->
     q = [] \/ lookup "data" q = None \/ lookup "user_id" q = None) /\
  (forall q : list (string * value),
     lookup "data" q = Some (VStr "") \/ lookup "user_id" q = Some (VStr "") ->
     (exists r, Cognee.add_memory B (VDict q) = Ret r /\ status r = 400) /\
     (exists r, Graphiti.add_data B (Graphiti.mk_globals true driver) now (VDict q) = Ret r /\
                status r = 400)).
Proof.
  intros Hd Hu. split; [|split].
  - unfold Mem0.add_memory, Mem0.missing, contains, subscript, get_default.
    rewrite (truthy_dict_lookup _ _ _ Hd), (has_key_lookup _ _ _ Hd),
      (has_key_lookup _ _ _ Hu), Hd, Hu. reflexivity.
  - intros o memory q. unfold respond, Mem0.add_memory.
    destruct memory; cbn [negb]; [|cbn; discriminate].
    destruct (Mem0.missing (VDict q) ["data"; "user_id"]) as [b|e] eqn:M;
      [|cbn; discriminate].
    apply missing_dict in M. cbn [lift bind]. destruct b.
    + intros _. destruct q as [|kv q]; [now left|right].
      unfold has_key in M.
      destruct (lookup "data" (kv :: q)); [|now left].
      destruct (lookup "user_id" (kv :: q)); [discriminate | now right].
    + intros E. exfalso. revert E.
      unfold subscript, get_default.
      destruct (lookup "data" q); cbn; [|lia].
      destruct (lookup "user_id" q); cbn; [|lia].
      destruct (o [] _); cbn; lia.
  - intros q H.
    assert (F : exists a b, get (VDict q) "data" = Ok a /\ get (VDict q) "user_id" = Ok b /\
                            negb (truthy a) || negb (truthy b) = true).
    { unfold get, get_default. do 2 eexists. split; [reflexivity|]. split; [reflexivity|].
      destruct H as [H|H]; rewrite H; cbn; [reflexivity | apply orb_true_r]. }
    destruct F as (a & b & Ha & Hb & F). split.
    + eexists. unfold Cognee.add_memory. rewrite Ha, Hb.
      unfold get_default. cbn [lift bind]. rewrite F. cbn. split; reflexivity.
    + eexists. unfold Graphiti.add_data. cbn [Graphiti.graphiti negb].
      rewrite Ha, Hb. unfold get_default. cbn [lift bind]. rewrite F.
      split; reflexivity.
Qed.

Lemma C9_presence_not_truthiness_witness :
  first_call (Mem0.add_memory true (VDict [("data", VStr ""); ("user_id", VStr "")]))
    = Some (Mem0.Add (VStr "") (VStr "") (VStr "general")).
Proof.
  exact (proj1 (C9_presence_not_truthiness Sample.builtins true Sample.today
                  [("data", VStr ""); ("user_id", VStr "")] eq_refl eq_refl)).
Defined.

(** ** C8: the health probes *)

(** C8, counterexample.  Service C routes no [/health]: with [memory]
    initialised, [GET /health] is answered 404 by the framework.  Service A
    has a [/health] route whose handler consults no client object; as
    written it answers 500 "unhealthy" whatever the state. *)
Lemma C8_counterexample :
  Mem0.handle Sample.builtins (Mem0.startup (Ok tt)) Sample.today_micros GET "/health" VNone
  = Ret not_found /\
  status not_found = 404 /\
  (forall s : Cognee.db,
     exists r, Cognee.handle Sample.builtins [] Sample.today_micros (Ok tt)
                 GET "/health" VNone s = Ret (r, s) /\
               status r = 500 /\ field "status" (body r) = Some (VStr "unhealthy")).
Proof.
  repeat split. intros s. eexists. repeat split.
Qed.

(** C8, amended.  In service B, [GET /health] answers 200 "healthy" if
    and only if both global objects [graphiti] and [async_driver] are
    initialised, and 503 "unhealthy" otherwise; it makes no library call and
    leaves the graph as it is.  The health handler of service A depends on
    no client object, makes no library call and leaves the store as it is.
    Service C has no health route. *)
Theorem C8_health (B : builtins) (toInteger : string -> option Z) :
  (forall gl now payload g,
     Graphiti.handle B toInteger gl now GET "/health" payload g
     = Ret (Graphiti.health_check gl, g)) /\
  (forall gl,
     (status (Graphiti.health_check gl) = 200 /\
      field "status" (body (Graphiti.health_check gl)) = Some (VStr "healthy"))
     <-> (Graphiti.graphiti gl = true /\ Graphiti.async_driver gl = true)) /\
  (forall gl,
     ~ (Graphiti.graphiti gl = true /\ Graphiti.async_driver gl = true) ->
     status (Graphiti.health_check gl) = 503 /\
     field "status" (body (Graphiti.health_check gl)) = Some (VStr "unhealthy")) /\
  (forall env now connect payload s,
     Cognee.handle B env now connect GET "/health" payload s
     = Ret (Cognee.health_check B (mk_datetime now false), s)) /\
  (forall memory now payload,
     Mem0.handle B memory now GET "/health" payload = Ret not_found).
Proof.
  split; [reflexivity|]. split; [|split; [|split; reflexivity]].
  - intros [[|] [|]]; cbn; split; intros [H1 H2]; try (split; reflexivity);
      try discriminate; lia.
  - intros [[|] [|]] H; cbn; try (split; reflexivity);
      exfalso; apply H; split; reflexivity.
Qed.

(** ** C6: the category as a preference in service C's search *)





Lemma missing_present (d : list (string * value)) (k1 k2 : string) (v1 v2 : value) :
  lookup k1 d = Some v1 -> lookup k2 d = Some v2 ->
  Mem0.missing (VDict d) [k1; k2] = Ok false.
Proof.
  intros H1 H2. unfold Mem0.missing, contains.
  now rewrite (truthy_dict_lookup _ _ _ H1), (has_key_lookup _ _ _ H1),
    (has_key_lookup _ _ _ H2).
Qed.



(** ** Running programs *)

Lemma run_bind {call A C} (o : oracle call) (p : prog call A) (f : A -> prog call C)
    (hist : list (event call)) :
  run o (bind p f) hist
  = match run o p hist with
    | (Ok a, hist') => run o (f a) hist'
    | (Raise e, hist') => (Raise e, hist')
    end.
Proof.
  revert hist. induction p as [a|e|c k IH]; intros hist; cbn; try reflexivity.
  apply IH.
Qed.

Lemma run_catch {call A} (o : oracle call) (p : prog call A) (h : exn -> prog call A)
    (hist : list (event call)) :
  run o (catch p h) hist
  = match run o p hist with
    | (Ok a, hist') => (Ok a, hist')
    | (Raise e, hist') => run o (h e) hist'
    end.
Proof.
  revert hist. induction p as [a|e|c k IH]; intros hist; cbn; try reflexivity.
  apply IH.
Qed.

Lemma run_lift {call A} (o : oracle call) (r : result A) (hist : list (event call)) :
  run o (lift r) hist = (r, hist).
Proof. now destruct r. Qed.

(** ** C4 and C10: service C's cleanup loop *)

Section Mem0Cleanup.
Variable B : builtins.
Variable o : oracle Mem0.call.
Variable cutoff : datetime.
Hypothesis cutoff_aware : aware cutoff = true.

Lemma loop_skips (d : list (string * value)) (rest : list value) (c : Z) (errs : list value) :
  match lookup "created_at" d with Some v => truthy v = false | None => True end ->
  Mem0.delete_loop B cutoff (VDict d :: rest) c errs = Mem0.delete_loop B cutoff rest c errs.
Proof.
  intros H. cbn [Mem0.delete_loop]. unfold get, get_default.
  destruct (lookup "created_at" d) as [v|]; cbn [lift bind]; [now rewrite H | reflexivity].
Qed.

Lemma skipped_not_expired (d : list (string * value)) :
  match lookup "created_at" d with Some v => truthy v = false | None => True end ->
  expired B cutoff (VDict d) = false.
Proof.
  unfold expired, field. destruct (lookup "created_at" d) as [[| | |s| |]|]; try reflexivity.
  cbn. intros H. now rewrite (proj1 (negb_false_iff _) H).
Qed.

Lemma loop_dated (d : list (string * value)) (s : string) (t : datetime) (i : value)
    (rest : list value) (c : Z) (errs : list value) (hist : list (event Mem0.call)) :
  lookup "created_at" d = Some (VStr s) -> truthy (VStr s) = true ->
  fromisoformat B s = Ok t -> aware t = true -> lookup "id" d = Some i ->
  expired B cutoff (VDict d) = (micros t <? micros cutoff) /\
  run o (Mem0.delete_loop B cutoff (VDict d :: rest) c errs) hist
  = if micros t <? micros cutoff
    then match o hist (Mem0.Delete i) with
         | Ok v => run o (Mem0.delete_loop B cutoff rest (c + 1) errs)
                     (hist ++ [(Mem0.Delete i, Ok v)])
         | Raise e =>
             run o (Mem0.delete_loop B cutoff rest c
                      (errs ++ [VStr ("Could not delete memory " ++ str B i
                                        ++ ": " ++ exn_str e)%string]))
                   (hist ++ [(Mem0.Delete i, Raise e)])
         end
    else run o (Mem0.delete_loop B cutoff rest c errs) hist.
Proof.
  intros Hc Ht Hp Ha Hi. split.
  - unfold expired, field. rewrite Hc, Hp. cbn in Ht. now rewrite Ht.
  - cbn [Mem0.delete_loop]. unfold get, get_default. rewrite Hc. cbn [lift bind].
    rewrite Ht. cbn [negb parse_datetime]. rewrite Hp. cbn [lift bind].
    unfold datetime_lt. rewrite Ha, cutoff_aware. cbn [Bool.eqb lift bind].
    destruct (micros t <? micros cutoff); [|reflexivity].
    unfold subscript. rewrite Hi. cbn [lift bind attempt invoke run].
    destruct (o hist (Mem0.Delete i)) as [v|e]; reflexivity.
Qed.

Lemma outcome_eq {A E : Type} (x x' : Z) (l l' : list A) (h h' : list E) :
  x = x' -> l = l' -> h = h' ->
  (Ok (x, l), h) = (Ok (x', l'), h').
Proof. now intros -> -> ->. Qed.

(** The loop over well-formed records: one delete call per expired record,
    one more in the count per call that succeeds, one more error per call
    that fails. *)
Lemma loop_outcome (mems : list value) :
  Forall (record_ok B) mems ->
  forall (c : Z) (errs : list value) (hist : list (event Mem0.call)),
  exists evs new_errs,
    run o (Mem0.delete_loop B cutoff mems c errs) hist
    = (Ok (c + Z.of_nat (length evs) - Z.of_nat (length (filter failed evs)),
           errs ++ new_errs), hist ++ evs) /\
    filter is_delete evs = evs /\
    length evs = length (filter (expired B cutoff) mems) /\
    length new_errs = length (filter failed evs).
Proof.
  induction 1 as [|mem mems Hm _ IH]; intros c errs hist.
  - exists [], []. cbn. rewrite !app_nil_r. repeat split.
    now replace (c + 0 - 0) with c by lia.
  - destruct Hm as (d & -> & (i & Hi) & Hc).
    destruct (lookup "created_at" d) as [v|] eqn:Ec.
    + destruct Hc as [Hf|(s & t & -> & Hp & Ha)].
      * assert (Sk : match lookup "created_at" d with
                     | Some v => truthy v = false | None => True end)
          by now rewrite Ec.
        rewrite (loop_skips d mems c errs Sk). cbn [filter].
        rewrite (skipped_not_expired d Sk). apply IH.
      * destruct (truthy (VStr s)) eqn:Ts.
        -- destruct (loop_dated d s t i mems c errs hist Ec Ts Hp Ha Hi) as [Ex Run].
           rewrite Run. cbn [filter]. rewrite Ex.
           destruct (micros t <? micros cutoff); [|apply IH].
           destruct (o hist (Mem0.Delete i)) as [v|e].
           ++ destruct (IH (c + 1) errs (hist ++ [(Mem0.Delete i, Ok v)]))
                as (evs & ne & R & D & L & F).
              exists ((Mem0.Delete i, Ok v) :: evs), ne. rewrite R.
              cbn [filter is_delete failed fst snd length]. rewrite D, <- app_assoc.
              repeat split; [|now rewrite L|exact F].
              apply outcome_eq; [lia | reflexivity | reflexivity].
           ++ destruct (IH c (errs ++ [VStr ("Could not delete memory " ++ str B i
                                                ++ ": " ++ exn_str e)%string])
                          (hist ++ [(Mem0.Delete i, Raise e)]))
                as (evs & ne & R & D & L & F).
              exists ((Mem0.Delete i, Raise e) :: evs),
                (VStr ("Could not delete memory " ++ str B i ++ ": " ++ exn_str e)%string :: ne).
              rewrite R.
              cbn [filter is_delete failed fst snd length]. rewrite D, <- !app_assoc.
              repeat split; [|now rewrite L|now rewrite F].
              apply outcome_eq; [lia | reflexivity | reflexivity].
        -- assert (Sk : match lookup "created_at" d with
                        | Some v => truthy v = false | None => True end)
             by now rewrite Ec.
           rewrite (loop_skips d mems c errs Sk). cbn [filter].
           rewrite (skipped_not_expired d Sk). apply IH.
    + assert (Sk : match lookup "created_at" d with
                   | Some v => truthy v = false | None => True end)
        by now rewrite Ec.
      rewrite (loop_skips d mems c errs Sk). cbn [filter].
      rewrite (skipped_not_expired d Sk). apply IH.
Qed.

End Mem0Cleanup.

Lemma missing_one_present (d : list (string * value)) (k : string) (v : value) :
  lookup k d = Some v -> Mem0.missing (VDict d) [k] = Ok false.
Proof.
  intros H. unfold Mem0.missing, contains.
  now rewrite (truthy_dict_lookup _ _ _ H), (has_key_lookup _ _ _ H).
Qed.

(** The handler up to the loop: the listing is fetched, then the loop runs
    on the fetched records, and its outcome decides the answer. *)
Lemma delete_old_memories_run (B : builtins) (o : oracle Mem0.call) (now : Z)
    (p r : list (string * value)) (user_id : value) (mems : list value) :
  lookup "user_id" p = Some user_id ->
  o [] (Mem0.GetAll user_id) = Ok (VDict r) ->
  lookup "results" r = Some (VList mems) ->
  run o (Mem0.delete_old_memories B true now (VDict p)) []
  = match run o (Mem0.delete_loop B (minus_days (mk_datetime now true) 90) mems 0 [])
                [(Mem0.GetAll user_id, Ok (VDict r))] with
    | (Ok (deleted_count, []), hist) =>
        (Ok (mk_response 200 (json [("status", VStr "success");
                                    ("deleted_count", VInt deleted_count)])), hist)
    | (Ok (deleted_count, e :: errors), hist) =>
        (Ok (mk_response 207 (json [("status", VStr "partial_success");
                                    ("deleted_count", VInt deleted_count);
                                    ("errors", VList (e :: errors))])), hist)
    | (Raise e, hist) => (Ok (Mem0.failure e), hist)
    end.
Proof.
  intros Hu Ho Hr. unfold Mem0.delete_old_memories. cbn [negb].
  rewrite (missing_one_present _ _ _ Hu). cbn [lift bind].
  unfold subscript. rewrite Hu. cbn [lift bind].
  rewrite run_catch. cbn [invoke bind run]. rewrite Ho. cbn [lift bind Datatypes.app].
  unfold get_default. rewrite Hr. cbn [lift bind iter]. rewrite run_bind.
  destruct (run o _ _) as [[[c [|e errs]]|e] hist]; reflexivity.
Qed.

(** C4.  For a cleanup request over fetched records of which [n] are older
    than the 90-day cutoff, the handler issues [n] delete calls; if none of
    them fails the answer is 200 "success" with [deleted_count = n]; if [j]
    of them fail ([0 < j <= n]) the answer is 207 "partial_success" with
    [deleted_count = n - j] and [j] entries in [errors]. *)
Theorem C4_cleanup_report (B : builtins) (o : oracle Mem0.call) (now : Z)
    (p r : list (string * value)) (user_id : value) (mems : list value) :
  lookup "user_id" p = Some user_id ->
  o [] (Mem0.GetAll user_id) = Ok (VDict r) ->
  lookup "results" r = Some (VList mems) ->
  Forall (record_ok B) mems ->
  exists resp trace,
    run o (Mem0.delete_old_memories B true now (VDict p)) [] = (Ok resp, trace) /\
    let n := length (filter (expired B (minus_days (mk_datetime now true) 90)) mems) in
    let j := length (failed_deletes trace) in
    length (deletes trace) = n /\
    (j <= n)%nat /\
    (j = 0%nat ->
     resp = mk_response 200 (json [("status", VStr "success");
                                   ("deleted_count", VInt (Z.of_nat n))])) /\
    ((0 < j)%nat ->
     status resp = 207 /\
     field "status" (body resp) = Some (VStr "partial_success") /\
     field "deleted_count" (body resp) = Some (VInt (Z.of_nat n - Z.of_nat j)) /\
     exists errors, field "errors" (body resp) = Some (VList errors) /\ length errors = j).
Proof.
  intros Hu Ho Hr Hok.
  rewrite (delete_old_memories_run B o now p r user_id mems Hu Ho Hr).
  destruct (loop_outcome B o (minus_days (mk_datetime now true) 90) eq_refl mems Hok
              0 [] [(Mem0.GetAll user_id, Ok (VDict r))])
    as (evs & ne & R & D & L & F).
  rewrite R.
  assert (Le : (length (filter failed evs) <= length evs)%nat) by apply filter_length_le.
  destruct ne as [|e ne]; eexists; eexists; (split; [reflexivity|]); cbn zeta;
    unfold failed_deletes, deletes;
    change ([(Mem0.GetAll user_id, Ok (VDict r))] ++ evs)
      with ((Mem0.GetAll user_id, Ok (VDict r)) :: evs);
    cbn [filter is_delete fst]; rewrite D, <- L.
  - cbn [length] in F. split; [reflexivity|]. split; [lia|]. split.
    + intros _. rewrite <- F.
      now replace (0 + Z.of_nat (length evs) - Z.of_nat 0) with (Z.of_nat (length evs)) by lia.
    + intros H. lia.
  - split; [reflexivity|]. split; [lia|]. split.
    + intros H. rewrite H in F. discriminate F.
    + intros _. split; [reflexivity|]. split; [reflexivity|]. split.
      * cbn.
        now replace (0 + Z.of_nat (length evs) - Z.of_nat (length (filter failed evs)))
          with (Z.of_nat (length evs) - Z.of_nat (length (filter failed evs))) by lia.
      * eexists. split; [reflexivity|]. exact F.
Qed.

Lemma sample_records_ok :
  Forall (record_ok Sample.builtins)
         [Sample.memory_a; Sample.memory_b; Sample.memory_c; Sample.memory_e].
Proof.
  repeat constructor; eexists; (split; [reflexivity|]);
    (split; [eexists; reflexivity|]); cbn;
    try exact I; right; do 2 eexists; repeat split.
Defined.

Lemma C4_cleanup_report_witness :
  let records := [Sample.memory_a; Sample.memory_b; Sample.memory_c; Sample.memory_e] in
  let o := Sample.failing_library records "e" in
  let p := [("user_id", VStr "alice")] in
  exists resp trace,
    run o (Mem0.delete_old_memories Sample.builtins true Sample.today_micros (VDict p)) []
    = (Ok resp, trace) /\
    let n := length (filter (expired Sample.builtins
                               (minus_days (mk_datetime Sample.today_micros true) 90))
                            records) in
    let j := length (failed_deletes trace) in
    length (deletes trace) = n /\
    (j <= n)%nat /\
    (j = 0%nat ->
     resp = mk_response 200 (json [("status", VStr "success");
                                   ("deleted_count", VInt (Z.of_nat n))])) /\
    ((0 < j)%nat ->
     status resp = 207 /\
     field "status" (body resp) = Some (VStr "partial_success") /\
     field "deleted_count" (body resp) = Some (VInt (Z.of_nat n - Z.of_nat j)) /\
     exists errors, field "errors" (body resp) = Some (VList errors) /\ length errors = j).
Proof.
  intros records o p.
  exact (C4_cleanup_report Sample.builtins o Sample.today_micros p
           [("results", VList records)] (VStr "alice") records
           eq_refl eq_refl eq_refl sample_records_ok).
Defined.

(** The run behind the example above: two delete calls, the second fails. *)
Example cleanup_partial_success :
  let records := [Sample.memory_a; Sample.memory_b; Sample.memory_c; Sample.memory_e] in
  run (Sample.failing_library records "e")
      (Mem0.delete_old_memories Sample.builtins true Sample.today_micros
         (VDict [("user_id", VStr "alice")])) []
  = (Ok (mk_response 207
           (json [("status", VStr "partial_success");
                  ("deleted_count", VInt 1);
                  ("errors", VList [VStr "Could not delete memory e: point not found"])])),
     [(Mem0.GetAll (VStr "alice"), Ok (VDict [("results", VList records)]));
      (Mem0.Delete (VStr "a"), Ok VNone);
      (Mem0.Delete (VStr "e"), Raise (Exn "Exception" "point not found"))]).
Proof. reflexivity. Qed.

(** The loop over a concatenation: the second part starts from the
    accumulators and events the first part ends with, unless the first part
    raised. *)
Lemma loop_app (B : builtins) (o : oracle Mem0.call) (cutoff : datetime)
    (pre rest : list value) :
  forall (c : Z) (errs : list value) (hist : list (event Mem0.call)),
  run o (Mem0.delete_loop B cutoff (pre ++ rest) c errs) hist
  = match run o (Mem0.delete_loop B cutoff pre c errs) hist with
    | (Ok (c', errs'), hist') => run o (Mem0.delete_loop B cutoff rest c' errs') hist'
    | (Raise e, hist') => (Raise e, hist')
    end.
Proof.
  induction pre as [|mem pre IH]; intros c errs hist; [reflexivity|].
  cbn [Datatypes.app Mem0.delete_loop].
  destruct (get mem "created_at") as [v|e]; cbn [lift bind]; [|reflexivity].
  destruct (truthy v); cbn [negb]; [|apply IH].
  destruct (parse_datetime B v) as [t|e]; cbn [lift bind]; [|reflexivity].
  destruct (datetime_lt t cutoff) as [[|]|e]; cbn [lift bind]; [|apply IH|reflexivity].
  destruct (subscript mem "id") as [i|e]; cbn [lift bind attempt invoke run].
  - rewrite !run_bind.
    destruct (o hist (Mem0.Delete i)) as [w|e]; cbn [lift attempt run]; apply IH.
  - reflexivity.
Qed.

(** C10.  The per-record error collection covers the delete call only.  A
    record without [created_at] leaves the run of the loop as it would be
    without the record: no call, no count, no error entry.  A record whose
    [created_at] is not ISO-8601 ends the request with 500 and the parser's
    message; the count and the errors collected so far are not reported,
    though the delete calls already made have happened. *)
Theorem C10_error_collection_scope (B : builtins) (o : oracle Mem0.call) (now : Z)
    (p r : list (string * value)) (user_id : value)
    (skipped bad : list (string * value)) (s : string) (e : exn)
    (pre post : list value) (c : Z) (errs : list value) (hist : list (event Mem0.call)) :
  lookup "created_at" skipped = None ->
  lookup "created_at" bad = Some (VStr s) -> s <> ""%string ->
  fromisoformat B s = Raise e ->
  lookup "user_id" p = Some user_id ->
  o [] (Mem0.GetAll user_id) = Ok (VDict r) ->
  lookup "results" r = Some (VList (pre ++ VDict bad :: post)) ->
  run o (Mem0.delete_loop B (minus_days (mk_datetime now true) 90) pre 0 [])
        [(Mem0.GetAll user_id, Ok (VDict r))] = (Ok (c, errs), hist) ->
  (forall (o' : oracle Mem0.call) (cutoff : datetime) (l1 l2 : list value)
          (c' : Z) (errs' : list value) (hist' : list (event Mem0.call)),
     run o' (Mem0.delete_loop B cutoff (l1 ++ VDict skipped :: l2) c' errs') hist'
     = run o' (Mem0.delete_loop B cutoff (l1 ++ l2) c' errs') hist') /\
  run o (Mem0.delete_old_memories B true now (VDict p)) [] = (Ok (Mem0.failure e), hist) /\
  status (Mem0.failure e) = 500 /\
  field "message" (body (Mem0.failure e)) = Some (VStr (exn_str e)) /\
  field "deleted_count" (body (Mem0.failure e)) = None /\
  field "errors" (body (Mem0.failure e)) = None.
Proof.
  intros Hs Hb Ns Hp Hu Ho Hr Hpre. split; [|split; [|repeat split]].
  - intros o' cutoff l1 l2 c' errs' hist'. rewrite !loop_app.
    destruct (run o' _ hist') as [[[c2 e2]|x] h2]; [|reflexivity].
    rewrite loop_skips; [reflexivity | now rewrite Hs].
  - rewrite (delete_old_memories_run B o now p r user_id _ Hu Ho Hr).
    rewrite loop_app, Hpre. cbn [Mem0.delete_loop].
    unfold get, get_default. rewrite Hb. cbn [lift bind].
    rewrite (truthy_str s Ns). cbn [negb parse_datetime]. rewrite Hp. reflexivity.
Qed.

Lemma C10_error_collection_scope_witness :
  let records := [Sample.memory_a; Sample.memory_d; Sample.memory_e] in
  run (Sample.library records)
      (Mem0.delete_old_memories Sample.builtins true Sample.today_micros
         (VDict [("user_id", VStr "alice")])) []
  = (Ok (Mem0.failure (Exn "ValueError" "Invalid isoformat string: 'yesterday'")),
     [(Mem0.GetAll (VStr "alice"), Ok (VDict [("results", VList records)]));
      (Mem0.Delete (VStr "a"), Ok VNone)]).
Proof.
  intros records.
  refine (proj1 (proj2 (C10_error_collection_scope Sample.builtins (Sample.library records)
            Sample.today_micros [("user_id", VStr "alice")] [("results", VList records)]
            (VStr "alice")
            [("id", VStr "c"); ("memory", VStr "no date")]
            [("id", VStr "d"); ("memory", VStr "bad date"); ("created_at", VStr "yesterday")]
            "yesterday" (Exn "ValueError" "Invalid isoformat string: 'yesterday'")
            [Sample.memory_a] [Sample.memory_e] 1 [] _
            eq_refl eq_refl _ eq_refl eq_refl eq_refl eq_refl eq_refl))).
  discriminate.
Defined.

(** ** C3: service B's prefix-scoped deletion pass *)

Lemma append_assoc (a b c : string) : ((a ++ b) ++ c = a ++ (b ++ c))%string.
Proof. induction a as [|x a IH]; cbn; [reflexivity | now rewrite IH]. Qed.

Lemma prefix_append (p r : string) : String.prefix p (p ++ r) = true.
Proof.
  induction p as [|a p IH]; cbn; [now destruct r|].
  destruct (ascii_dec a a); [exact IH | contradiction].
Qed.

Lemma prefix_same_head (u u' x y : string) :
  occurs "_" u = false -> occurs "_" u' = false ->
  String.prefix (u ++ String "_" x) (u' ++ String "_" y) = true -> u = u'.
Proof.
  revert u'. induction u as [|a u IH]; intros [|b u'] Hu Hu' H;
    cbn [append String.prefix occurs] in *.
  - reflexivity.
  - destruct (ascii_dec "_" b) as [<-|]; [|discriminate H].
    cbn in Hu'. discriminate Hu'.
  - destruct (ascii_dec a "_") as [->|]; [|discriminate H].
    cbn in Hu. discriminate Hu.
  - destruct (ascii_dec a b) as [->|]; [|discriminate H].
    apply orb_false_iff in Hu as [_ Hu]. apply orb_false_iff in Hu' as [_ Hu'].
    now rewrite (IH u' Hu Hu' H).
Qed.

Lemma split_free (c : ascii) (s : string) :
  occurs c s = false -> Cypher.split c s = [s].
Proof.
  induction s as [|a s IH]; cbn; [reflexivity|].
  intros H. apply orb_false_iff in H as [Ha Hs]. rewrite Ha, (IH Hs). reflexivity.
Qed.

Lemma split_field (c : ascii) (s rest : string) :
  occurs c s = false ->
  Cypher.split c (s ++ String c rest) = s :: Cypher.split c rest.
Proof.
  induction s as [|a s IH]; cbn.
  - intros _. now rewrite Ascii.eqb_refl.
  - intros H. apply orb_false_iff in H as [Ha Hs]. rewrite Ha, (IH Hs). reflexivity.
Qed.

Lemma digits_free (d : Decimal.uint) : occurs "_" (NilEmpty.string_of_uint d) = false.
Proof. induction d; cbn; auto. Qed.

Lemma str_of_Z_free (t : Z) : underscore_free (str_of_Z t).
Proof.
  unfold underscore_free, str_of_Z.
  destruct (Z.to_int t) as [d|d]; cbn; destruct d; cbn; auto using digits_free.
Qed.

(** The fourth field of an episode's name is its timestamp, provided the
    user id has no underscore. *)
Lemma episode_name_field (u : string) (t : Z) :
  underscore_free u ->
  nth_error (Cypher.split "_" (episode_name u t)) 3 = Some (str_of_Z t).
Proof.
  intros Hu. unfold episode_name.
  change ("User_" ++ u ++ "_Ingest_" ++ str_of_Z t)%string
    with ("User" ++ String "_" (u ++ String "_" ("Ingest" ++ String "_" (str_of_Z t))))%string.
  rewrite (split_field "_" "User"), (split_field "_" u), (split_field "_" "Ingest"),
    (split_free "_" (str_of_Z t)); try reflexivity; try exact Hu; apply str_of_Z_free.
Qed.

Lemma episode_name_prefix (u u' : string) (t : Z) :
  underscore_free u -> underscore_free u' ->
  Cypher.starts_with (episode_name u' t) ("User_" ++ u ++ "_Ingest_") = true <-> u' = u.
Proof.
  intros Hu Hu'. unfold Cypher.starts_with, episode_name. split.
  - change ("User_" ++ u ++ "_Ingest_")%string
      with ("User_" ++ (u ++ String "_" "Ingest_"))%string.
    change ("User_" ++ u' ++ "_Ingest_" ++ str_of_Z t)%string
      with ("User_" ++ (u' ++ String "_" ("Ingest_" ++ str_of_Z t)))%string.
    cbn [String.prefix append].
    repeat (match goal with
            | |- context [ascii_dec ?a ?a] => destruct (ascii_dec a a); [|contradiction]
            end).
    intros H. symmetry. exact (prefix_same_head u u' _ _ Hu Hu' H).
  - intros ->.
    replace ("User_" ++ u ++ "_Ingest_" ++ str_of_Z t)%string
      with (("User_" ++ u ++ "_Ingest_") ++ str_of_Z t)%string.
    + apply prefix_append.
    + cbn. do 5 f_equal. now rewrite append_assoc.
Qed.

(** C3, counterexample.  At 2026-11-03 the graph holds an episode that
    user "a_b" ingested at time 100, long before the cutoff, and an episode
    that user "a_Ingest_5" ingested just now.  The pass run for "a_b" removes
    nothing: the fourth field of the old episode's name is "Ingest", not a
    number.  The pass run for user "a" removes the fresh episode of
    "a_Ingest_5": its name starts with "User_a_Ingest_" and its fourth field
    is 5. *)
Lemma C3_counterexample :
  let old := Graphiti.mk_node 1%N ["Episodic"] (Some (episode_name "a_b" 100)) in
  let fresh := Graphiti.mk_node 2%N ["Episodic"]
                 (Some (episode_name "a_Ingest_5" Sample.today)) in
  let g := Graphiti.mk_graph [old; fresh] [(1%N, 2%N)] in
  let cutoff := Sample.today - Graphiti.days_to_keep * 24 * 60 * 60 in
  100 < cutoff /\ ~ Sample.today < cutoff /\
  Graphiti.nodes (fst (Graphiti.run_del_query Sample.toInteger "User_a_b_Ingest_" cutoff g))
  = [old; fresh] /\
  Graphiti.nodes (fst (Graphiti.run_del_query Sample.toInteger "User_a_Ingest_" cutoff g))
  = [old].
Proof.
  cbv zeta. split; [reflexivity|]. split; [vm_compute; discriminate|].
  split; vm_compute; reflexivity.
Qed.

(** C3, amended.  For a requesting user and an episode owner whose ids
    contain no underscore, the prefix-scoped pass of [delete_old] removes an
    episode of the owner ingested at [t] if and only if the owner is the
    requesting user and [t] is before the cutoff (now minus 90 days); every
    other such episode, and every node that is not an episode, is still in
    the graph after the pass. *)
Theorem C3_prefix_scoped_pass (B : builtins) (toInteger : string -> option Z)
    (gl : Graphiti.globals) (now : Z) (p : list (string * value)) (u u' : string) (t : Z)
    (g : Graphiti.graph) (e : Graphiti.node) :
  lookup "user_id" p = Some (VStr u) -> u <> ""%string ->
  Graphiti.async_driver gl = true ->
  underscore_free u -> underscore_free u' ->
  toInteger (str_of_Z t) = Some t ->
  In e (Graphiti.nodes g) ->
  Graphiti.has_label "Episodic" e = true ->
  Graphiti.name e = Some (episode_name u' t) ->
  let cutoff := now - 90 * 24 * 60 * 60 in
  let g1 := fst (Graphiti.run_del_query toInteger ("User_" ++ u ++ "_Ingest_") cutoff g) in
  (exists resp,
     Graphiti.delete_old_data B toInteger gl now (VDict p) g
     = (resp, fst (Graphiti.run_orphan_query g1)) /\ status resp = 200) /\
  (In e (Graphiti.nodes g1) <-> ~ (u' = u /\ t < cutoff)) /\
  (forall n, In n (Graphiti.nodes g) -> Graphiti.has_label "Episodic" n = false ->
             In n (Graphiti.nodes g1)).
Proof.
  intros Hp Nu Hd Fu Fu' Hi He Hl Hn cutoff g1. split; [|split].
  - unfold Graphiti.delete_old_data, get, get_default. rewrite Hp.
    rewrite (truthy_str u Nu), Hd. cbn [negb str].
    fold cutoff. unfold Graphiti.days_to_keep.
    change (now - 90 * 24 * 60 * 60) with cutoff.
    unfold g1.
    destruct (Graphiti.run_del_query toInteger ("User_" ++ u ++ "_Ingest_") cutoff g)
      as [g1' n1].
    cbn [fst]. destruct (Graphiti.run_orphan_query g1') as [g2 n2].
    eexists. split; reflexivity.
  - unfold g1, Graphiti.run_del_query, Graphiti.detach_delete. cbn [fst Graphiti.nodes].
    rewrite filter_In.
    assert (Ex : Graphiti.expired toInteger ("User_" ++ u ++ "_Ingest_") cutoff e = true
                 <-> (u' = u /\ t < cutoff)).
    { unfold Graphiti.expired. rewrite Hl, Hn. cbn [andb].
      rewrite (episode_name_field u' t Fu'), Hi. split.
      - intros H. apply andb_true_iff in H as [H1 H2].
        apply (episode_name_prefix u u' t Fu Fu') in H1. split; [exact H1 | lia].
      - intros [-> H]. rewrite (proj2 (episode_name_prefix u u t Fu Fu) eq_refl).
        cbn [andb]. lia. }
    split.
    + intros [_ H] Q. apply Ex in Q. rewrite Q in H. discriminate H.
    + intros H. split; [exact He|].
      destruct (Graphiti.expired toInteger ("User_" ++ u ++ "_Ingest_") cutoff e);
        [|reflexivity]. exfalso. apply H, Ex. reflexivity.
  - intros n Hin Hnl. unfold g1, Graphiti.run_del_query, Graphiti.detach_delete.
    cbn [fst Graphiti.nodes]. apply filter_In. split; [exact Hin|].
    unfold Graphiti.expired. now rewrite Hnl.
Qed.

Lemma C3_prefix_scoped_pass_witness :
  let old := Graphiti.mk_node 1%N ["Episodic"] (Some (episode_name "alice" 100)) in
  let other := Graphiti.mk_node 2%N ["Episodic"] (Some (episode_name "bob" 100)) in
  let g := Graphiti.mk_graph [old; other] [(1%N, 2%N)] in
  let cutoff := Sample.today - 90 * 24 * 60 * 60 in
  let g1 := fst (Graphiti.run_del_query Sample.toInteger "User_alice_Ingest_" cutoff g) in
  In old (Graphiti.nodes g1) <-> ~ ("alice"%string = "alice"%string /\ 100 < cutoff).
Proof.
  intros old other g cutoff g1.
  refine (proj1 (proj2 (C3_prefix_scoped_pass Sample.builtins Sample.toInteger
            (Graphiti.mk_globals true true) Sample.today [("user_id", VStr "alice")]
            "alice" "alice" 100 g old eq_refl _ eq_refl eq_refl eq_refl eq_refl
            (or_introl eq_refl) eq_refl eq_refl))).
  discriminate.
Defined.

(** ** Lists *)

Lemma filter_twice {A} (p q : A -> bool) (l : list A) :
  filter p (filter q l) = filter (fun x => q x && p x) l.
Proof.
  induction l as [|a l IH]; [reflexivity|]. cbn.
  destruct (q a); cbn; [destruct (p a)|]; now rewrite IH.
Qed.


Lemma length_filter_negb {A} (p : A -> bool) (l : list A) :
  length l = (length (filter (fun x => negb (p x)) l) + length (filter p l))%nat.
Proof.
  induction l as [|a l IH]; [reflexivity|]. cbn. destruct (p a); cbn; lia.
Qed.





Lemma any_uuid_In (x : Cognee.uuid) (xs : list Cognee.uuid) :
  Cognee.any_uuid x xs = true <-> In x xs.
Proof.
  unfold Cognee.any_uuid. rewrite existsb_exists. split.
  - intros (y & Hy & E). apply N.eqb_eq in E. now subst.
  - intros H. exists x. split; [exact H | apply N.eqb_refl].
Qed.

(** ** C2 and C5: service A's cleanup transaction *)

Section CogneeCleanup.
Variable s : Cognee.db.
Variable i : Cognee.uuid.
Variable cutoff : Z.
Hypothesis schema : schema_ok s.











End CogneeCleanup.



Lemma filter_all {A} (l : list A) : filter (fun _ => true) l = l.
Proof. induction l as [|a l IH]; cbn; [reflexivity | now rewrite IH]. Qed.

Lemma delete_nothing (ids : list Cognee.uuid) (s : Cognee.db) :
  Cognee.delete_data [] (Cognee.delete_links [] ids s) = s.
Proof.
  destruct s. unfold Cognee.delete_data, Cognee.delete_links. cbn. now rewrite !filter_all.
Qed.



Lemma links_deleted_or_none (old ids : list Cognee.uuid) (s : Cognee.db) :
  (if 0 <? Z.of_nat (length old)
   then Cognee.delete_data old (Cognee.delete_links old ids s)
   else s)
  = Cognee.delete_data old (Cognee.delete_links old ids s).
Proof.
  destruct old as [|x old]; [|reflexivity]. cbn [length Z.of_nat Z.ltb Z.compare].
  symmetry. apply delete_nothing.
Qed.



Lemma sample_store_ok : schema_ok Sample.store.
Proof.
  split; cbn.
  - repeat constructor; cbn; intuition discriminate.
  - repeat constructor; cbn; intuition discriminate.
  - intros dd H. repeat (destruct H as [<-|H]; [cbn; tauto|]). destruct H.
Defined.



(** The two runs on the sample store: "alice_home" loses its only row and
    goes, with its dependents; "alice_work" loses one of two rows and stays. *)
Example cleanup_home :
  Cognee.delete_old_data Sample.builtins (VDict (Sample.cleanup_request "home"))
    Sample.today_micros (Ok tt) Sample.store
  = (mk_response 200
       (json [("status", VStr "success");
              ("message", VStr "Processed cleanup.");
              ("details",
               json [("data_entries_deleted", VInt 1);
                     ("empty_datasets_removed", VInt 1);
                     ("cutoff_date", VStr "1785888000000000")])]),
     Cognee.mk_db
       [Sample.work]
       [Cognee.mk_data 10%N (Some 1577836800000000); Cognee.mk_data 11%N (Some 1893456000000000)]
       [Cognee.mk_link 1%N 10%N; Cognee.mk_link 1%N 11%N]
       [Cognee.mk_dependent 100%N 1%N] [Cognee.mk_dependent 200%N 1%N] [Cognee.mk_dependent 300%N 1%N]).
Proof. vm_compute. reflexivity. Qed.

Example cleanup_work :
  Cognee.delete_old_data Sample.builtins (VDict (Sample.cleanup_request "work"))
    Sample.today_micros (Ok tt) Sample.store
  = (mk_response 200
       (json [("status", VStr "success");
              ("message", VStr "Processed cleanup.");
              ("details",
               json [("data_entries_deleted", VInt 1);
                     ("empty_datasets_removed", VInt 0);
                     ("cutoff_date", VStr "1785888000000000")])]),
     Cognee.mk_db
       [Sample.work; Sample.home]
       [Cognee.mk_data 11%N (Some 1893456000000000); Cognee.mk_data 12%N (Some 1577836800000000)]
       [Cognee.mk_link 1%N 11%N; Cognee.mk_link 2%N 12%N]
       [Cognee.mk_dependent 100%N 1%N; Cognee.mk_dependent 101%N 2%N]
       [Cognee.mk_dependent 200%N 1%N; Cognee.mk_dependent 201%N 2%N]
       [Cognee.mk_dependent 300%N 1%N; Cognee.mk_dependent 301%N 2%N]).
Proof. vm_compute. reflexivity. Qed.

(** Requests whose cutoff cannot be computed are answered 500 before the
    database is connected to: a cutoff after the year 9999, and a [days]
    that no timedelta holds. *)
Example cleanup_overflow :
  (forall connect,
     Cognee.delete_old_data Sample.builtins
       (VDict [("user_id", VStr "alice"); ("categories", VList [VStr "home"]);
               ("days", VInt (-3000000))])
       Sample.today_micros connect Sample.store
     = (mk_response 500 (json [("error", VStr "date value out of range")]), Sample.store)) /\
  (forall connect,
     Cognee.delete_old_data Sample.builtins
       (VDict [("user_id", VStr "alice"); ("categories", VList [VStr "home"]);
               ("days", VInt 1000000000)])
       Sample.today_micros connect Sample.store
     = (mk_response 500
          (json [("error", VStr "days=1000000000; must have magnitude <= 999999999")]),
        Sample.store)).
Proof. split; intros connect; vm_compute; reflexivity. Qed.

Lemma select_old_data_none (ids : list Cognee.uuid) (cutoff : Z) (s : Cognee.db) :
  (forall d dd, In d (Cognee.data s) -> In dd (Cognee.dataset_data s) ->
                Cognee.data_id d = Cognee.dd_data_id dd ->
                Cognee.any_uuid (Cognee.dd_dataset_id dd) ids = true ->
                Cognee.older_than cutoff d = false) ->
  Cognee.select_old_data ids cutoff s = [].
Proof.
  intros H. unfold Cognee.select_old_data.
  destruct (flat_map _ (Cognee.data s)) as [|x l] eqn:E; [reflexivity|]. exfalso.
  assert (Hx : In x (x :: l)) by now left. rewrite <- E in Hx.
  apply in_flat_map in Hx as (d & Hd & Hx). apply in_flat_map in Hx as (dd & Hdd & Hx).
  destruct (N.eqb _ _ && _ && _) eqn:C; [|contradiction].
  apply andb_true_iff in C as [C Co]. apply andb_true_iff in C as [C1 C2].
  apply N.eqb_eq in C1. rewrite (H d dd Hd Hdd C1 C2) in Co. discriminate Co.
Qed.




(** A request whose datasets exist but hold nothing older than ten
    thousand days: nothing is deleted. *)
Example cleanup_nothing_old :
  Cognee.delete_old_data Sample.builtins
    (VDict [("user_id", VStr "alice"); ("categories", VList [VStr "work"; VStr "home"]);
            ("days", VInt 10000)])
    Sample.today_micros (Ok tt) Sample.store
  = (mk_response 200
       (json [("status", VStr "success");
              ("message", VStr "Processed cleanup.");
              ("details",
               json [("data_entries_deleted", VInt 0);
                     ("empty_datasets_removed", VInt 0);
                     ("cutoff_date", VStr "929664000000000")])]),
     Sample.store).
Proof. vm_compute. reflexivity. Qed.

(* ===================================================================== *)
(** * Further properties of the handlers                                  *)
(* ===================================================================== *)

Import Coverage.

(** ** Service A: add and search *)

(** X1.  Whatever the body and whatever the library does, [/add] of
    service A ends with a response, never with an exception, and in one of
    four ways: no library call at all (400, or 500 for a body that is not an
    object); [add] fails (500); [add] succeeds and [cognify] fails (500);
    both succeed (200).  [cognify] is never called unless [add] has
    succeeded. *)
Theorem cognee_add_outcomes (B : builtins) (o : oracle Cognee.call) (payload : value) :
  exists r tr,
    run o (Cognee.add_memory B payload) [] = (Ok r, tr) /\
    ((tr = [] /\ (status r = 400 \/ status r = 500)) \/
     (exists d k e, tr = [(Cognee.Add d k, Raise e)] /\ status r = 500 /\
                    field "error" (body r) = Some (VStr (exn_str e))) \/
     (exists d k v e, tr = [(Cognee.Add d k, Ok v); (Cognee.Cognify, Raise e)] /\
                      status r = 500 /\ field "error" (body r) = Some (VStr (exn_str e))) \/
     (exists d k v w, tr = [(Cognee.Add d k, Ok v); (Cognee.Cognify, Ok w)] /\
                      status r = 200 /\ field "status" (body r) = Some (VStr "success"))).
Proof.
  unfold Cognee.add_memory.
  destruct (get payload "data") as [d|e] eqn:Ed; cbn [lift bind catch run];
    [|do 2 eexists; split; [reflexivity|]; left; split; [reflexivity|now right]].
  destruct (get_default payload "category" (VStr "general")) as [c|e];
    cbn [lift bind catch run];
    [|do 2 eexists; split; [reflexivity|]; left; split; [reflexivity|now right]].
  destruct (get payload "user_id") as [u|e]; cbn [lift bind catch run];
    [|do 2 eexists; split; [reflexivity|]; left; split; [reflexivity|now right]].
  destruct (negb (truthy d) || negb (truthy u)); cbn [lift bind catch run invoke];
    [do 2 eexists; split; [reflexivity|]; left; split; [reflexivity|now left]|].
  destruct (o [] (Cognee.Add d _)) as [v|e] eqn:E1; cbn [lift bind catch run Datatypes.app].
  - destruct (o _ Cognee.Cognify) as [w|e] eqn:E2; cbn [lift bind catch run Datatypes.app];
      do 2 eexists; (split; [reflexivity|]); right; right; [right|left];
      do 4 eexists; repeat split.
  - do 2 eexists. split; [reflexivity|]. right. left. do 3 eexists. repeat split.
Qed.

(** X2.  [/search] of service A likewise always ends with a response: 400
    or 500 without a library call, 500 with the library's message when the
    search fails, and otherwise 200 with the library's result handed on
    unchanged, an empty result included. *)
Theorem cognee_search_outcomes (B : builtins) (o : oracle Cognee.call) (payload : value) :
  exists r tr,
    run o (Cognee.search_memory B payload) [] = (Ok r, tr) /\
    ((tr = [] /\ (status r = 400 \/ status r = 500)) \/
     (exists q k e, tr = [(Cognee.Search q [k], Raise e)] /\ status r = 500 /\
                    field "error" (body r) = Some (VStr (exn_str e))) \/
     (exists q k v, tr = [(Cognee.Search q [k], Ok v)] /\
                    r = mk_response 200 (json [("results", v)]))).
Proof.
  unfold Cognee.search_memory.
  destruct (get payload "query") as [q|e]; cbn [lift bind catch run];
    [|do 2 eexists; split; [reflexivity|]; left; split; [reflexivity|now right]].
  destruct (get payload "category") as [c|e]; cbn [lift bind catch run];
    [|do 2 eexists; split; [reflexivity|]; left; split; [reflexivity|now right]].
  destruct (get payload "user_id") as [u|e]; cbn [lift bind catch run];
    [|do 2 eexists; split; [reflexivity|]; left; split; [reflexivity|now right]].
  destruct (negb (truthy q) || negb (truthy u) || negb (truthy c));
    cbn [lift bind catch run invoke];
    [do 2 eexists; split; [reflexivity|]; left; split; [reflexivity|now left]|].
  destruct (o [] (Cognee.Search q _)) as [v|e]; cbn [lift bind catch run Datatypes.app];
    do 2 eexists; (split; [reflexivity|]); right; [right|left]; do 3 eexists; repeat split.
Qed.

(** ** The composite key when ids contain the separator *)

Lemma append_same_left (a x : string) : (a ++ x)%string = a -> x = ""%string.
Proof.
  induction a as [|c a IH]; cbn; [easy|]. intros [= H]. now apply IH.
Qed.

Lemma truthy_append_sep (a b : string) : truthy (VStr (a ++ String "_" b)) = true.
Proof. now destruct a. Qed.

(** The first library call of the add and search handlers of services A
    and B on a request they accept. *)
Lemma cognee_add_first (B : builtins) (p : list (string * value)) (d u : value) :
  lookup "data" p = Some d -> lookup "user_id" p = Some u ->
  truthy d = true -> truthy u = true ->
  first_call (Cognee.add_memory B (VDict p))
  = Some (Cognee.Add d
            (str B u ++ "_"
             ++ str B (match lookup "category" p with Some c => c | None => VStr "general" end))).
Proof.
  intros Hd Hu Td Tu. unfold Cognee.add_memory, get, get_default.
  rewrite Hd, Hu. cbn [lift bind]. now rewrite Td, Tu.
Qed.

Lemma cognee_search_first (B : builtins) (p : list (string * value)) (q u c : value) :
  lookup "query" p = Some q -> lookup "user_id" p = Some u -> lookup "category" p = Some c ->
  truthy q = true -> truthy u = true -> truthy c = true ->
  first_call (Cognee.search_memory B (VDict p))
  = Some (Cognee.Search q [(str B u ++ "_" ++ str B c)%string]).
Proof.
  intros Hq Hu Hc Tq Tu Tc. unfold Cognee.search_memory, get, get_default.
  rewrite Hq, Hu, Hc. cbn [lift bind]. now rewrite Tq, Tu, Tc.
Qed.

Lemma graphiti_add_first (B : builtins) (driver : bool) (now : Z)
    (p : list (string * value)) (d u : value) :
  lookup "data" p = Some d -> lookup "user_id" p = Some u ->
  truthy d = true -> truthy u = true ->
  let c := match lookup "category" p with Some c => c | None => VStr "general" end in
  first_call (Graphiti.add_data B (Graphiti.mk_globals true driver) now (VDict p))
  = Some (Graphiti.AddEpisode
            ("User_" ++ str B u ++ "_Ingest_" ++ str_of_Z now) d
            ("user:" ++ str B u ++ "|category:" ++ str B c)
            (str B u ++ "_" ++ str B c)).
Proof.
  intros Hd Hu Td Tu. unfold Graphiti.add_data, get, get_default.
  rewrite Hd, Hu. cbn [lift bind Graphiti.graphiti negb]. now rewrite Td, Tu.
Qed.

Lemma graphiti_search_first (B : builtins) (driver : bool)
    (p : list (string * value)) (q u c : value) :
  lookup "query" p = Some q -> lookup "user_id" p = Some u -> lookup "category" p = Some c ->
  truthy q = true -> truthy u = true -> truthy c = true ->
  first_call (Graphiti.strict_search B (Graphiti.mk_globals true driver) (VDict p))
  = Some (Graphiti.Search q [(str B u ++ "_" ++ str B c)%string]).
Proof.
  intros Hq Hu Hc Tq Tu Tc. unfold Graphiti.strict_search, get, get_default.
  rewrite Hq, Hu, Hc. cbn [lift bind Graphiti.graphiti negb]. now rewrite Tq, Tc, Tu.
Qed.

(** X3.  Two different pairs give the same token whenever the separator
    occurs inside: (a_b, c) and (a, b_c).  In services A and B the data that
    user "a_b" writes under category c is therefore what user "a" searches
    under category "b_c". *)
Theorem composite_key_collision (B : builtins) (driver : bool) (now : Z)
    (d q a b c : string) :
  d <> ""%string -> q <> ""%string -> a <> ""%string -> c <> ""%string ->
  let writer := (a ++ "_" ++ b)%string in
  let other_category := (b ++ "_" ++ c)%string in
  let write := [("data", VStr d); ("user_id", VStr writer); ("category", VStr c)] in
  let read := [("query", VStr q); ("user_id", VStr a); ("category", VStr other_category)] in
  (writer, c) <> (a, other_category) /\
  composite_key writer c = composite_key a other_category /\
  first_call (Cognee.add_memory B (VDict write))
  = Some (Cognee.Add (VStr d) (composite_key writer c)) /\
  first_call (Cognee.search_memory B (VDict read))
  = Some (Cognee.Search (VStr q) [composite_key writer c]) /\
  (exists name description,
     first_call (Graphiti.add_data B (Graphiti.mk_globals true driver) now (VDict write))
     = Some (Graphiti.AddEpisode name (VStr d) description (composite_key writer c))) /\
  first_call (Graphiti.strict_search B (Graphiti.mk_globals true driver) (VDict read))
  = Some (Graphiti.Search (VStr q) [composite_key writer c]).
Proof.
  intros Nd Nq Na Nc writer other_category write read.
  assert (K : composite_key writer c = composite_key a other_category).
  { unfold composite_key, writer, other_category. now rewrite !append_assoc. }
  pose proof (truthy_str d Nd) as Td. pose proof (truthy_str q Nq) as Tq.
  pose proof (truthy_str a Na) as Ta. pose proof (truthy_str c Nc) as Tc.
  pose proof (truthy_append_sep a b) as Tw. pose proof (truthy_append_sep b c) as To.
  split; [|split; [exact K|split; [|split; [|split]]]].
  - intros [= H _]. apply append_same_left in H. discriminate H.
  - exact (cognee_add_first B write (VStr d) (VStr writer) eq_refl eq_refl Td Tw).
  - rewrite K.
    exact (cognee_search_first B read (VStr q) (VStr a) (VStr other_category)
             eq_refl eq_refl eq_refl Tq Ta To).
  - do 2 eexists.
    exact (graphiti_add_first B driver now write (VStr d) (VStr writer) eq_refl eq_refl Td Tw).
  - rewrite K.
    exact (graphiti_search_first B driver read (VStr q) (VStr a) (VStr other_category)
             eq_refl eq_refl eq_refl Tq Ta To).
Qed.

Lemma composite_key_collision_witness :
  composite_key "a_b" "c" = composite_key "a" "b_c" /\
  first_call (Cognee.search_memory Sample.builtins
                (VDict [("query", VStr "q"); ("user_id", VStr "a"); ("category", VStr "b_c")]))
  = Some (Cognee.Search (VStr "q") [composite_key "a_b" "c"]).
Proof.
  pose proof (composite_key_collision Sample.builtins true Sample.today "d" "q" "a" "b" "c") as H.
  cbv zeta in H. split; apply H; discriminate.
Defined.

(** ** Service A: the cleanup *)

Lemma subtable_refl {A} (l : list A) : subtable l l.
Proof. exists (fun _ => true). symmetry. apply filter_all. Qed.

Lemma subtable_filter {A} (p : A -> bool) (l' l : list A) :
  subtable l' l -> subtable (filter p l') l.
Proof. intros [k ->]. rewrite filter_twice. now eexists. Qed.

Lemma NoDup_map_eq {A K} (key : A -> K) (l : list A) (a b : A) :
  NoDup (map key l) -> In a l -> In b l -> key a = key b -> a = b.
Proof.
  induction l as [|x l IH]; cbn; [easy|].
  intros H [->|Ha] [->|Hb] E; inversion H as [|? ? Hn Hl]; subst.
  - reflexivity.
  - exfalso. apply Hn. rewrite E. now apply in_map.
  - exfalso. apply Hn. rewrite <- E. now apply in_map.
  - now apply IH.
Qed.

Lemma any_text_In (x : string) (xs : list string) :
  Cognee.any_text x xs = true <-> In x xs.
Proof.
  unfold Cognee.any_text. rewrite existsb_exists. split.
  - intros (y & Hy & E). apply String.eqb_eq in E. now subst.
  - intros H. exists x. split; [exact H | apply String.eqb_refl].
Qed.

Lemma delete_datasets_nil (s : Cognee.db) : Cognee.delete_datasets [] s = s.
Proof.
  destruct s. unfold Cognee.delete_datasets, Cognee.delete_dependents. cbn.
  now rewrite !filter_all.
Qed.

Lemma delete_datasets_or_none (empty : list Cognee.uuid) (s : Cognee.db) :
  match empty with [] => s | _ => Cognee.delete_datasets empty s end
  = Cognee.delete_datasets empty s.
Proof. destruct empty; [symmetry; apply delete_datasets_nil | reflexivity]. Qed.

(** The two ways the transaction ends. *)
Lemma cleanup_transaction_cases (B : builtins) (names : list string) (cutoff_date : datetime)
    (s : Cognee.db) :
  (Cognee.select_datasets names s = [] /\
   Cognee.cleanup_transaction B names cutoff_date s
   = (mk_response 404 (json [("status", VStr "not_found");
                             ("message", VStr "No matching datasets found.")]), s)) \/
  (Cognee.select_datasets names s <> [] /\
   Cognee.cleanup_transaction B names cutoff_date s
   = let ids := map Cognee.ds_id (Cognee.select_datasets names s) in
     let old := Cognee.select_old_data ids (micros cutoff_date) s in
     let s1 := Cognee.delete_data old (Cognee.delete_links old ids s) in
     let empty := Cognee.select_empty_datasets ids s1 in
     (mk_response 200
        (json [("status", VStr "success");
               ("message", VStr "Processed cleanup.");
               ("details",
                json [("data_entries_deleted", VInt (Z.of_nat (length old)));
                      ("empty_datasets_removed", VInt (Z.of_nat (length empty)));
                      ("cutoff_date", VStr (isoformat B cutoff_date))])]),
      Cognee.delete_datasets empty s1)).
Proof.
  unfold Cognee.cleanup_transaction.
  destruct (Cognee.select_datasets names s) as [|d l] eqn:E; [left; auto|right].
  split; [discriminate|]. cbv zeta.
  now rewrite links_deleted_or_none, delete_datasets_or_none.
Qed.

(** The handler either leaves the store alone and answers 400 or 500, or
    runs the transaction on the names and the cutoff of the request. *)
Lemma delete_old_data_cases (B : builtins) (payload : value) (now : Z)
    (connect : result unit) (s : Cognee.db) :
  (snd (Cognee.delete_old_data B payload now connect s) = s /\
   (status (fst (Cognee.delete_old_data B payload now connect s)) = 400 \/
    status (fst (Cognee.delete_old_data B payload now connect s)) = 500)) \/
  (exists u cats days n,
     get payload "user_id" = Ok u /\ get payload "categories" = Ok (VList cats) /\
     get payload "days" = Ok days /\ int B days = Ok n /\
     Cognee.delete_old_data B payload now connect s
     = Cognee.cleanup_transaction B (requested_names B u cats)
         (mk_datetime (now - n * micros_per_day) true) s).
Proof.
  unfold Cognee.delete_old_data.
  destruct (get payload "user_id") as [u|e]; [|left; cbn; auto].
  destruct (get payload "categories") as [c|e]; [|left; cbn; auto].
  destruct (get payload "days") as [days|e]; [|left; cbn; auto].
  destruct (negb (truthy u) || negb (truthy c) || Cognee.is_none days); [left; cbn; auto|].
  destruct c as [| | | |cats|]; cbn [Cognee.is_list negb]; try solve [left; cbn; auto].
  destruct (int B days) as [n|e] eqn:En; [|left; cbn; auto].
  destruct (timedelta n) as [delta|e] eqn:Et; [|left; cbn; auto].
  destruct (datetime_sub (mk_datetime now true) delta) as [cutoff_date|e] eqn:Es;
    [|left; cbn; auto].
  destruct connect as [[]|e]; [|left; cbn; auto].
  right. exists u, cats, days, n. repeat split; [exact En|].
  unfold timedelta in Et. destruct (Z.abs n <=? 999999999);
    [|destruct (_ && _); discriminate Et].
  injection Et as <-. unfold datetime_sub in Es. destruct (_ && _); [|discriminate Es].
  now injection Es as <-.
Qed.

Lemma select_old_data_iff (ids : list Cognee.uuid) (cutoff : Z) (s : Cognee.db)
    (x : Cognee.uuid) :
  In x (Cognee.select_old_data ids cutoff s) <->
  exists d dd, In d (Cognee.data s) /\ In dd (Cognee.dataset_data s) /\
               Cognee.data_id d = x /\ Cognee.dd_data_id dd = x /\
               Cognee.any_uuid (Cognee.dd_dataset_id dd) ids = true /\
               Cognee.older_than cutoff d = true.
Proof.
  unfold Cognee.select_old_data. rewrite in_flat_map. split.
  - intros (d & Hd & H). apply in_flat_map in H as (dd & Hdd & H).
    destruct (N.eqb _ _ && _ && _) eqn:C; [|contradiction].
    destruct H as [<-|[]].
    apply andb_true_iff in C as [C Co]. apply andb_true_iff in C as [C1 C2].
    apply N.eqb_eq in C1. exists d, dd. repeat split; auto.
  - intros (d & dd & Hd & Hdd & <- & E & Ha & Ho). exists d. split; [exact Hd|].
    apply in_flat_map. exists dd. split; [exact Hdd|].
    rewrite E, N.eqb_refl, Ha, Ho. now left.
Qed.

Lemma group_count_pos (i : Cognee.uuid) (s : Cognee.db) :
  Cognee.group_count i s <> 0%nat <->
  exists d dd, In d (Cognee.datasets s) /\ In dd (Cognee.dataset_data s) /\
               Cognee.ds_id d = i /\ Cognee.dd_dataset_id dd = i.
Proof.
  unfold Cognee.group_count. rewrite length_zero_iff_nil. split.
  - intros H. destruct (flat_map _ _) as [|x l] eqn:E; [contradiction|].
    assert (Hx : In x (x :: l)) by now left. rewrite <- E in Hx.
    apply in_flat_map in Hx as (d & Hd & Hx).
    destruct (N.eqb (Cognee.ds_id d) i) eqn:Ei; [|contradiction].
    apply filter_In in Hx as [Hx Hm]. apply N.eqb_eq in Ei, Hm.
    exists d, x. repeat split; auto. congruence.
  - intros (d & dd & Hd & Hdd & Ei & Edd) H.
    assert (Hin : In dd (flat_map
                           (fun d => if N.eqb (Cognee.ds_id d) i
                                     then filter (fun dd => N.eqb (Cognee.ds_id d)
                                                              (Cognee.dd_dataset_id dd))
                                                 (Cognee.dataset_data s)
                                     else [])
                           (Cognee.datasets s))).
    { apply in_flat_map. exists d. split; [exact Hd|]. rewrite Ei, N.eqb_refl.
      apply filter_In. split; [exact Hdd|]. rewrite Edd. apply N.eqb_refl. }
    rewrite H in Hin. contradiction.
Qed.

Lemma select_empty_iff (ids : list Cognee.uuid) (s : Cognee.db) (i : Cognee.uuid) :
  In i (Cognee.select_empty_datasets ids s) <->
  (exists d, In d (Cognee.datasets s) /\ Cognee.ds_id d = i /\ Cognee.any_uuid i ids = true) /\
  Cognee.group_count i s = 0%nat.
Proof.
  unfold Cognee.select_empty_datasets. rewrite filter_In, nodup_In, in_map_iff, Nat.eqb_eq.
  split.
  - intros [(d & E & Hd) Hc]. apply filter_In in Hd as [Hd Ha]. split; [|exact Hc].
    exists d. subst. auto.
  - intros [(d & Hd & E & Ha) Hc]. split; [|exact Hc].
    exists d. split; [exact E|]. apply filter_In. subst. auto.
Qed.

(** An id the first select returns is the id of a dataset row with one of
    the names. *)
Lemma matched_id (names : list string) (s : Cognee.db) (i : Cognee.uuid) :
  Cognee.any_uuid i (map Cognee.ds_id (Cognee.select_datasets names s)) = true <->
  exists d, In d (Cognee.datasets s) /\ Cognee.ds_id d = i /\ In (Cognee.ds_name d) names.
Proof.
  rewrite any_uuid_In, in_map_iff. unfold Cognee.select_datasets. split.
  - intros (d & E & Hd). apply filter_In in Hd as [Hd Hn]. apply any_text_In in Hn. eauto.
  - intros (d & Hd & E & Hn). exists d. split; [exact E|].
    apply filter_In. split; [exact Hd|]. now apply any_text_In.
Qed.

(** The tables after the deleting statements of the transaction. *)
Lemma datasets_after (ids old empty : list Cognee.uuid) (s : Cognee.db) :
  Cognee.datasets
    (Cognee.delete_datasets empty (Cognee.delete_data old (Cognee.delete_links old ids s)))
  = filter (fun d => negb (Cognee.any_uuid (Cognee.ds_id d) empty)) (Cognee.datasets s).
Proof. reflexivity. Qed.

Lemma data_after (ids old empty : list Cognee.uuid) (s : Cognee.db) :
  Cognee.data
    (Cognee.delete_datasets empty (Cognee.delete_data old (Cognee.delete_links old ids s)))
  = filter (fun d => negb (Cognee.any_uuid (Cognee.data_id d) old)) (Cognee.data s).
Proof. reflexivity. Qed.

Lemma links_after (ids old empty : list Cognee.uuid) (s : Cognee.db) :
  Cognee.dataset_data
    (Cognee.delete_datasets empty (Cognee.delete_data old (Cognee.delete_links old ids s)))
  = filter (fun dd => negb (Cognee.any_uuid (Cognee.dd_data_id dd) old
                            && Cognee.any_uuid (Cognee.dd_dataset_id dd) ids))
           (Cognee.dataset_data s).
Proof. reflexivity. Qed.

Lemma only_removes_refl (s : Cognee.db) : only_removes s s.
Proof. repeat split; apply subtable_refl. Qed.

Lemma cleanup_only_removes (B : builtins) (names : list string) (cutoff_date : datetime)
    (s : Cognee.db) :
  let r := fst (Cognee.cleanup_transaction B names cutoff_date s) in
  let s' := snd (Cognee.cleanup_transaction B names cutoff_date s) in
  (status r = 200 \/ status r = 404) /\ (status r <> 200 -> s' = s) /\ only_removes s' s.
Proof.
  cbv zeta.
  destruct (cleanup_transaction_cases B names cutoff_date s) as [[_ ->]|[_ ->]];
    cbv zeta; cbn [fst snd status].
  - split; [now right|]. split; [reflexivity | apply only_removes_refl].
  - split; [now left|]. split; [intros H; now contradiction H|].
    repeat split; eexists; reflexivity.
Qed.

(** X4.  [/delete] of service A answers 200, 400, 404 or 500; unless it
    answers 200 the store is exactly as before; and in every case each table
    afterwards is the table before with some rows taken out: the handler
    never inserts or alters a row. *)
Theorem cognee_delete_only_removes (B : builtins) (payload : value) (now : Z)
    (connect : result unit) (s : Cognee.db) :
  let r := fst (Cognee.delete_old_data B payload now connect s) in
  let s' := snd (Cognee.delete_old_data B payload now connect s) in
  (status r = 200 \/ status r = 400 \/ status r = 404 \/ status r = 500) /\
  (status r <> 200 -> s' = s) /\
  only_removes s' s.
Proof.
  cbv zeta.
  destruct (delete_old_data_cases B payload now connect s)
    as [[E H]|(u & cats & days & n & _ & _ & _ & _ & E)].
  - rewrite E. split; [tauto|]. split; [reflexivity | apply only_removes_refl].
  - rewrite E.
    destruct (cleanup_only_removes B (requested_names B u cats)
                (mk_datetime (now - n * micros_per_day) true) s) as (H1 & H2 & H3).
    split; [tauto|]. now split.
Qed.

Lemma cleanup_keeps_recent (B : builtins) (names : list string) (cutoff_date : datetime)
    (s : Cognee.db) (d : Cognee.data_row) :
  NoDup (map Cognee.data_id (Cognee.data s)) ->
  In d (Cognee.data s) -> Cognee.older_than (micros cutoff_date) d = false ->
  In d (Cognee.data (snd (Cognee.cleanup_transaction B names cutoff_date s))).
Proof.
  intros Hk Hd Ho.
  destruct (cleanup_transaction_cases B names cutoff_date s) as [[_ ->]|[_ ->]];
    [exact Hd|].
  cbv zeta. cbn [snd]. rewrite data_after. apply filter_In. split; [exact Hd|].
  apply negb_true_iff, not_true_iff_false. intros H.
  apply any_uuid_In, select_old_data_iff in H as (d' & dd & Hd' & _ & E & _ & _ & Ho').
  rewrite (NoDup_map_eq Cognee.data_id _ d' d Hk Hd' Hd E) in Ho'. congruence.
Qed.

(** X5.  No request makes [/delete] of service A remove a data row that
    is not older than the cutoff of the request: a row whose [updated_at] is
    NULL, or not before [now - days], is still in the table afterwards (the
    ids of [data] being its primary key). *)
Theorem cognee_delete_keeps_recent (B : builtins) (payload : value) (now : Z)
    (connect : result unit) (s : Cognee.db) (d : Cognee.data_row) :
  NoDup (map Cognee.data_id (Cognee.data s)) ->
  In d (Cognee.data s) ->
  (forall days n, get payload "days" = Ok days -> int B days = Ok n ->
                  Cognee.older_than (now - n * micros_per_day) d = false) ->
  In d (Cognee.data (snd (Cognee.delete_old_data B payload now connect s))).
Proof.
  intros Hk Hd Ho.
  destruct (delete_old_data_cases B payload now connect s)
    as [[-> _]|(u & cats & days & n & _ & _ & Hdays & Hn & ->)]; [exact Hd|].
  apply cleanup_keeps_recent; [exact Hk | exact Hd |]. cbn [micros]. now apply (Ho days).
Qed.

Lemma cognee_delete_keeps_recent_witness :
  In (Cognee.mk_data 11%N (Some 1893456000000000))
     (Cognee.data (snd (Cognee.delete_old_data Sample.builtins
                          (VDict (Sample.cleanup_request "work"))
                          Sample.today_micros (Ok tt) Sample.store))).
Proof.
  apply cognee_delete_keeps_recent.
  - apply sample_store_ok.
  - cbn. tauto.
  - intros days n [= <-] [= <-]. reflexivity.
Defined.

Lemma empty_is_matched (names : list string) (old : list Cognee.uuid) (s : Cognee.db)
    (i : Cognee.uuid) :
  let ids := map Cognee.ds_id (Cognee.select_datasets names s) in
  In i (Cognee.select_empty_datasets ids
          (Cognee.delete_data old (Cognee.delete_links old ids s))) ->
  exists d, In d (Cognee.datasets s) /\ Cognee.ds_id d = i /\ In (Cognee.ds_name d) names.
Proof.
  intros ids H. apply select_empty_iff in H as [(d & _ & _ & Ha) _].
  now apply matched_id in Ha.
Qed.

Lemma cleanup_frame (B : builtins) (names : list string) (cutoff_date : datetime)
    (s : Cognee.db) (ds : Cognee.dataset_row) :
  NoDup (map Cognee.ds_id (Cognee.datasets s)) ->
  In ds (Cognee.datasets s) -> ~ In (Cognee.ds_name ds) names ->
  let s' := snd (Cognee.cleanup_transaction B names cutoff_date s) in
  In ds (Cognee.datasets s') /\
  forall r, Cognee.dep_dataset_id r = Cognee.ds_id ds ->
            (In r (Cognee.acls s) -> In r (Cognee.acls s')) /\
            (In r (Cognee.dataset_database s) -> In r (Cognee.dataset_database s')) /\
            (In r (Cognee.pipeline_runs s) -> In r (Cognee.pipeline_runs s')).
Proof.
  intros Hk Hd Hn. cbv zeta.
  destruct (cleanup_transaction_cases B names cutoff_date s) as [[_ ->]|[_ ->]];
    [now cbn [snd]|].
  cbv zeta. cbn [snd].
  set (ids := map Cognee.ds_id (Cognee.select_datasets names s)).
  set (old := Cognee.select_old_data ids (micros cutoff_date) s).
  set (empty := Cognee.select_empty_datasets ids _).
  assert (Hf : Cognee.any_uuid (Cognee.ds_id ds) empty = false).
  { apply not_true_iff_false. intros H. apply any_uuid_In in H.
    apply empty_is_matched in H as (d & Hd' & E & Hn').
    rewrite (NoDup_map_eq Cognee.ds_id _ d ds Hk Hd' Hd E) in Hn'. contradiction. }
  split.
  - rewrite datasets_after. apply filter_In. split; [exact Hd | now rewrite Hf].
  - intros r Hr. unfold Cognee.delete_datasets, Cognee.delete_dependents.
    cbn [Cognee.acls Cognee.dataset_database Cognee.pipeline_runs
         Cognee.delete_data Cognee.delete_links].
    repeat split; intros H; apply filter_In; (split; [exact H | now rewrite Hr, Hf]).
Qed.

(** X6.  [/delete] of service A leaves the datasets it was not asked about
    alone: a dataset row whose name is none of the composite names
    "{user_id}_{category}" of the request is still there afterwards, and so
    is every row of [acls], [dataset_database] and [pipeline_runs] that
    refers to it (the ids of [datasets] being its primary key). *)
Theorem cognee_delete_frame (B : builtins) (payload : value) (now : Z)
    (connect : result unit) (s : Cognee.db) (ds : Cognee.dataset_row) :
  NoDup (map Cognee.ds_id (Cognee.datasets s)) ->
  In ds (Cognee.datasets s) ->
  (forall u cats, get payload "user_id" = Ok u -> get payload "categories" = Ok (VList cats) ->
                  ~ In (Cognee.ds_name ds) (requested_names B u cats)) ->
  let s' := snd (Cognee.delete_old_data B payload now connect s) in
  In ds (Cognee.datasets s') /\
  forall r, Cognee.dep_dataset_id r = Cognee.ds_id ds ->
            (In r (Cognee.acls s) -> In r (Cognee.acls s')) /\
            (In r (Cognee.dataset_database s) -> In r (Cognee.dataset_database s')) /\
            (In r (Cognee.pipeline_runs s) -> In r (Cognee.pipeline_runs s')).
Proof.
  intros Hk Hd Hn. cbv zeta.
  destruct (delete_old_data_cases B payload now connect s)
    as [[-> _]|(u & cats & days & n & Hu & Hc & _ & _ & ->)]; [now split|].
  apply cleanup_frame; [exact Hk | exact Hd | now apply Hn].
Qed.

Lemma cognee_delete_frame_witness :
  In Sample.home
     (Cognee.datasets (snd (Cognee.delete_old_data Sample.builtins
                              (VDict (Sample.cleanup_request "work"))
                              Sample.today_micros (Ok tt) Sample.store))).
Proof.
  refine (proj1 (cognee_delete_frame Sample.builtins (VDict (Sample.cleanup_request "work"))
                   Sample.today_micros (Ok tt) Sample.store Sample.home _ _ _)).
  - cbn. repeat constructor; cbn; intuition discriminate.
  - cbn. tauto.
  - intros u cats [= <-] [= <-]. cbn. intuition discriminate.
Defined.

Lemma cleanup_keeps_nonempty (B : builtins) (names : list string) (cutoff_date : datetime)
    (s : Cognee.db) (ds : Cognee.dataset_row) (dd : Cognee.dataset_data_row) :
  In ds (Cognee.datasets s) -> In dd (Cognee.dataset_data s) ->
  Cognee.dd_dataset_id dd = Cognee.ds_id ds ->
  (forall d, In d (Cognee.data s) -> Cognee.data_id d = Cognee.dd_data_id dd ->
             Cognee.older_than (micros cutoff_date) d = false) ->
  let s' := snd (Cognee.cleanup_transaction B names cutoff_date s) in
  In ds (Cognee.datasets s') /\ In dd (Cognee.dataset_data s').
Proof.
  intros Hd Hdd E Ho. cbv zeta.
  destruct (cleanup_transaction_cases B names cutoff_date s) as [[_ ->]|[_ ->]];
    [now cbn [snd]|].
  cbv zeta. cbn [snd].
  set (ids := map Cognee.ds_id (Cognee.select_datasets names s)).
  set (old := Cognee.select_old_data ids (micros cutoff_date) s).
  set (s1 := Cognee.delete_data old (Cognee.delete_links old ids s)).
  assert (Hl : In dd (Cognee.dataset_data s1)).
  { apply filter_In. split; [exact Hdd|].
    apply negb_true_iff, andb_false_iff. left. apply not_true_iff_false. intros H.
    apply any_uuid_In, select_old_data_iff in H as (d & dd' & Hd' & _ & Ei & _ & _ & Ho').
    rewrite (Ho d Hd' Ei) in Ho'. discriminate Ho'. }
  split; [|exact Hl].
  unfold s1. rewrite datasets_after. apply filter_In. split; [exact Hd|].
  apply negb_true_iff, not_true_iff_false. intros H.
  apply any_uuid_In, select_empty_iff in H as [_ H].
  apply (proj2 (group_count_pos (Cognee.ds_id ds) s1)); [|exact H].
  exists ds, dd. auto.
Qed.

(** X7.  [/delete] of service A never removes a dataset that still holds
    something recent: if a link row joins the dataset to a data id under
    which no data row is older than the cutoff of the request, both the
    dataset row and the link row are still there afterwards. *)
Theorem cognee_delete_keeps_nonempty (B : builtins) (payload : value) (now : Z)
    (connect : result unit) (s : Cognee.db)
    (ds : Cognee.dataset_row) (dd : Cognee.dataset_data_row) :
  In ds (Cognee.datasets s) -> In dd (Cognee.dataset_data s) ->
  Cognee.dd_dataset_id dd = Cognee.ds_id ds ->
  (forall days n d, get payload "days" = Ok days -> int B days = Ok n ->
                    In d (Cognee.data s) -> Cognee.data_id d = Cognee.dd_data_id dd ->
                    Cognee.older_than (now - n * micros_per_day) d = false) ->
  let s' := snd (Cognee.delete_old_data B payload now connect s) in
  In ds (Cognee.datasets s') /\ In dd (Cognee.dataset_data s').
Proof.
  intros Hd Hdd E Ho. cbv zeta.
  destruct (delete_old_data_cases B payload now connect s)
    as [[-> _]|(u & cats & days & n & _ & _ & Hdays & Hn & ->)]; [now split|].
  apply cleanup_keeps_nonempty; [exact Hd | exact Hdd | exact E |].
  intros d Hin Ei. cbn [micros]. now apply (Ho days).
Qed.

Lemma cognee_delete_keeps_nonempty_witness :
  let s' := snd (Cognee.delete_old_data Sample.builtins (VDict (Sample.cleanup_request "work"))
                   Sample.today_micros (Ok tt) Sample.store) in
  In Sample.work (Cognee.datasets s') /\ In (Cognee.mk_link 1%N 11%N) (Cognee.dataset_data s').
Proof.
  apply cognee_delete_keeps_nonempty.
  - cbn. tauto.
  - cbn. tauto.
  - reflexivity.
  - intros days n d [= <-] [= <-] [<-|[<-|[<-|[]]]]; cbn; intros; (reflexivity || discriminate).
Defined.

Lemma nil_no_member {A} (l : list A) : (forall x, ~ In x l) -> l = [].
Proof. destruct l as [|a l]; [reflexivity|]. intros H. destruct (H a). now left. Qed.

(** After the transaction, the same names and cutoff select no old data
    row and no empty dataset. *)
Lemma cleanup_again (names : list string) (cutoff : Z) (s : Cognee.db) :
  let ids := map Cognee.ds_id (Cognee.select_datasets names s) in
  let old := Cognee.select_old_data ids cutoff s in
  let s1 := Cognee.delete_data old (Cognee.delete_links old ids s) in
  let s' := Cognee.delete_datasets (Cognee.select_empty_datasets ids s1) s1 in
  let ids' := map Cognee.ds_id (Cognee.select_datasets names s') in
  Cognee.select_old_data ids' cutoff s' = [] /\
  Cognee.select_empty_datasets ids' s' = [].
Proof.
  intros ids old s1 s' ids'.
  assert (Hids : forall i, Cognee.any_uuid i ids' = true -> Cognee.any_uuid i ids = true).
  { intros i H. apply matched_id in H as (d & Hd & E & Hn). apply matched_id.
    exists d. split; [|now split]. unfold s', s1 in Hd. rewrite datasets_after in Hd.
    now apply filter_In in Hd. }
  split.
  - apply select_old_data_none. intros d dd Hd Hdd E Ha.
    apply not_true_iff_false. intros Ho.
    unfold s', s1 in Hd, Hdd. rewrite data_after in Hd. rewrite links_after in Hdd.
    apply filter_In in Hd as [Hd Hn]. apply filter_In in Hdd as [Hdd _].
    apply negb_true_iff, not_true_iff_false in Hn. apply Hn.
    apply any_uuid_In, select_old_data_iff. exists d, dd. repeat split; auto.
  - apply nil_no_member. intros i H.
    apply select_empty_iff in H as [(d & Hd & E & Ha) Hc].
    unfold s' in Hd at 1. unfold s1 in Hd. rewrite datasets_after in Hd.
    apply filter_In in Hd as [Hd Hn]. rewrite E in Hn.
    apply negb_true_iff, not_true_iff_false in Hn.
    assert (Hc1 : Cognee.group_count i s1 <> 0%nat).
    { intros Hc1. apply Hn, any_uuid_In, select_empty_iff. split; [|exact Hc1].
      exists d. split; [exact Hd|]. split; [exact E | now apply Hids]. }
    apply group_count_pos in Hc1 as (d2 & dd & Hd2 & Hdd & E2 & Edd).
    apply (proj2 (group_count_pos i s')); [|exact Hc].
    exists d2, dd. split; [|split; [exact Hdd | now split]].
    unfold s', s1. rewrite datasets_after. apply filter_In. split; [exact Hd2|].
    rewrite E2. now apply negb_true_iff, not_true_iff_false.
Qed.

(** X8.  The cleanup transaction of service A is idempotent: run a second
    time with the same names and cutoff on the store the first run left, it
    changes nothing, and it answers 404 (the first run removed every matched
    dataset, or there was none) or reports zero data entries deleted and
    zero datasets removed. *)
Theorem cognee_cleanup_idempotent (B : builtins) (names : list string)
    (cutoff_date : datetime) (s : Cognee.db) :
  let s' := snd (Cognee.cleanup_transaction B names cutoff_date s) in
  let again := Cognee.cleanup_transaction B names cutoff_date s' in
  snd again = s' /\
  (status (fst again) = 404 \/
   (status (fst again) = 200 /\
    detail "data_entries_deleted" (fst again) = Some (VInt 0) /\
    detail "empty_datasets_removed" (fst again) = Some (VInt 0))).
Proof.
  cbv zeta.
  destruct (cleanup_transaction_cases B names cutoff_date s) as [[E ->]|[_ ->]].
  - cbn [snd].
    destruct (cleanup_transaction_cases B names cutoff_date s) as [[_ ->]|[N _]];
      [cbn; auto | contradiction].
  - cbv zeta. cbn [snd].
    destruct (cleanup_again names (micros cutoff_date) s) as [Hold Hempty].
    cbv zeta in Hold, Hempty.
    match goal with
    | |- context [Cognee.cleanup_transaction B names cutoff_date ?x] =>
        destruct (cleanup_transaction_cases B names cutoff_date x) as [[_ ->]|[_ ->]]
    end; [cbn; auto|].
    cbv zeta. rewrite Hold. rewrite delete_nothing. rewrite Hempty.
    rewrite delete_datasets_nil. cbn. auto.
Qed.






(** ** Service B: ingest and search *)

(** X10.  With [graphiti] set, [/ingest] of service B on a JSON object
    always ends with a response: 400 without a library call, or exactly one
    [add_episode] call that carries the [data] of the request; if the call
    fails the answer is 500 with the library's message, if it succeeds the
    answer is 201 and reports the episode name and the group id that were
    handed to the library. *)
Theorem graphiti_ingest_outcomes (B : builtins) (driver : bool) (now : Z)
    (o : oracle Graphiti.call) (p : list (string * value)) :
  exists r tr,
    run o (Graphiti.add_data B (Graphiti.mk_globals true driver) now (VDict p)) [] = (Ok r, tr) /\
    ((tr = [] /\ status r = 400) \/
     (exists n d desc gid a,
        tr = [(Graphiti.AddEpisode n d desc gid, a)] /\ lookup "data" p = Some d /\
        match a with
        | Raise e => status r = 500 /\ field "message" (body r) = Some (VStr (exn_str e))
        | Ok _ => status r = 201 /\ field "episode_name" (body r) = Some (VStr n) /\
                  field "group_id" (body r) = Some (VStr gid)
        end)).
Proof.
  unfold Graphiti.add_data, get, get_default. cbn [Graphiti.graphiti negb lift bind].
  destruct (lookup "data" p) as [d|] eqn:Ed.
  - destruct (negb (truthy d) || _); cbn [catch bind invoke lift run];
      [do 2 eexists; split; [reflexivity|]; left; now split|].
    destruct (o [] _) as [v|e] eqn:E; cbn [lift bind catch run Datatypes.app];
      do 2 eexists; (split; [reflexivity|]); right; do 5 eexists;
      (split; [reflexivity|]); (split; [reflexivity|]); cbn; auto.
  - cbn [truthy negb orb]. cbn [run]. do 2 eexists. split; [reflexivity|]. left. now split.
Qed.

Lemma shape_all_ok (category user_id : value) (rs : list value) :
  Forall content_ok rs ->
  exists data,
    Graphiti.shape_all category user_id rs = Ok data /\
    length data = length (filter shown rs) /\
    Forall (fun e => field "category" e = Some category /\ field "user_id" e = Some user_id)
           data.
Proof.
  induction 1 as [|r rs Hr _ (data & E & L & F)].
  - exists []. cbn. auto.
  - cbn [Graphiti.shape_all filter]. unfold Graphiti.shape, shown.
    unfold content_ok in Hr. rewrite E.
    destruct (Graphiti.hasattr r "fact").
    + cbn [rbind orb Datatypes.app]. eexists. split; [reflexivity|].
      split; [cbn [length]; now rewrite L|]. constructor; [now cbn | exact F].
    + destruct (Graphiti.hasattr r "content").
      * destruct (Hr eq_refl eq_refl) as [s ->].
        cbn [rbind orb Datatypes.app]. eexists. split; [reflexivity|].
        split; [cbn [length]; now rewrite L|]. constructor; [now cbn | exact F].
      * cbn [rbind orb Datatypes.app]. exists data. auto.
Qed.

(** X11.  A valid [/strict_search] of service B whose library call gives a
    list of results answers 200; [count] is the number of results that have
    a [fact] or a [content], [results] has that many entries, and every
    entry carries the [category] and the [user_id] of the request, whatever
    the library returned. *)
Theorem graphiti_search_shaping (B : builtins) (driver : bool) (o : oracle Graphiti.call)
    (p : list (string * value)) (q c u : value) (rs : list value) :
  lookup "query" p = Some q -> lookup "category" p = Some c -> lookup "user_id" p = Some u ->
  truthy q = true -> truthy c = true -> truthy u = true ->
  o [] (Graphiti.Search q [(str B u ++ "_" ++ str B c)%string]) = Ok (VList rs) ->
  Forall content_ok rs ->
  exists r data,
    run o (Graphiti.strict_search B (Graphiti.mk_globals true driver) (VDict p)) []
    = (Ok r, [(Graphiti.Search q [(str B u ++ "_" ++ str B c)%string], Ok (VList rs))]) /\
    status r = 200 /\
    field "count" (body r) = Some (VInt (Z.of_nat (length (filter shown rs)))) /\
    field "results" (body r) = Some (VList data) /\
    length data = length (filter shown rs) /\
    Forall (fun e => field "category" e = Some c /\ field "user_id" e = Some u) data.
Proof.
  intros Hq Hc Hu Tq Tc Tu Ho Hrs.
  destruct (shape_all_ok c u rs Hrs) as (data & E & L & F).
  unfold Graphiti.strict_search, get, get_default. rewrite Hq, Hc, Hu.
  cbn [lift bind]. rewrite Tq, Tc, Tu.
  cbn [negb orb Graphiti.graphiti catch bind invoke run]. rewrite Ho.
  cbn [lift bind catch iter]. rewrite E. cbn [lift bind catch run Datatypes.app].
  do 2 eexists. split; [reflexivity|]. cbn [status body json field lookup String.eqb].
  repeat split; try assumption. cbn. now rewrite L.
Qed.

Lemma graphiti_search_shaping_witness :
  exists r data,
    run (Sample.graph_library [Sample.edge_result; VInt 7; Sample.episode_result])
        (Graphiti.strict_search Sample.builtins (Graphiti.mk_globals true true)
           (VDict [("query", VStr "tea"); ("category", VStr "home"); ("user_id", VStr "bob")]))
        []
    = (Ok r, [(Graphiti.Search (VStr "tea") ["bob_home"%string],
               Ok (VList [Sample.edge_result; VInt 7; Sample.episode_result]))]) /\
    status r = 200 /\
    field "count" (body r) = Some (VInt 2) /\
    field "results" (body r) = Some (VList data) /\
    length data = 2%nat /\
    Forall (fun e => field "category" e = Some (VStr "home")
                     /\ field "user_id" e = Some (VStr "bob")) data.
Proof.
  apply (graphiti_search_shaping Sample.builtins true
           (Sample.graph_library [Sample.edge_result; VInt 7; Sample.episode_result])
           [("query", VStr "tea"); ("category", VStr "home"); ("user_id", VStr "bob")]
           (VStr "tea") (VStr "home") (VStr "bob")
           [Sample.edge_result; VInt 7; Sample.episode_result]);
    try reflexivity.
  repeat constructor; unfold content_ok; cbn; intros; (discriminate || eauto).
Defined.

(** X12.  While service B is starting up nothing is touched: with
    [graphiti] still None, [/ingest] answers 500 and [/strict_search] 400 or
    500 (or fails on a body that is not an object) without a library call;
    with [async_driver] still None, [/delete_old] answers 400 or 500 and
    leaves the graph as it is; and [/health] answers 503 if either is
    None. *)
Theorem graphiti_not_ready (B : builtins) (toInteger : string -> option Z)
    (o : oracle Graphiti.call) (now : Z) (payload : value) (g : Graphiti.graph)
    (other : bool) :
  let no_graphiti := Graphiti.mk_globals false other in
  let no_driver := Graphiti.mk_globals other false in
  calls o (Graphiti.add_data B no_graphiti now payload) = [] /\
  status (respond o (Graphiti.add_data B no_graphiti now payload)) = 500 /\
  calls o (Graphiti.strict_search B no_graphiti payload) = [] /\
  (status (respond o (Graphiti.strict_search B no_graphiti payload)) = 400 \/
   status (respond o (Graphiti.strict_search B no_graphiti payload)) = 500) /\
  snd (Graphiti.delete_old_data B toInteger no_driver now payload g) = g /\
  (status (fst (Graphiti.delete_old_data B toInteger no_driver now payload g)) = 400 \/
   status (fst (Graphiti.delete_old_data B toInteger no_driver now payload g)) = 500) /\
  status (Graphiti.health_check no_graphiti) = 503 /\
  status (Graphiti.health_check no_driver) = 503.
Proof.
  cbv zeta. split; [reflexivity|]. split; [reflexivity|].
  assert (S : calls o (Graphiti.strict_search B (Graphiti.mk_globals false other) payload) = []
              /\ (status (respond o (Graphiti.strict_search B (Graphiti.mk_globals false other)
                                       payload)) = 400 \/
                  status (respond o (Graphiti.strict_search B (Graphiti.mk_globals false other)
                                       payload)) = 500)).
  { unfold calls, respond, Graphiti.strict_search.
    destruct (get payload "query") as [q|e]; cbn [lift bind run fst snd map]; [|auto].
    destruct (get payload "category") as [c|e]; cbn [lift bind run fst snd map]; [|auto].
    destruct (get payload "user_id") as [u|e]; cbn [lift bind run fst snd map]; [|auto].
    destruct (negb (truthy q) || negb (truthy c) || negb (truthy u)); cbn; auto. }
  destruct S as [S1 S2]. split; [exact S1|]. split; [exact S2|].
  assert (D : snd (Graphiti.delete_old_data B toInteger (Graphiti.mk_globals other false)
                     now payload g) = g
              /\ (status (fst (Graphiti.delete_old_data B toInteger
                                 (Graphiti.mk_globals other false) now payload g)) = 400 \/
                  status (fst (Graphiti.delete_old_data B toInteger
                                 (Graphiti.mk_globals other false) now payload g)) = 500)).
  { unfold Graphiti.delete_old_data.
    destruct (get payload "user_id") as [u|e]; [|cbn; auto].
    destruct (negb (truthy u)); cbn; auto. }
  destruct D as [D1 D2]. split; [exact D1|]. split; [exact D2|].
  unfold Graphiti.health_check. cbn [Graphiti.graphiti Graphiti.async_driver andb].
  rewrite andb_false_r. now split.
Qed.

(** ** Service B: the cleanup *)

(** The handler either leaves the graph alone and answers 400 or 500, or
    runs the two queries one after the other and answers 200. *)
Lemma graphiti_delete_cases (B : builtins) (toInteger : string -> option Z)
    (gl : Graphiti.globals) (now : Z) (payload : value) (g : Graphiti.graph) :
  (snd (Graphiti.delete_old_data B toInteger gl now payload g) = g /\
   (status (fst (Graphiti.delete_old_data B toInteger gl now payload g)) = 400 \/
    status (fst (Graphiti.delete_old_data B toInteger gl now payload g)) = 500)) \/
  (exists u,
     get payload "user_id" = Ok u /\ truthy u = true /\
     let del := Graphiti.run_del_query toInteger ("User_" ++ str B u ++ "_Ingest_")
                  (now - 90 * 24 * 60 * 60) g in
     let orphan := Graphiti.run_orphan_query (fst del) in
     Graphiti.delete_old_data B toInteger gl now payload g
     = (mk_response 200
          (json [("status", VStr "success");
                 ("message", VStr ("Removed " ++ str_of_Z (snd del)
                                     ++ " episodes and " ++ str_of_Z (snd orphan)
                                     ++ " orphaned nodes.")%string)]),
        fst orphan)).
Proof.
  unfold Graphiti.delete_old_data.
  destruct (get payload "user_id") as [u|e]; [|left; cbn; auto].
  destruct (truthy u) eqn:Tu; cbn [negb]; [|left; cbn; auto].
  destruct (Graphiti.async_driver gl); cbn [negb]; [|left; cbn; auto].
  right. exists u. split; [reflexivity|]. split; [exact Tu|]. reflexivity.
Qed.

Lemma endpoint_node (g : Graphiti.graph) (i : N) :
  In i (map Graphiti.node_id (Graphiti.nodes g)) ->
  exists n, In n (Graphiti.nodes g) /\ Graphiti.node_id n = i.
Proof. intros H. apply in_map_iff in H as (n & E & H). eauto. Qed.

Lemma touches_fst (r : N * N) : Graphiti.touches (fst r) r = true.
Proof. unfold Graphiti.touches. now rewrite N.eqb_refl. Qed.

Lemma touches_snd (r : N * N) : Graphiti.touches (snd r) r = true.
Proof. unfold Graphiti.touches. rewrite (N.eqb_refl (snd r)). apply orb_true_r. Qed.

Lemma detach_delete_well_formed (victim : Graphiti.node -> bool) (g : Graphiti.graph) :
  well_formed g -> well_formed (Graphiti.detach_delete victim g).
Proof.
  intros W r Hr. unfold Graphiti.detach_delete in *. cbn [Graphiti.nodes Graphiti.relationships] in *.
  apply filter_In in Hr as [Hr Hn]. apply negb_true_iff in Hn.
  assert (K : forall i, Graphiti.touches i r = true ->
                        In i (map Graphiti.node_id (Graphiti.nodes g)) ->
                        In i (map Graphiti.node_id
                                (filter (fun n => negb (victim n)) (Graphiti.nodes g)))).
  { intros i Ht Hi. apply endpoint_node in Hi as (n & Hin & <-).
    apply in_map, filter_In. split; [exact Hin|].
    destruct (victim n) eqn:V; [|reflexivity]. exfalso.
    apply not_true_iff_false in Hn. apply Hn, existsb_exists.
    exists n. split; [exact Hin | now rewrite V, Ht]. }
  destruct (W r Hr) as [H1 H2].
  split; apply K; auto using touches_fst, touches_snd.
Qed.

Lemma orphan_query_well_formed (g : Graphiti.graph) :
  well_formed g -> well_formed (fst (Graphiti.run_orphan_query g)).
Proof.
  intros W r Hr. unfold Graphiti.run_orphan_query in *.
  cbn [fst Graphiti.nodes Graphiti.relationships] in *.
  assert (K : forall i, Graphiti.touches i r = true ->
                        In i (map Graphiti.node_id (Graphiti.nodes g)) ->
                        In i (map Graphiti.node_id
                                (filter (fun n => negb (negb (existsb
                                           (Graphiti.touches (Graphiti.node_id n))
                                           (Graphiti.relationships g))))
                                        (Graphiti.nodes g)))).
  { intros i Ht Hi. apply endpoint_node in Hi as (n & Hin & <-).
    apply in_map, filter_In. split; [exact Hin|]. rewrite negb_involutive.
    apply existsb_exists. now exists r. }
  destruct (W r Hr) as [H1 H2].
  split; apply K; auto using touches_fst, touches_snd.
Qed.

(** X13.  [/delete_old] of service B keeps the graph a graph and only
    takes away: if every relationship started and ended at a node before the
    request, so it does afterwards, whatever the request and its outcome;
    and afterwards the nodes are the nodes before with some taken out, and
    likewise the relationships. *)
Theorem graphiti_delete_integrity (B : builtins) (toInteger : string -> option Z)
    (gl : Graphiti.globals) (now : Z) (payload : value) (g : Graphiti.graph) :
  well_formed g ->
  let g' := snd (Graphiti.delete_old_data B toInteger gl now payload g) in
  well_formed g' /\
  subtable (Graphiti.nodes g') (Graphiti.nodes g) /\
  subtable (Graphiti.relationships g') (Graphiti.relationships g).
Proof.
  intros W. cbv zeta.
  destruct (graphiti_delete_cases B toInteger gl now payload g)
    as [[-> _]|(u & _ & _ & ->)].
  - split; [exact W|]. split; apply subtable_refl.
  - cbv zeta. cbn [snd]. split; [|split].
    + apply orphan_query_well_formed. unfold Graphiti.run_del_query. cbn [fst].
      now apply detach_delete_well_formed.
    + unfold Graphiti.run_orphan_query, Graphiti.run_del_query, Graphiti.detach_delete.
      cbn [fst Graphiti.nodes Graphiti.relationships].
      apply subtable_filter. eexists. reflexivity.
    + unfold Graphiti.run_orphan_query, Graphiti.run_del_query, Graphiti.detach_delete.
      cbn [fst Graphiti.nodes Graphiti.relationships]. eexists. reflexivity.
Qed.

Lemma sample_graph_well_formed : well_formed Sample.graph.
Proof.
  intros r [<-|[<-|[]]]; cbn; tauto.
Qed.

Lemma graphiti_delete_integrity_witness :
  well_formed (snd (Graphiti.delete_old_data Sample.builtins Sample.toInteger
                      (Graphiti.mk_globals true true) Sample.today
                      (VDict [("user_id", VStr "bob")]) Sample.graph)).
Proof.
  apply graphiti_delete_integrity. apply sample_graph_well_formed.
Defined.

(** X14.  The orphan sweep of [/delete_old] is not scoped to the user: when
    the request succeeds, every node left in the graph has a relationship,
    so every node that had none before the request is gone, whatever its
    labels and whoever it belongs to. *)
Theorem graphiti_delete_sweeps_isolated (B : builtins) (toInteger : string -> option Z)
    (gl : Graphiti.globals) (now : Z) (payload : value) (g : Graphiti.graph) :
  status (fst (Graphiti.delete_old_data B toInteger gl now payload g)) = 200 ->
  let g' := snd (Graphiti.delete_old_data B toInteger gl now payload g) in
  (forall n, In n (Graphiti.nodes g') -> isolated g' n = false) /\
  (forall n, In n (Graphiti.nodes g) -> isolated g n = true -> ~ In n (Graphiti.nodes g')).
Proof.
  intros H. cbv zeta.
  destruct (graphiti_delete_cases B toInteger gl now payload g)
    as [[_ [E|E]]|(u & _ & _ & E)]; [rewrite E in H; discriminate H..|].
  rewrite E. clear E H. cbv zeta. cbn [snd].
  unfold Graphiti.run_orphan_query, Graphiti.run_del_query. cbn [fst].
  set (g1 := Graphiti.detach_delete _ g). cbn [Graphiti.nodes Graphiti.relationships].
  assert (K : forall n, In n (filter (fun n => negb (negb (existsb
                                         (Graphiti.touches (Graphiti.node_id n))
                                         (Graphiti.relationships g1))))
                                     (Graphiti.nodes g1)) ->
                        existsb (Graphiti.touches (Graphiti.node_id n))
                                (Graphiti.relationships g1) = true).
  { intros n Hn. apply filter_In in Hn as [_ Hn]. now rewrite negb_involutive in Hn. }
  split.
  - intros n Hn. unfold isolated. cbn [Graphiti.relationships]. now rewrite (K n Hn).
  - intros n _ Hi Hn. apply K in Hn. apply existsb_exists in Hn as (r & Hr & Ht).
    unfold g1, Graphiti.detach_delete in Hr. cbn [Graphiti.relationships] in Hr.
    apply filter_In in Hr as [Hr _]. unfold isolated in Hi.
    apply negb_true_iff, not_true_iff_false in Hi. apply Hi, existsb_exists. now exists r.
Qed.

Lemma graphiti_delete_sweeps_isolated_witness :
  ~ In Sample.lonely
       (Graphiti.nodes (snd (Graphiti.delete_old_data Sample.builtins Sample.toInteger
                               (Graphiti.mk_globals true true) Sample.today
                               (VDict [("user_id", VStr "alice")]) Sample.graph))).
Proof.
  refine (proj2 (graphiti_delete_sweeps_isolated Sample.builtins Sample.toInteger
                   (Graphiti.mk_globals true true) Sample.today
                   (VDict [("user_id", VStr "alice")]) Sample.graph _) Sample.lonely _ _).
  - reflexivity.
  - cbn. tauto.
  - reflexivity.
Defined.

(** X15.  The two numbers in the message of a successful [/delete_old] of
    service B account for every node that went: they add up to the number
    of nodes before the request minus the number of nodes after it. *)
Theorem graphiti_delete_counts (B : builtins) (toInteger : string -> option Z)
    (gl : Graphiti.globals) (now : Z) (payload : value) (g : Graphiti.graph) :
  status (fst (Graphiti.delete_old_data B toInteger gl now payload g)) = 200 ->
  exists episodes orphans,
    field "message" (body (fst (Graphiti.delete_old_data B toInteger gl now payload g)))
    = Some (VStr ("Removed " ++ str_of_Z episodes ++ " episodes and "
                    ++ str_of_Z orphans ++ " orphaned nodes.")%string) /\
    0 <= episodes /\ 0 <= orphans /\
    episodes + orphans
    = Z.of_nat (length (Graphiti.nodes g))
      - Z.of_nat (length (Graphiti.nodes
                            (snd (Graphiti.delete_old_data B toInteger gl now payload g)))).
Proof.
  intros H.
  destruct (graphiti_delete_cases B toInteger gl now payload g)
    as [[_ [E|E]]|(u & _ & _ & E)]; [rewrite E in H; discriminate H..|].
  rewrite E. clear E H. cbv zeta. cbn [fst snd body]. do 2 eexists.
  split; [reflexivity|].
  unfold Graphiti.run_orphan_query, Graphiti.run_del_query. cbn [fst snd].
  set (g1 := Graphiti.detach_delete _ g). cbn [Graphiti.nodes].
  pose proof (length_filter_negb
                (Graphiti.expired toInteger ("User_" ++ str B u ++ "_Ingest_")
                   (now - 90 * 24 * 60 * 60)) (Graphiti.nodes g)) as L1.
  pose proof (length_filter_negb
                (fun n => negb (existsb (Graphiti.touches (Graphiti.node_id n))
                                        (Graphiti.relationships g1))) (Graphiti.nodes g1)) as L2.
  unfold g1 in L2 at 1. unfold Graphiti.detach_delete in L2 at 1.
  cbn [Graphiti.nodes] in L2. fold g1 in L2. lia.
Qed.

Lemma graphiti_delete_counts_witness :
  exists episodes orphans,
    field "message"
      (body (fst (Graphiti.delete_old_data Sample.builtins Sample.toInteger
                    (Graphiti.mk_globals true true) Sample.today
                    (VDict [("user_id", VStr "bob")]) Sample.graph)))
    = Some (VStr ("Removed " ++ str_of_Z episodes ++ " episodes and "
                    ++ str_of_Z orphans ++ " orphaned nodes.")%string) /\
    0 <= episodes /\ 0 <= orphans /\
    episodes + orphans
    = Z.of_nat (length (Graphiti.nodes Sample.graph))
      - Z.of_nat (length (Graphiti.nodes
                            (snd (Graphiti.delete_old_data Sample.builtins Sample.toInteger
                                    (Graphiti.mk_globals true true) Sample.today
                                    (VDict [("user_id", VStr "bob")]) Sample.graph)))).
Proof.
  apply graphiti_delete_counts. reflexivity.
Defined.

(** ** Service C: add and search *)

(** X16.  With [memory] set, [/add] of service C on a JSON object always
    ends with a response.  If the object is empty or lacks [data] or
    [user_id] the answer is 400 and the library is not called.  Otherwise
    there is exactly one [memory.add] call, with the [data] and [user_id] of
    the request as they are and its [category] (or "general") as metadata,
    and the answer is 201 if the call succeeds and 500 with the library's
    message if it fails. *)
Theorem mem0_add_outcomes (o : oracle Mem0.call) (p : list (string * value)) :
  exists r tr,
    run o (Mem0.add_memory true (VDict p)) [] = (Ok r, tr) /\
    ((tr = [] /\ status r = 400 /\
      (p = [] \/ lookup "data" p = None \/ lookup "user_id" p = None)) \/
     (exists d u a,
        lookup "data" p = Some d /\ lookup "user_id" p = Some u /\
        tr = [(Mem0.Add d u (match lookup "category" p with
                             | Some c => c
                             | None => VStr "general"
                             end), a)] /\
        match a with
        | Ok _ => status r = 201
        | Raise e => status r = 500 /\ field "message" (body r) = Some (VStr (exn_str e))
        end)).
Proof.
  unfold Mem0.add_memory. cbn [negb].
  destruct (lookup "data" p) as [d|] eqn:Ed.
  - destruct (lookup "user_id" p) as [u|] eqn:Eu.
    + rewrite (missing_present p "data" "user_id" d u Ed Eu).
      unfold subscript, get_default. rewrite Ed, Eu.
      cbn [lift bind catch invoke run].
      destruct (o [] _) as [v|e]; cbn [lift bind catch run Datatypes.app];
        do 2 eexists; (split; [reflexivity|]); right; exists d, u; eexists;
        (split; [reflexivity|]); (split; [reflexivity|]); (split; [reflexivity|]);
        cbn; auto.
    + rewrite (missing_absent p (or_intror Eu)). cbn [lift bind run].
      do 2 eexists. split; [reflexivity|]. left. cbn. auto.
  - rewrite (missing_absent p (or_introl Ed)). cbn [lift bind run].
    do 2 eexists. split; [reflexivity|]. left. cbn. auto.
Qed.

(** The search handler of service C up to the choice of the candidates. *)
Lemma mem0_search_run (o : oracle Mem0.call) (p : list (string * value)) (q u raw : value)
    (l : list value) :
  lookup "query" p = Some q -> lookup "user_id" p = Some u ->
  o [] (Mem0.Search q u 20 55) = Ok raw -> lists raw l ->
  run o (Mem0.search_memories true (VDict p)) []
  = run o
      (catch
         (candidates <- (if truthy (match lookup "category" p with
                                    | Some c => c
                                    | None => VNone
                                    end) && truthy (VList l)
                         then
                           ms <- lift (iter (VList l)) ;;
                           pref <- lift (Mem0.preferred
                                           (match lookup "category" p with
                                            | Some c => c
                                            | None => VNone
                                            end) ms) ;;
                           match pref with
                           | [] => Ret (VList l)
                           | _ => Ret (VList pref)
                           end
                         else Ret (VList l)) ;;
          results <- lift (slice_to 5 candidates) ;;
          Ret (mk_response 200 (json [("status", VStr "success"); ("results", results)])))
         (fun e => Ret (Mem0.failure e)))
      [(Mem0.Search q u 20 55, Ok raw)].
Proof.
  intros Hq Hu Ho Hl. unfold Mem0.search_memories. cbn [negb].
  rewrite (missing_present p "query" "user_id" q u Hq Hu).
  unfold subscript, get, get_default. rewrite Hq, Hu.
  cbn [lift bind catch invoke run]. rewrite Ho. cbn [lift bind catch Datatypes.app].
  destruct Hl as [(r & -> & Hr)|[(r & -> & Hr & ->)|[->|(H1 & H2 & ->)]]].
  - cbn [Mem0.is_dict]. rewrite Hr. reflexivity.
  - cbn [Mem0.is_dict]. rewrite Hr. reflexivity.
  - reflexivity.
  - rewrite H1, H2. reflexivity.
Qed.

(** X17.  A valid [/search] of service C that names no category answers
    with the first five candidates of the library, in the library's order,
    whatever the candidates are: an empty result, or an answer that is
    neither a dict nor a list, gives 200 with no results. *)
Theorem mem0_search_plain (o : oracle Mem0.call) (p : list (string * value)) (q u raw : value)
    (l : list value) :
  lookup "query" p = Some q -> lookup "user_id" p = Some u -> no_category p ->
  o [] (Mem0.Search q u 20 55) = Ok raw -> lists raw l ->
  run o (Mem0.search_memories true (VDict p)) []
  = (Ok (mk_response 200 (json [("status", VStr "success");
                                ("results", VList (firstn 5 l))])),
     [(Mem0.Search q u 20 55, Ok raw)]).
Proof.
  intros Hq Hu Hc Ho Hl. rewrite (mem0_search_run o p q u raw l Hq Hu Ho Hl).
  unfold no_category in Hc.
  destruct (lookup "category" p) as [c|]; [rewrite Hc|]; reflexivity.
Qed.

Lemma mem0_search_plain_witness :
  run (Sample.library [Sample.memory_a; Sample.memory_b; Sample.memory_c; Sample.memory_d;
                       Sample.memory_e; Sample.memory_a])
      (Mem0.search_memories true (VDict [("query", VStr "tea"); ("user_id", VStr "alice")])) []
  = (Ok (mk_response 200
           (json [("status", VStr "success");
                  ("results", VList [Sample.memory_a; Sample.memory_b; Sample.memory_c;
                                     Sample.memory_d; Sample.memory_e])])),
     [(Mem0.Search (VStr "tea") (VStr "alice") 20 55,
       Ok (VDict [("results", VList [Sample.memory_a; Sample.memory_b; Sample.memory_c;
                                     Sample.memory_d; Sample.memory_e; Sample.memory_a])]))]).
Proof.
  apply (mem0_search_plain _ [("query", VStr "tea"); ("user_id", VStr "alice")]
           (VStr "tea") (VStr "alice") _
           [Sample.memory_a; Sample.memory_b; Sample.memory_c; Sample.memory_d;
            Sample.memory_e; Sample.memory_a]);
    try reflexivity.
  left. eexists. split; reflexivity.
Defined.

Lemma preferred_raises (category : value) (ms : list value) (m : value) :
  In m ms -> (exists e, Mem0.prefers category m = Raise e) ->
  exists e, Mem0.preferred category ms = Raise e.
Proof.
  intros Hin [e He]. induction ms as [|x ms IH]; [contradiction|].
  cbn [Mem0.preferred]. destruct (Mem0.prefers category x) as [keep|e'] eqn:Ex.
  - destruct Hin as [->|Hin]; [congruence|].
    destruct (IH Hin) as [e' ->]. cbn. eauto.
  - cbn. eauto.
Qed.

(** X18.  A candidate whose [metadata] is null breaks the category
    preference: a valid [/search] of service C that names a category answers
    500 as soon as one candidate of the library carries [metadata: null],
    although the library call succeeded. *)
Theorem mem0_search_null_metadata (o : oracle Mem0.call) (p : list (string * value))
    (q u c raw : value) (l : list value) (d : list (string * value)) :
  lookup "query" p = Some q -> lookup "user_id" p = Some u ->
  lookup "category" p = Some c -> truthy c = true ->
  o [] (Mem0.Search q u 20 55) = Ok raw -> lists raw l ->
  In (VDict d) l -> lookup "metadata" d = Some VNone ->
  exists r,
    run o (Mem0.search_memories true (VDict p)) []
    = (Ok r, [(Mem0.Search q u 20 55, Ok raw)]) /\
    status r = 500 /\ field "status" (body r) = Some (VStr "error").
Proof.
  intros Hq Hu Hc Tc Ho Hl Hin Hm. rewrite (mem0_search_run o p q u raw l Hq Hu Ho Hl).
  rewrite Hc, Tc.
  destruct (preferred_raises c l (VDict d) Hin) as [e He].
  { unfold Mem0.prefers, get_default. rewrite Hm. cbn. eauto. }
  destruct l as [|x l]; [contradiction|].
  cbn [truthy andb iter lift bind]. rewrite He. cbn [lift bind catch run].
  eexists. split; [reflexivity|]. now split.
Qed.

Lemma mem0_search_null_metadata_witness :
  exists r,
    run (Sample.library [Sample.memory_a; VDict [("id", VStr "x"); ("metadata", VNone)]])
        (Mem0.search_memories true
           (VDict [("query", VStr "tea"); ("user_id", VStr "alice"); ("category", VStr "home")]))
        []
    = (Ok r, [(Mem0.Search (VStr "tea") (VStr "alice") 20 55,
               Ok (VDict [("results",
                           VList [Sample.memory_a;
                                  VDict [("id", VStr "x"); ("metadata", VNone)]])]))]) /\
    status r = 500 /\ field "status" (body r) = Some (VStr "error").
Proof.
  apply (mem0_search_null_metadata _
           [("query", VStr "tea"); ("user_id", VStr "alice"); ("category", VStr "home")]
           (VStr "tea") (VStr "alice") (VStr "home") _
           [Sample.memory_a; VDict [("id", VStr "x"); ("metadata", VNone)]]
           [("id", VStr "x"); ("metadata", VNone)]);
    try reflexivity.
  - left. eexists. split; reflexivity.
  - cbn. tauto.
Defined.

(** ** Service C: the calls of the cleanup *)

Lemma loop_trace (B : builtins) (o : oracle Mem0.call) (cutoff : datetime)
    (mems : list value) :
  forall (c : Z) (errs : list value) (hist : list (event Mem0.call)),
  exists out rest,
    run o (Mem0.delete_loop B cutoff mems c errs) hist = (out, hist ++ rest) /\
    Forall (fun ev => is_delete ev = true) rest /\
    (length rest <= length mems)%nat.
Proof.
  induction mems as [|mem mems IH]; intros c errs hist.
  - exists (Ok (c, errs)), []. cbn. rewrite app_nil_r. repeat split; auto.
  - assert (Stop : forall out : result (Z * list value), exists out' rest,
               (out, hist) = (out', hist ++ rest) /\
               Forall (fun ev => is_delete ev = true) rest /\
               (length rest <= length (mem :: mems))%nat).
    { intros out. exists out, []. rewrite app_nil_r. repeat split; auto. cbn. lia. }
    assert (Skip : forall c' errs', exists out rest,
               run o (Mem0.delete_loop B cutoff mems c' errs') hist = (out, hist ++ rest) /\
               Forall (fun ev => is_delete ev = true) rest /\
               (length rest <= length (mem :: mems))%nat).
    { intros c' errs'. destruct (IH c' errs' hist) as (out & rest & E & F & L).
      exists out, rest. repeat split; auto. cbn. lia. }
    cbn [Mem0.delete_loop].
    destruct (get mem "created_at") as [v|e]; cbn [lift bind]; [|apply Stop].
    destruct (truthy v); cbn [negb]; [|apply Skip].
    destruct (parse_datetime B v) as [t|e]; cbn [lift bind]; [|apply Stop].
    destruct (datetime_lt t cutoff) as [[|]|e]; cbn [lift bind]; [|apply Skip|apply Stop].
    destruct (subscript mem "id") as [i|e]; cbn [lift bind attempt invoke run]; [|apply Stop].
    assert (Step : forall a c' errs', exists out rest,
               run o (Mem0.delete_loop B cutoff mems c' errs') (hist ++ [(Mem0.Delete i, a)])
               = (out, hist ++ rest) /\
               Forall (fun ev => is_delete ev = true) rest /\
               (length rest <= length (mem :: mems))%nat).
    { intros a c' errs'.
      destruct (IH c' errs' (hist ++ [(Mem0.Delete i, a)])) as (out & rest & E & F & L).
      exists out, ((Mem0.Delete i, a) :: rest). rewrite E, <- app_assoc.
      repeat split; [constructor; [reflexivity | exact F] | cbn; lia]. }
    rewrite !run_bind.
    destruct (o hist (Mem0.Delete i)) as [w|e]; cbn [lift attempt run bind]; apply Step.
Qed.

(** X19.  Whatever the request and whatever the library answers,
    [/delete_old] of service C calls the library in one shape only: nothing
    at all, or one [get_all] for the [user_id] of the request followed by
    [delete] calls only, at most one for each listed record.  It never adds
    and never searches. *)
Theorem mem0_delete_trace (B : builtins) (o : oracle Mem0.call) (memory : bool) (now : Z)
    (payload : value) :
  let tr := snd (run o (Mem0.delete_old_memories B memory now payload) []) in
  tr = [] \/
  exists u a rest,
    subscript payload "user_id" = Ok u /\
    tr = (Mem0.GetAll u, a) :: rest /\
    Forall (fun ev => is_delete ev = true) rest /\
    (rest = [] \/
     exists resp results mems,
       a = Ok resp /\ get_default resp "results" (VList []) = Ok results /\
       iter results = Ok mems /\ (length rest <= length mems)%nat).
Proof.
  cbv zeta. unfold Mem0.delete_old_memories.
  destruct memory; cbn [negb]; [|now left].
  destruct (Mem0.missing payload ["user_id"]) as [[|]|e]; cbn [lift bind run snd];
    [now left| |now left].
  destruct (subscript payload "user_id") as [u|e]; cbn [lift bind run snd]; [|now left].
  right. exists u. rewrite run_catch. cbn [invoke bind run Datatypes.app].
  destruct (o [] (Mem0.GetAll u)) as [resp|e]; cbn [lift bind run].
  2:{ exists (Raise e), []. cbn. repeat split; auto. }
  destruct (get_default resp "results" (VList [])) as [results|e] eqn:Er; cbn [lift bind run].
  2:{ exists (Ok resp), []. cbn. repeat split; auto. }
  destruct (iter results) as [mems|e] eqn:Ei; cbn [lift bind run].
  2:{ exists (Ok resp), []. cbn. repeat split; auto. }
  rewrite run_bind.
  destruct (loop_trace B o (minus_days (mk_datetime now true) 90) mems 0 []
              [(Mem0.GetAll u, Ok resp)]) as (out & rest & E & F & L).
  destruct (run o (Mem0.delete_loop _ _ _ _ _) _) as [out' tr] eqn:E'.
  injection E as -> ->.
  exists (Ok resp), rest. split; [reflexivity|].
  split; [|split; [exact F|right; exists resp, results, mems; auto]].
  destruct out as [[c [|x errs]]|e]; reflexivity.
Qed.

(** ** Bodies that are not JSON objects *)

Lemma non_object_get (payload : value) (k : string) (dflt : value) :
  is_object payload = false -> get_default payload k dflt = Raise (no_attribute payload "get").
Proof. destruct payload; (discriminate || reflexivity). Qed.

Lemma non_object_subscript (payload : value) (k : string) :
  is_object payload = false -> exists e, subscript payload k = Raise e.
Proof. destruct payload; (discriminate || (intros _; cbn; eauto)). Qed.

Lemma mem0_validation_non_object (o : oracle Mem0.call) (payload : value)
    (keys : list string) (bad ok : prog Mem0.call response) :
  is_object payload = false ->
  calls o bad = [] -> status (respond o bad) = 400 ->
  calls o ok = [] -> status (respond o ok) = 500 ->
  let p := (b <- lift (Mem0.missing payload keys) ;; if (b : bool) then bad else ok) in
  calls o p = [] /\ (status (respond o p) = 400 \/ status (respond o p) = 500).
Proof.
  intros _ Cb Sb Co So. cbv zeta.
  destruct (Mem0.missing payload keys) as [[|]|e]; cbn [lift bind]; auto.
Qed.

(** X20.  A body that is not a JSON object (null, a number, a string, a
    list) never reaches a library or a store.  Service A answers 500 with
    the AttributeError message from each of its three handlers.  In service
    B, with its globals set, the three handlers fail with that error before
    their [try], which the framework answers with 500, and the graph is
    untouched.  Service C, with [memory] set, answers 400 or 500 from each of
    its three handlers. *)
Theorem non_object_body (B : builtins) (toInteger : string -> option Z)
    (oa : oracle Cognee.call) (ob : oracle Graphiti.call) (oc : oracle Mem0.call)
    (now : Z) (connect : result unit) (s : Cognee.db) (g : Graphiti.graph)
    (payload : value) :
  is_object payload = false ->
  let refused := mk_response 500 (json [("error", VStr (exn_str (no_attribute payload "get")))]) in
  let ready := Graphiti.mk_globals true true in
  (run oa (Cognee.add_memory B payload) [] = (Ok refused, []) /\
   run oa (Cognee.search_memory B payload) [] = (Ok refused, []) /\
   Cognee.delete_old_data B payload now connect s = (refused, s)) /\
  (run ob (Graphiti.add_data B ready now payload) [] = (Raise (no_attribute payload "get"), []) /\
   run ob (Graphiti.strict_search B ready payload) [] = (Raise (no_attribute payload "get"), []) /\
   Graphiti.delete_old_data B toInteger ready now payload g = (internal_server_error, g)) /\
  (forall p, In p [Mem0.add_memory true payload; Mem0.search_memories true payload;
                   Mem0.delete_old_memories B true now payload] ->
             calls oc p = [] /\ (status (respond oc p) = 400 \/ status (respond oc p) = 500)).
Proof.
  intros H. cbv zeta. split; [|split].
  - unfold Cognee.add_memory, Cognee.search_memory, Cognee.delete_old_data, get.
    rewrite !(non_object_get payload _ _ H). repeat split.
  - unfold Graphiti.add_data, Graphiti.strict_search, Graphiti.delete_old_data, get.
    rewrite !(non_object_get payload _ _ H). repeat split.
  - intros p [<-|[<-|[<-|[]]]].
    + unfold Mem0.add_memory. cbn [negb].
      apply mem0_validation_non_object; auto.
      * destruct (non_object_subscript payload "data" H) as [e ->]. reflexivity.
      * destruct (non_object_subscript payload "data" H) as [e ->]. reflexivity.
    + unfold Mem0.search_memories. cbn [negb].
      apply mem0_validation_non_object; auto.
      * destruct (non_object_subscript payload "query" H) as [e ->]. reflexivity.
      * destruct (non_object_subscript payload "query" H) as [e ->]. reflexivity.
    + unfold Mem0.delete_old_memories. cbn [negb].
      apply mem0_validation_non_object; auto.
      * destruct (non_object_subscript payload "user_id" H) as [e ->]. reflexivity.
      * destruct (non_object_subscript payload "user_id" H) as [e ->]. reflexivity.
Qed.

Lemma non_object_body_witness :
  calls (Sample.library []) (Mem0.add_memory true (VList [VStr "data"; VStr "user_id"])) = [] /\
  (status (respond (Sample.library [])
             (Mem0.add_memory true (VList [VStr "data"; VStr "user_id"]))) = 400 \/
   status (respond (Sample.library [])
             (Mem0.add_memory true (VList [VStr "data"; VStr "user_id"]))) = 500).
Proof.
  refine (proj2 (proj2 (non_object_body Sample.builtins Sample.toInteger
                          Sample.always_ok Sample.always_ok (Sample.library [])
                          Sample.today_micros (Ok tt) Sample.store Sample.graph
                          (VList [VStr "data"; VStr "user_id"]) _)) _ _).
  - reflexivity.
  - left. reflexivity.
Defined.

(** ** Service C: the start of the module *)

Lemma run_attempt {call A} (o : oracle call) (p : prog call A) (hist : list (event call)) :
  run o (attempt p) hist = (Ok (fst (run o p hist)), snd (run o p hist)).
Proof. revert hist. induction p as [a|e|c k IH]; intros hist; cbn; auto. Qed.

Lemma run_catch_if {call A} (o : oracle call) (caught : exn -> bool) (p : prog call A)
    (h : exn -> prog call A) (hist : list (event call)) :
  run o (Mem0.catch_if caught p h) hist
  = match run o p hist with
    | (Ok a, hist') => (Ok a, hist')
    | (Raise e, hist') => if caught e then run o (h e) hist' else (Raise e, hist')
    end.
Proof.
  revert hist. induction p as [a|e|c k IH]; intros hist; cbn; auto.
  now destruct (caught e).
Qed.

Lemma waited_more (n : nat) (out : result value) (pre rest : list (event Mem0.boot_call)) :
  (length (filter is_connect pre) <= 1)%nat ->
  Forall (fun ev => is_from_config ev = false) pre ->
  waited n out rest -> waited (S n) out (pre ++ rest).
Proof.
  intros Lp Fp (L & F & R). unfold waited.
  rewrite filter_app, length_app, Forall_app. split; [lia|]. split; [now split|].
  intros v H. destruct (R v H) as [-> E]. split; [reflexivity|].
  rewrite existsb_app, E. apply orb_true_r.
Qed.

Lemma waited_stop (n : nat) (e : exn) (pre : list (event Mem0.boot_call)) :
  (length (filter is_connect pre) <= 1)%nat ->
  Forall (fun ev => is_from_config ev = false) pre ->
  waited (S n) (Raise e) pre.
Proof. intros Lp Fp. split; [lia|]. split; [exact Fp|]. intros v H. discriminate H. Qed.

Lemma wait_attempts_trace (transient : exn -> bool) (o : oracle Mem0.boot_call)
    (host : string) (port max_retries : Z) (remaining : nat) :
  forall (i : Z) (hist : list (event Mem0.boot_call)),
  exists out rest,
    run o (Mem0.wait_attempts transient host port max_retries i remaining) hist
    = (out, hist ++ rest) /\
    waited remaining out rest.
Proof.
  induction remaining as [|n IH]; intros i hist.
  - eexists _, []. cbn. rewrite app_nil_r. split; [reflexivity|].
    split; [cbn; lia|]. split; [constructor|]. intros v H. discriminate H.
  - cbn [Mem0.wait_attempts]. rewrite run_catch_if.
    assert (Again : forall pre,
               (length (filter is_connect pre) <= 1)%nat ->
               Forall (fun ev => is_from_config ev = false) pre ->
               exists out rest,
                 run o ((if i mod 5 =? 0
                         then invoke (Mem0.Print (Mem0.StillWaiting (i + 1) max_retries))
                         else Ret VNone) ;;
                        invoke (Mem0.Sleep 2) ;;
                        Mem0.wait_attempts transient host port max_retries (i + 1) n)
                     (hist ++ pre)
                 = (out, hist ++ rest) /\ waited (S n) out rest).
    { intros pre Lp Fp.
      assert (Sleep : forall pre',
                 (length (filter is_connect pre') <= 1)%nat ->
                 Forall (fun ev => is_from_config ev = false) pre' ->
                 exists out rest,
                   run o (invoke (Mem0.Sleep 2) ;;
                          Mem0.wait_attempts transient host port max_retries (i + 1) n)
                       (hist ++ pre')
                   = (out, hist ++ rest) /\ waited (S n) out rest).
      { intros pre' Lp' Fp'. cbn [invoke bind run].
        destruct (o (hist ++ pre') (Mem0.Sleep 2)) as [v|e]; cbn [lift bind run].
        - destruct (IH (i + 1) ((hist ++ pre') ++ [(Mem0.Sleep 2, Ok v)]))
            as (out & rest & E & W).
          destruct (run o (Mem0.wait_attempts _ _ _ _ _ _) _) as [out' tr].
          injection E as -> ->.
          rewrite <- !app_assoc. eexists _, _. split; [reflexivity|].
          rewrite app_assoc. apply waited_more; [| |exact W].
          + rewrite filter_app, length_app. cbn. lia.
          + apply Forall_app. split; [exact Fp'|]. repeat constructor.
        - rewrite <- app_assoc. eexists _, _. split; [reflexivity|].
          apply waited_stop.
          + rewrite filter_app, length_app. cbn. lia.
          + apply Forall_app. split; [exact Fp'|]. repeat constructor. }
      destruct (i mod 5 =? 0); [|apply Sleep; assumption].
      cbn [invoke bind run].
      destruct (o (hist ++ pre) _) as [v|e]; cbn [lift bind].
      - rewrite <- app_assoc. apply Sleep.
        + rewrite filter_app, length_app. cbn. lia.
        + apply Forall_app. split; [exact Fp|]. repeat constructor.
      - cbn [run]. rewrite <- app_assoc. eexists _, _. split; [reflexivity|].
        apply waited_stop.
        + rewrite filter_app, length_app. cbn. lia.
        + apply Forall_app. split; [exact Fp|]. repeat constructor. }
    assert (End : forall (out : result value) pre,
               (length (filter is_connect pre) <= 1)%nat ->
               Forall (fun ev => is_from_config ev = false) pre ->
               (forall v, out = Ok v ->
                          v = VBool true /\
                          existsb (fun ev => is_connect ev && succeeded ev) pre = true) ->
               exists out' rest,
                 match (out, hist ++ pre) with
                 | (Ok a, hist') => (Ok a, hist')
                 | (Raise e, hist') =>
                     if transient e
                     then run o ((if i mod 5 =? 0
                                  then invoke (Mem0.Print (Mem0.StillWaiting (i + 1) max_retries))
                                  else Ret VNone) ;;
                                 invoke (Mem0.Sleep 2) ;;
                                 Mem0.wait_attempts transient host port max_retries (i + 1) n)
                              hist'
                     else (Raise e, hist')
                 end = (out', hist ++ rest) /\ waited (S n) out' rest).
    { intros [v|e] pre Lp Fp R.
      - eexists _, _. split; [reflexivity|]. split; [lia|]. split; [exact Fp|].
        intros w [= <-]. exact (R v eq_refl).
      - destruct (transient e); [now apply Again|].
        eexists _, _. split; [reflexivity|]. now apply waited_stop. }
    cbn [invoke bind run].
    destruct (o hist (Mem0.CreateConnection host port 2)) as [c|e] eqn:Ec; cbn [lift bind].
    2:{ cbn [run].
        apply (End (Raise e) [(Mem0.CreateConnection host port 2, Raise e)]);
          [cbn; lia | repeat constructor | discriminate]. }
    rewrite !run_bind, run_attempt.
    cbn [invoke bind run].
    destruct (o _ (Mem0.Print Mem0.QdrantReady)) as [v1|e1]; cbn [lift bind run fst snd].
    + destruct (o _ (Mem0.Sleep 5)) as [v2|e2]; cbn [lift bind run fst snd].
      * destruct (o _ Mem0.CloseConnection) as [v3|e3]; cbn [lift bind run fst snd];
          rewrite <- !app_assoc; cbn [Datatypes.app].
        -- apply (End (Ok (VBool true))
                    [(Mem0.CreateConnection host port 2, Ok c);
                     (Mem0.Print Mem0.QdrantReady, Ok v1); (Mem0.Sleep 5, Ok v2);
                     (Mem0.CloseConnection, Ok v3)]);
             [cbn; lia | repeat constructor | intros v [= <-]; split; reflexivity].
        -- apply (End (Raise e3)
                    [(Mem0.CreateConnection host port 2, Ok c);
                     (Mem0.Print Mem0.QdrantReady, Ok v1); (Mem0.Sleep 5, Ok v2);
                     (Mem0.CloseConnection, Raise e3)]);
             [cbn; lia | repeat constructor | discriminate].
      * destruct (o _ Mem0.CloseConnection) as [v3|e3]; cbn [lift bind run fst snd];
          rewrite <- !app_assoc; cbn [Datatypes.app].
        -- apply (End (Raise e2)
                    [(Mem0.CreateConnection host port 2, Ok c);
                     (Mem0.Print Mem0.QdrantReady, Ok v1); (Mem0.Sleep 5, Raise e2);
                     (Mem0.CloseConnection, Ok v3)]);
             [cbn; lia | repeat constructor | discriminate].
        -- apply (End (Raise e3)
                    [(Mem0.CreateConnection host port 2, Ok c);
                     (Mem0.Print Mem0.QdrantReady, Ok v1); (Mem0.Sleep 5, Raise e2);
                     (Mem0.CloseConnection, Raise e3)]);
             [cbn; lia | repeat constructor | discriminate].
    + destruct (o _ Mem0.CloseConnection) as [v3|e3]; cbn [lift bind run fst snd];
        rewrite <- !app_assoc; cbn [Datatypes.app].
      * apply (End (Raise e1)
                 [(Mem0.CreateConnection host port 2, Ok c);
                  (Mem0.Print Mem0.QdrantReady, Raise e1);
                  (Mem0.CloseConnection, Ok v3)]);
          [cbn; lia | repeat constructor | discriminate].
      * apply (End (Raise e3)
                 [(Mem0.CreateConnection host port 2, Ok c);
                  (Mem0.Print Mem0.QdrantReady, Raise e1);
                  (Mem0.CloseConnection, Raise e3)]);
          [cbn; lia | repeat constructor | discriminate].
Qed.

(** X21.  [wait_for_qdrant] is bounded: whatever the environment does, it
    makes at most [max_retries] connection attempts; and it never returns
    anything but True, which it does only after a connection attempt that
    succeeded. *)
Theorem wait_for_qdrant_bounded (transient : exn -> bool) (o : oracle Mem0.boot_call)
    (host : string) (port max_retries : Z) :
  let out := fst (run o (Mem0.wait_for_qdrant transient host port max_retries) []) in
  let tr := snd (run o (Mem0.wait_for_qdrant transient host port max_retries) []) in
  (length (filter is_connect tr) <= Z.to_nat max_retries)%nat /\
  (forall v, out = Ok v ->
             v = VBool true /\ existsb (fun ev => is_connect ev && succeeded ev) tr = true).
Proof.
  cbv zeta. unfold Mem0.wait_for_qdrant. cbn [invoke bind run].
  destruct (o [] _) as [v|e]; cbn [lift bind run fst snd Datatypes.app].
  - destruct (wait_attempts_trace transient o host port max_retries (Z.to_nat max_retries) 0
                [(Mem0.Print (Mem0.WaitingFor host port), Ok v)])
      as (out & rest & E & L & _ & R).
    destruct (run o (Mem0.wait_attempts _ _ _ _ _ _) _) as [out' tr].
    injection E as -> ->. cbn [fst snd Datatypes.app filter is_connect]. split; [exact L|].
    intros w H. destruct (R w H) as [-> Ex]. split; [reflexivity|]. exact Ex.
  - split; [cbn; lia | discriminate].
Qed.

Lemma none_filter {A} (f : A -> bool) (l : list A) :
  Forall (fun x => f x = false) l -> filter f l = [].
Proof. induction 1 as [|x l H _ IH]; cbn; [reflexivity | now rewrite H]. Qed.

Lemma none_existsb {A} (f : A -> bool) (l : list A) :
  Forall (fun x => f x = false) l -> existsb f l = false.
Proof. induction 1 as [|x l H _ IH]; cbn; [reflexivity | now rewrite H]. Qed.

Lemma none_existsb_and {A} (f g : A -> bool) (l : list A) :
  Forall (fun x => f x = false) l -> existsb (fun x => f x && g x) l = false.
Proof. induction 1 as [|x l H _ IH]; cbn; [reflexivity | now rewrite H]. Qed.

Lemma configured_fail (e : exn) (rest : list (event Mem0.boot_call)) :
  Forall (fun ev => is_from_config ev = false) rest -> configured (Raise e) rest.
Proof.
  intros F. unfold configured.
  pose proof (none_filter is_from_config _ F) as N1.
  pose proof (none_existsb is_from_config _ F) as N2.
  pose proof (none_existsb_and is_from_config succeeded _ F) as N3.
  unfold event, answer in *. rewrite N1, N2, N3.
  split; [cbn; lia|]. split; [|discriminate].
  split; [intros [v H]; discriminate H | discriminate].
Qed.

Lemma block_trace (B : builtins) (transient : exn -> bool) (o : oracle Mem0.boot_call)
    (env : list (string * string)) (hist : list (event Mem0.boot_call)) :
  exists out rest,
    run o (let qdrant_host := Mem0.getenv_default env "QDRANT_HOST" "localhost" in
           qdrant_port <- lift (int B (VStr (Mem0.getenv_default env "QDRANT_PORT" "6333"))) ;;
           let deepseek_api_key := Mem0.getenv env "DEEPSEEK_API_KEY" in
           (if negb (truthy deepseek_api_key)
            then invoke (Mem0.Print Mem0.KeyNotSet) else Ret VNone) ;;
           Mem0.wait_for_qdrant transient qdrant_host qdrant_port 60 ;;
           invoke (Mem0.Print Mem0.InitializingMemory) ;;
           invoke (Mem0.FromConfig qdrant_host qdrant_port deepseek_api_key)) hist
    = (out, hist ++ rest) /\
    configured out rest.
Proof.
  cbv zeta.
  set (host := Mem0.getenv_default env "QDRANT_HOST" "localhost").
  set (key := Mem0.getenv env "DEEPSEEK_API_KEY").
  destruct (int B _) as [port|e]; cbn [lift bind].
  2:{ exists (Raise e), []. rewrite app_nil_r. split; [reflexivity|].
      apply configured_fail. constructor. }
  assert (Wait : forall pre,
             Forall (fun ev => is_from_config ev = false) pre ->
             Forall (fun ev => is_connect ev = false) pre ->
             exists out rest,
               run o (Mem0.wait_for_qdrant transient host port 60 ;;
                      invoke (Mem0.Print Mem0.InitializingMemory) ;;
                      invoke (Mem0.FromConfig host port key)) (hist ++ pre)
               = (out, hist ++ rest) /\ configured out rest).
  { intros pre Fp Cp. unfold Mem0.wait_for_qdrant. cbn [invoke bind run].
    destruct (o (hist ++ pre) _) as [v|e]; cbn [lift bind run].
    2:{ rewrite <- app_assoc. eexists _, _. split; [reflexivity|].
        apply configured_fail, Forall_app. split; [exact Fp | repeat constructor]. }
    rewrite run_bind.
    destruct (wait_attempts_trace transient o host port 60 (Z.to_nat 60) 0
                ((hist ++ pre) ++ [(Mem0.Print (Mem0.WaitingFor host port), Ok v)]))
      as (out & rest & E & L & F & R).
    destruct (run o (Mem0.wait_attempts _ _ _ _ _ _) _) as [out' tr].
    injection E as -> ->.
    assert (Fw : Forall (fun ev => is_from_config ev = false)
                        (pre ++ (Mem0.Print (Mem0.WaitingFor host port), Ok v) :: rest)).
    { apply Forall_app. split; [exact Fp|]. constructor; [reflexivity | exact F]. }
    destruct out as [w|e].
    2:{ rewrite <- !app_assoc. cbn [Datatypes.app]. eexists _, _. split; [reflexivity|].
        now apply configured_fail. }
    destruct (R w eq_refl) as [_ Ex].
    cbn [invoke bind run].
    destruct (o _ (Mem0.Print Mem0.InitializingMemory)) as [v1|e1]; cbn [lift bind run].
    2:{ rewrite <- !app_assoc. cbn [Datatypes.app]. eexists _, _. split; [reflexivity|].
        apply configured_fail.
        change (?a :: rest ++ ?b) with ((a :: rest) ++ b). rewrite app_assoc.
        apply Forall_app. split; [exact Fw | repeat constructor]. }
    assert (Last : forall a,
               configured a (pre ++ (Mem0.Print (Mem0.WaitingFor host port), Ok v)
                                 :: rest ++ [(Mem0.Print Mem0.InitializingMemory, Ok v1);
                                             (Mem0.FromConfig host port key, a)])).
    { intros a. unfold configured.
      pose proof (none_filter is_from_config _ Fw) as N1.
      pose proof (none_existsb is_from_config _ Fw) as N2.
      pose proof (none_existsb_and is_from_config succeeded _ Fw) as N3.
      unfold event, answer in *.
      change (?x :: rest ++ ?b) with ((x :: rest) ++ b). rewrite !app_assoc.
      rewrite filter_app, length_app, (existsb_app _ (pre ++ _)), (existsb_app _ (pre ++ _)).
      rewrite N1, N2, N3.
      split; [cbn; lia|]. split.
      - destruct a as [x|e]; cbn; split; eauto; try discriminate.
        intros [x H]. discriminate H.
      - intros _. rewrite <- app_assoc, !existsb_app. cbn [existsb]. rewrite Ex.
        rewrite ?orb_true_r. cbn [orb]. rewrite ?orb_true_r. reflexivity. }
    cbn [invoke run].
    destruct (o _ (Mem0.FromConfig host port key)) as [m|e]; cbn [lift bind run];
      rewrite <- !app_assoc; cbn [Datatypes.app]; eexists _, _;
      (split; [reflexivity | apply Last]). }
  destruct (negb (truthy key)).
  - cbn [invoke bind run].
    destruct (o hist (Mem0.Print Mem0.KeyNotSet)) as [v|e]; cbn [lift bind].
    + apply Wait; repeat constructor.
    + cbn [run]. eexists _, _. split; [reflexivity|]. apply configured_fail.
      repeat constructor.
  - cbn [bind].
    destruct (Wait [] (Forall_nil _) (Forall_nil _)) as (out & rest & E & W).
    rewrite app_nil_r in E. exists out, rest. split; [exact E | exact W].
Qed.

Lemma quiet_print {A} (o : oracle Mem0.boot_call) (l : Mem0.line)
    (k : prog Mem0.boot_call A) (hist : list (event Mem0.boot_call)) :
  quiet o ->
  run o (invoke (Mem0.Print l) ;; k) hist
  = run o k (hist ++ [(Mem0.Print l, o hist (Mem0.Print l))]).
Proof.
  intros Q. destruct (Q hist (Mem0.Print l)) as [v Hv].
  cbn [invoke bind run]. now rewrite Hv.
Qed.

Lemma quiet_sleep {A} (o : oracle Mem0.boot_call) (n : Z)
    (k : prog Mem0.boot_call A) (hist : list (event Mem0.boot_call)) :
  quiet o ->
  run o (invoke (Mem0.Sleep n) ;; k) hist
  = run o k (hist ++ [(Mem0.Sleep n, o hist (Mem0.Sleep n))]).
Proof.
  intros Q. destruct (Q hist (Mem0.Sleep n)) as [v Hv].
  cbn [invoke bind run]. now rewrite Hv.
Qed.

Lemma initialise_tail (B : builtins) (transient : exn -> bool)
    (o : oracle Mem0.boot_call) (env : list (string * string))
    (hist : list (event Mem0.boot_call)) :
  quiet o ->
  exists memory rest,
    run o (assigned <- attempt
             (let qdrant_host := Mem0.getenv_default env "QDRANT_HOST" "localhost" in
              qdrant_port <- lift (int B (VStr (Mem0.getenv_default env "QDRANT_PORT"
                                                  "6333"))) ;;
              let deepseek_api_key := Mem0.getenv env "DEEPSEEK_API_KEY" in
              (if negb (truthy deepseek_api_key)
               then invoke (Mem0.Print Mem0.KeyNotSet) else Ret VNone) ;;
              Mem0.wait_for_qdrant transient qdrant_host qdrant_port 60 ;;
              invoke (Mem0.Print Mem0.InitializingMemory) ;;
              invoke (Mem0.FromConfig qdrant_host qdrant_port deepseek_api_key)) ;;
           match assigned with
           | Ok _ =>
               catch (invoke (Mem0.Print Mem0.MemoryInitialized) ;; Ret true)
                     (fun e => invoke (Mem0.Print (Mem0.FatalError e)) ;; Ret true)
           | Raise e => invoke (Mem0.Print (Mem0.FatalError e)) ;; Ret false
           end) hist
    = (Ok memory, hist ++ rest) /\
    (length (filter is_from_config rest) <= 1)%nat /\
    (memory = true <-> existsb (fun ev => is_from_config ev && succeeded ev) rest = true) /\
    (existsb is_from_config rest = true ->
     existsb (fun ev => is_connect ev && succeeded ev) rest = true).
Proof.
  intros Q.
  match goal with |- context [attempt ?b] => set (block := b) end.
  rewrite run_bind, run_attempt.
  destruct (block_trace B transient o env hist) as (out & rest & E & L & S & C).
  change (run o block hist = (out, hist ++ rest)) in E.
  destruct (run o block hist) as [out' tr'].
  injection E as -> ->. cbn [fst snd].
  assert (K : forall p : event Mem0.boot_call,
             is_from_config p = false -> is_connect p = false ->
             length (filter is_from_config (rest ++ [p]))
             = length (filter is_from_config rest) /\
             existsb (fun ev => is_from_config ev && succeeded ev) (rest ++ [p])
             = existsb (fun ev => is_from_config ev && succeeded ev) rest /\
             existsb is_from_config (rest ++ [p]) = existsb is_from_config rest /\
             existsb (fun ev => is_connect ev && succeeded ev) (rest ++ [p])
             = existsb (fun ev => is_connect ev && succeeded ev) rest).
  { intros p Fp Cp. rewrite !filter_app, !length_app, !existsb_app.
    cbn [filter existsb length]. rewrite Fp, Cp.
    cbn [andb orb length Nat.add]. rewrite !orb_false_r.
    repeat split; auto using Nat.add_0_r. }
  destruct out as [m|e].
  - rewrite run_catch, (quiet_print o _ _ _ Q). cbn [run]. rewrite <- app_assoc.
    do 2 eexists. split; [reflexivity|].
    destruct (K (Mem0.Print Mem0.MemoryInitialized,
                 o (hist ++ rest) (Mem0.Print Mem0.MemoryInitialized))
                eq_refl eq_refl) as (K1 & K2 & K3 & K4).
    unfold event, answer in *. rewrite K1, K2, K3, K4.
    split; [exact L|]. split; [|exact C].
    split; [intros _; apply S; eauto | reflexivity].
  - rewrite (quiet_print o _ _ _ Q). cbn [run]. rewrite <- app_assoc.
    do 2 eexists. split; [reflexivity|].
    destruct (K (Mem0.Print (Mem0.FatalError e),
                 o (hist ++ rest) (Mem0.Print (Mem0.FatalError e)))
                eq_refl eq_refl) as (K1 & K2 & K3 & K4).
    unfold event, answer in *. rewrite K1, K2, K3, K4.
    split; [exact L|]. split; [|exact C].
    split; [discriminate|]. intros H. apply S in H as [v H]. discriminate H.
Qed.

(** X22.  Loading the module of service C never fails as long as
    printing, sleeping and closing a socket do not: it ends with [memory]
    set or None.  [Memory.from_config] is
    called at most once, and only if a connection to the vector store has
    succeeded; [memory] is set exactly when that call succeeds. *)
Theorem initialise_sets_memory (B : builtins) (transient : exn -> bool)
    (o : oracle Mem0.boot_call) (env : list (string * string)) :
  quiet o ->
  exists memory tr,
    run o (Mem0.initialise B transient env) [] = (Ok memory, tr) /\
    (length (filter is_from_config tr) <= 1)%nat /\
    (memory = true <-> existsb (fun ev => is_from_config ev && succeeded ev) tr = true) /\
    (existsb is_from_config tr = true ->
     existsb (fun ev => is_connect ev && succeeded ev) tr = true).
Proof.
  intros Q. unfold Mem0.initialise.
  rewrite !(quiet_print o _ _ _ Q).
  match goal with
  | |- context [run o _ ?h] =>
      destruct (initialise_tail B transient o env h Q) as (memory & rest & E & L & S & C)
  end.
  exists memory. eexists. split; [exact E|].
  rewrite !filter_app, !existsb_app. cbn [filter existsb is_from_config is_connect fst andb orb
                                          Datatypes.app].
  auto.
Qed.

Lemma quiet_sample (e : exn) : quiet (Sample.qdrant_fails e).
Proof. intros hist c. destruct c; cbn; eauto. Qed.

Lemma initialise_sets_memory_witness :
  exists memory tr,
    run (Sample.qdrant_fails Sample.refused)
        (Mem0.initialise Sample.builtins Sample.transient []) [] = (Ok memory, tr) /\
    (length (filter is_from_config tr) <= 1)%nat /\
    (memory = true <-> existsb (fun ev => is_from_config ev && succeeded ev) tr = true) /\
    (existsb is_from_config tr = true ->
     existsb (fun ev => is_connect ev && succeeded ev) tr = true).
Proof.
  apply initialise_sets_memory. apply quiet_sample.
Defined.

Lemma wait_attempts_exhausted (transient : exn -> bool) (o : oracle Mem0.boot_call)
    (host : string) (port max_retries : Z) :
  quiet o ->
  (forall hist, exists e, o hist (Mem0.CreateConnection host port 2) = Raise e
                          /\ transient e = true) ->
  forall (remaining : nat) (i : Z) (hist : list (event Mem0.boot_call)),
  exists rest,
    run o (Mem0.wait_attempts transient host port max_retries i remaining) hist
    = (Raise (Exn "Exception" "Qdrant did not become ready in time"), hist ++ rest) /\
    length (filter is_connect rest) = remaining /\
    length (filter (is_sleep 2) rest) = remaining /\
    filter (is_sleep 5) rest = [].
Proof.
  intros Q Down. induction remaining as [|n IH]; intros i hist.
  - exists []. cbn. rewrite app_nil_r. auto.
  - cbn [Mem0.wait_attempts]. rewrite run_catch_if. cbn [invoke bind run].
    destruct (Down hist) as (e & He & Te). rewrite He. cbn [lift bind run]. rewrite Te.
    assert (Sleep : forall pre,
               filter is_connect pre = [] -> filter (is_sleep 2) pre = [] ->
               filter (is_sleep 5) pre = [] ->
               exists rest,
                 run o (invoke (Mem0.Sleep 2) ;;
                        Mem0.wait_attempts transient host port max_retries (i + 1) n)
                     ((hist ++ [(Mem0.CreateConnection host port 2, Raise e)]) ++ pre)
                 = (Raise (Exn "Exception" "Qdrant did not become ready in time"),
                    hist ++ rest) /\
                 length (filter is_connect rest) = S n /\
                 length (filter (is_sleep 2) rest) = S n /\
                 filter (is_sleep 5) rest = []).
    { intros pre P1 P2 P3. rewrite (quiet_sleep o _ _ _ Q).
      destruct (IH (i + 1)
                  (((hist ++ [(Mem0.CreateConnection host port 2, Raise e)]) ++ pre)
                     ++ [(Mem0.Sleep 2,
                          o ((hist ++ [(Mem0.CreateConnection host port 2, Raise e)]) ++ pre)
                            (Mem0.Sleep 2))])) as (rest & E & L1 & L2 & L3).
      destruct (run o (Mem0.wait_attempts _ _ _ _ _ _) _) as [out' tr'].
      injection E as -> ->. rewrite <- !app_assoc. cbn [Datatypes.app].
      eexists. split; [reflexivity|].
      change (?a :: pre ++ ?b :: rest) with ([a] ++ pre ++ [b] ++ rest).
      unfold event, answer in *.
      rewrite !filter_app, !length_app, P1, P2, P3, L1, L2, L3. cbn. auto. }
    destruct (i mod 5 =? 0).
    + rewrite (quiet_print o _ _ _ Q). apply Sleep; reflexivity.
    + cbn [bind].
      destruct (Sleep [] eq_refl eq_refl eq_refl) as (rest & E & L).
      rewrite app_nil_r in E. now exists rest.
Qed.

(** X23.  If every connection attempt is refused or times out,
    [wait_for_qdrant] gives up with "Qdrant did not become ready in time"
    after exactly [max_retries] attempts, having slept two seconds after
    each of them and never the five seconds that follow a success. *)
Theorem wait_for_qdrant_gives_up (transient : exn -> bool) (o : oracle Mem0.boot_call)
    (host : string) (port max_retries : Z) :
  quiet o ->
  (forall hist, exists e, o hist (Mem0.CreateConnection host port 2) = Raise e
                          /\ transient e = true) ->
  let out := fst (run o (Mem0.wait_for_qdrant transient host port max_retries) []) in
  let tr := snd (run o (Mem0.wait_for_qdrant transient host port max_retries) []) in
  out = Raise (Exn "Exception" "Qdrant did not become ready in time") /\
  length (filter is_connect tr) = Z.to_nat max_retries /\
  length (filter (is_sleep 2) tr) = Z.to_nat max_retries /\
  filter (is_sleep 5) tr = [].
Proof.
  intros Q Down. cbv zeta. unfold Mem0.wait_for_qdrant.
  rewrite (quiet_print o _ _ _ Q).
  destruct (wait_attempts_exhausted transient o host port max_retries Q Down
              (Z.to_nat max_retries) 0
              ([] ++ [(Mem0.Print (Mem0.WaitingFor host port),
                       o [] (Mem0.Print (Mem0.WaitingFor host port)))]))
    as (rest & E & L1 & L2 & L3).
  destruct (run o (Mem0.wait_attempts _ _ _ _ _ _) _) as [out' tr'].
  injection E as -> ->. cbn [fst snd Datatypes.app filter is_connect is_sleep]. auto.
Qed.

Lemma wait_for_qdrant_gives_up_witness :
  let r := run (Sample.qdrant_fails Sample.refused)
               (Mem0.wait_for_qdrant Sample.transient "localhost" 6333 60) [] in
  fst r = Raise (Exn "Exception" "Qdrant did not become ready in time") /\
  length (filter is_connect (snd r)) = 60%nat /\
  length (filter (is_sleep 2) (snd r)) = 60%nat /\
  filter (is_sleep 5) (snd r) = [].
Proof.
  apply (wait_for_qdrant_gives_up Sample.transient (Sample.qdrant_fails Sample.refused)
           "localhost" 6333 60).
  - apply quiet_sample.
  - intros hist. exists Sample.refused. split; reflexivity.
Defined.

(** X24.  An error that is neither a refusal nor a timeout is not retried:
    if the first connection attempt fails with such an error (a host name
    that does not resolve, say), [wait_for_qdrant] raises it at once, after
    that one attempt and without sleeping. *)
Theorem wait_for_qdrant_no_retry (transient : exn -> bool) (o : oracle Mem0.boot_call)
    (host : string) (port max_retries : Z) (e : exn) :
  quiet o ->
  (forall hist, o hist (Mem0.CreateConnection host port 2) = Raise e) ->
  transient e = false -> 0 < max_retries ->
  exists v,
    run o (Mem0.wait_for_qdrant transient host port max_retries) []
    = (Raise e, [(Mem0.Print (Mem0.WaitingFor host port), Ok v);
                 (Mem0.CreateConnection host port 2, Raise e)]).
Proof.
  intros Q Down T M. unfold Mem0.wait_for_qdrant.
  rewrite (quiet_print o _ _ _ Q).
  destruct (Q [] (Mem0.Print (Mem0.WaitingFor host port))) as [v ->].
  exists v. destruct (Z.to_nat max_retries) as [|n] eqn:E; [lia|].
  cbn [Mem0.wait_attempts]. rewrite run_catch_if. cbn [invoke bind run].
  rewrite Down. cbn [lift bind run]. now rewrite T.
Qed.

Lemma wait_for_qdrant_no_retry_witness :
  exists v,
    run (Sample.qdrant_fails Sample.unknown_host)
        (Mem0.wait_for_qdrant Sample.transient "qdrant" 6333 60) []
    = (Raise Sample.unknown_host,
       [(Mem0.Print (Mem0.WaitingFor "qdrant" 6333), Ok v);
        (Mem0.CreateConnection "qdrant" 6333 2, Raise Sample.unknown_host)]).
Proof.
  apply wait_for_qdrant_no_retry.
  - apply quiet_sample.
  - reflexivity.
  - reflexivity.
  - reflexivity.
Defined.

(** ** Service B: the startup *)

Lemma balanced_app (l l' : list (event Graphiti.boot_call)) :
  balanced l -> balanced l' -> balanced (l ++ l').
Proof. unfold balanced. rewrite !filter_app, !length_app. lia. Qed.

Lemma waited_neo4j_more (n : nat) (out : result value)
    (pre rest : list (event Graphiti.boot_call)) :
  (length (filter is_attempt pre) <= 1)%nat -> balanced pre ->
  waited_neo4j n out rest -> waited_neo4j (S n) out (pre ++ rest).
Proof.
  intros Lp Bp (L & Bl & R). unfold waited_neo4j.
  rewrite filter_app, length_app. split; [lia|]. split; [now apply balanced_app|].
  intros v H. destruct (R v H) as [-> E]. split; [reflexivity|].
  rewrite existsb_app, E. apply orb_true_r.
Qed.

Lemma waited_neo4j_stop (n : nat) (e : exn) (pre : list (event Graphiti.boot_call)) :
  (length (filter is_attempt pre) <= 1)%nat -> balanced pre ->
  waited_neo4j (S n) (Raise e) pre.
Proof. intros Lp Bp. split; [lia|]. split; [exact Bp|]. intros v H. discriminate H. Qed.

Lemma neo4j_attempts_trace (env : list (string * string)) (o : oracle Graphiti.boot_call)
    (max_retries : Z) (remaining : nat) :
  forall (i : Z) (hist : list (event Graphiti.boot_call)),
  exists out rest,
    run o (Graphiti.neo4j_attempts env max_retries i remaining) hist = (out, hist ++ rest) /\
    waited_neo4j remaining out rest.
Proof.
  induction remaining as [|n IH]; intros i hist.
  - eexists _, []. cbn. rewrite app_nil_r. split; [reflexivity|].
    split; [cbn; lia|]. split; [reflexivity|]. intros v H. discriminate H.
  - cbn [Graphiti.neo4j_attempts]. rewrite run_catch.
    assert (Again : forall pre,
               (length (filter is_attempt pre) <= 1)%nat -> balanced pre ->
               exists out rest,
                 run o ((if i mod 5 =? 0
                         then invoke (Graphiti.Print (Graphiti.StillWaiting (i + 1) max_retries))
                         else Ret VNone) ;;
                        invoke (Graphiti.Sleep 2) ;;
                        Graphiti.neo4j_attempts env max_retries (i + 1) n)
                     (hist ++ pre)
                 = (out, hist ++ rest) /\ waited_neo4j (S n) out rest).
    { intros pre Lp Bp.
      assert (Sleep : forall pre',
                 (length (filter is_attempt pre') <= 1)%nat -> balanced pre' ->
                 exists out rest,
                   run o (invoke (Graphiti.Sleep 2) ;;
                          Graphiti.neo4j_attempts env max_retries (i + 1) n)
                       (hist ++ pre')
                   = (out, hist ++ rest) /\ waited_neo4j (S n) out rest).
      { intros pre' Lp' Bp'. cbn [invoke bind run].
        destruct (o (hist ++ pre') (Graphiti.Sleep 2)) as [v|e]; cbn [lift bind run].
        - destruct (IH (i + 1) ((hist ++ pre') ++ [(Graphiti.Sleep 2, Ok v)]))
            as (out & rest & E & W).
          destruct (run o (Graphiti.neo4j_attempts _ _ _ _) _) as [out' tr].
          injection E as -> ->.
          rewrite <- !app_assoc. eexists _, _. split; [reflexivity|].
          rewrite app_assoc. apply waited_neo4j_more; [| |exact W].
          + rewrite filter_app, length_app. cbn. lia.
          + apply balanced_app; [exact Bp' | reflexivity].
        - rewrite <- app_assoc. eexists _, _. split; [reflexivity|].
          apply waited_neo4j_stop.
          + rewrite filter_app, length_app. cbn. lia.
          + apply balanced_app; [exact Bp' | reflexivity]. }
      destruct (i mod 5 =? 0); [|apply Sleep; assumption].
      cbn [invoke bind run].
      destruct (o (hist ++ pre) _) as [v|e]; cbn [lift bind].
      - rewrite <- app_assoc. apply Sleep.
        + rewrite filter_app, length_app. cbn. lia.
        + apply balanced_app; [exact Bp | reflexivity].
      - cbn [run]. rewrite <- app_assoc. eexists _, _. split; [reflexivity|].
        apply waited_neo4j_stop.
        + rewrite filter_app, length_app. cbn. lia.
        + apply balanced_app; [exact Bp | reflexivity]. }
    assert (End : forall (out : result value) pre,
               (length (filter is_attempt pre) <= 1)%nat -> balanced pre ->
               (forall v, out = Ok v -> v = VBool true /\ existsb verified pre = true) ->
               exists out' rest,
                 match (out, hist ++ pre) with
                 | (Ok a, hist') => (Ok a, hist')
                 | (Raise e, hist') =>
                     run o ((if i mod 5 =? 0
                             then invoke (Graphiti.Print
                                            (Graphiti.StillWaiting (i + 1) max_retries))
                             else Ret VNone) ;;
                            invoke (Graphiti.Sleep 2) ;;
                            Graphiti.neo4j_attempts env max_retries (i + 1) n)
                         hist'
                 end = (out', hist ++ rest) /\ waited_neo4j (S n) out' rest).
    { intros [v|e] pre Lp Bp R.
      - eexists _, _. split; [reflexivity|]. split; [lia|]. split; [exact Bp|].
        intros w [= <-]. exact (R v eq_refl).
      - now apply Again. }
    set (new := Graphiti.NewDriver (Graphiti.NEO4J_URI env) (Graphiti.NEO4J_USER env)
                  (Graphiti.NEO4J_PASSWORD env)).
    cbn [invoke bind run].
    destruct (o hist new) as [d|e]; cbn [lift bind run].
    2:{ apply (End (Raise e) [(new, Raise e)]); [cbn; lia | reflexivity | discriminate]. }
    destruct (o _ Graphiti.VerifyConnectivity) as [v1|e1]; cbn [lift bind run].
    2:{ rewrite <- !app_assoc; cbn [Datatypes.app].
        apply (End (Raise e1) [(new, Ok d); (Graphiti.VerifyConnectivity, Raise e1)]);
          [cbn; lia | reflexivity | discriminate]. }
    destruct (o _ Graphiti.CloseDriver) as [v2|e2]; cbn [lift bind run].
    2:{ rewrite <- !app_assoc; cbn [Datatypes.app].
        apply (End (Raise e2) [(new, Ok d); (Graphiti.VerifyConnectivity, Ok v1);
                               (Graphiti.CloseDriver, Raise e2)]);
          [cbn; lia | reflexivity | discriminate]. }
    destruct (o _ (Graphiti.Print Graphiti.Neo4jReady)) as [v3|e3]; cbn [lift bind run];
      rewrite <- !app_assoc; cbn [Datatypes.app].
    + apply (End (Ok (VBool true))
               [(new, Ok d); (Graphiti.VerifyConnectivity, Ok v1);
                (Graphiti.CloseDriver, Ok v2); (Graphiti.Print Graphiti.Neo4jReady, Ok v3)]);
        [cbn; lia | reflexivity | intros v [= <-]; split; reflexivity].
    + apply (End (Raise e3)
               [(new, Ok d); (Graphiti.VerifyConnectivity, Ok v1);
                (Graphiti.CloseDriver, Ok v2); (Graphiti.Print Graphiti.Neo4jReady, Raise e3)]);
        [cbn; lia | reflexivity | discriminate].
Qed.

(** X25.  [wait_for_neo4j] is bounded and returns only True, after a
    verification that succeeded; it closes a temporary driver only after
    its verification has succeeded: whatever the environment does, the
    drivers it has opened are the ones it has closed plus one for each
    verification that failed, which it leaves open. *)
Theorem wait_for_neo4j_bounded (env : list (string * string)) (o : oracle Graphiti.boot_call)
    (max_retries : Z) :
  let out := fst (run o (Graphiti.wait_for_neo4j env max_retries) []) in
  let tr := snd (run o (Graphiti.wait_for_neo4j env max_retries) []) in
  (length (filter is_attempt tr) <= Z.to_nat max_retries)%nat /\
  (forall v, out = Ok v -> v = VBool true /\ existsb verified tr = true) /\
  length (filter opened_driver tr)
  = (length (filter closes_driver tr) + length (filter not_verified tr))%nat.
Proof.
  cbv zeta. unfold Graphiti.wait_for_neo4j. cbn [invoke bind run].
  destruct (o [] _) as [v|e]; cbn [lift bind run fst snd Datatypes.app].
  - destruct (neo4j_attempts_trace env o max_retries (Z.to_nat max_retries) 0
                [(Graphiti.Print (Graphiti.WaitingForNeo4j (Graphiti.NEO4J_URI env)), Ok v)])
      as (out & rest & E & L & Bl & R).
    destruct (run o (Graphiti.neo4j_attempts _ _ _ _) _) as [out' tr].
    injection E as -> ->. cbn [fst snd Datatypes.app filter is_attempt existsb verified].
    split; [exact L|]. split; [exact R|]. exact Bl.
  - split; [cbn; lia|]. split; [discriminate | reflexivity].
Qed.

Lemma calm_print {A} (o : oracle Graphiti.boot_call) (l : Graphiti.line)
    (k : prog Graphiti.boot_call A) (hist : list (event Graphiti.boot_call)) :
  calm o ->
  run o (invoke (Graphiti.Print l) ;; k) hist
  = run o k (hist ++ [(Graphiti.Print l, o hist (Graphiti.Print l))]).
Proof.
  intros Q. destruct (Q hist (Graphiti.Print l)) as [v Hv].
  cbn [invoke bind run]. now rewrite Hv.
Qed.

Lemma calm_sleep {A} (o : oracle Graphiti.boot_call) (n : Z)
    (k : prog Graphiti.boot_call A) (hist : list (event Graphiti.boot_call)) :
  calm o ->
  run o (invoke (Graphiti.Sleep n) ;; k) hist
  = run o k (hist ++ [(Graphiti.Sleep n, o hist (Graphiti.Sleep n))]).
Proof.
  intros Q. destruct (Q hist (Graphiti.Sleep n)) as [v Hv].
  cbn [invoke bind run]. now rewrite Hv.
Qed.

Lemma neo4j_attempts_exhausted (env : list (string * string)) (o : oracle Graphiti.boot_call)
    (max_retries : Z) :
  calm o ->
  (forall hist, exists e,
      o hist (Graphiti.NewDriver (Graphiti.NEO4J_URI env) (Graphiti.NEO4J_USER env)
                (Graphiti.NEO4J_PASSWORD env)) = Raise e) ->
  forall (remaining : nat) (i : Z) (hist : list (event Graphiti.boot_call)),
  exists rest,
    run o (Graphiti.neo4j_attempts env max_retries i remaining) hist
    = (Raise (Exn "Exception" "Neo4j did not become ready in time"), hist ++ rest) /\
    length (filter is_attempt rest) = remaining /\
    length (filter sleeps rest) = remaining.
Proof.
  intros Q Down. induction remaining as [|n IH]; intros i hist.
  - exists []. cbn. rewrite app_nil_r. auto.
  - cbn [Graphiti.neo4j_attempts]. rewrite run_catch. cbn [invoke bind run].
    destruct (Down hist) as (e & He). rewrite He. cbn [lift bind run].
    set (failed := (Graphiti.NewDriver (Graphiti.NEO4J_URI env) (Graphiti.NEO4J_USER env)
                      (Graphiti.NEO4J_PASSWORD env), @Raise value e)).
    assert (Sleep : forall pre,
               filter is_attempt pre = [] -> filter sleeps pre = [] ->
               exists rest,
                 run o (invoke (Graphiti.Sleep 2) ;;
                        Graphiti.neo4j_attempts env max_retries (i + 1) n)
                     ((hist ++ [failed]) ++ pre)
                 = (Raise (Exn "Exception" "Neo4j did not become ready in time"),
                    hist ++ rest) /\
                 length (filter is_attempt rest) = S n /\
                 length (filter sleeps rest) = S n).
    { intros pre P1 P2. rewrite (calm_sleep o _ _ _ Q).
      destruct (IH (i + 1)
                  (((hist ++ [failed]) ++ pre)
                     ++ [(Graphiti.Sleep 2, o ((hist ++ [failed]) ++ pre) (Graphiti.Sleep 2))]))
        as (rest & E & L1 & L2).
      destruct (run o (Graphiti.neo4j_attempts _ _ _ _) _) as [out' tr'].
      injection E as -> ->. rewrite <- !app_assoc. cbn [Datatypes.app].
      eexists. split; [reflexivity|].
      change (?a :: pre ++ ?b :: rest) with ([a] ++ pre ++ [b] ++ rest).
      unfold event, answer in *.
      rewrite !filter_app, !length_app, P1, P2, L1, L2. cbn. auto. }
    destruct (i mod 5 =? 0).
    + rewrite (calm_print o _ _ _ Q). apply Sleep; reflexivity.
    + cbn [bind].
      destruct (Sleep [] eq_refl eq_refl) as (rest & E & L).
      rewrite app_nil_r in E. now exists rest.
Qed.

(** X26.  [wait_for_neo4j] retries whatever the error is: if creating the
    driver fails every time, with any exception at all (wrong credentials
    as well as a database that is still starting), it gives up with "Neo4j
    did not become ready in time" only after [max_retries] attempts and as
    many sleeps of two seconds. *)
Theorem wait_for_neo4j_gives_up (env : list (string * string)) (o : oracle Graphiti.boot_call)
    (max_retries : Z) :
  calm o ->
  (forall hist, exists e,
      o hist (Graphiti.NewDriver (Graphiti.NEO4J_URI env) (Graphiti.NEO4J_USER env)
                (Graphiti.NEO4J_PASSWORD env)) = Raise e) ->
  let out := fst (run o (Graphiti.wait_for_neo4j env max_retries) []) in
  let tr := snd (run o (Graphiti.wait_for_neo4j env max_retries) []) in
  out = Raise (Exn "Exception" "Neo4j did not become ready in time") /\
  length (filter is_attempt tr) = Z.to_nat max_retries /\
  length (filter sleeps tr) = Z.to_nat max_retries.
Proof.
  intros Q Down. cbv zeta. unfold Graphiti.wait_for_neo4j.
  rewrite (calm_print o _ _ _ Q).
  destruct (neo4j_attempts_exhausted env o max_retries Q Down (Z.to_nat max_retries) 0
              ([] ++ [(Graphiti.Print (Graphiti.WaitingForNeo4j (Graphiti.NEO4J_URI env)),
                       o [] (Graphiti.Print (Graphiti.WaitingForNeo4j
                                               (Graphiti.NEO4J_URI env))))]))
    as (rest & E & L1 & L2).
  destruct (run o (Graphiti.neo4j_attempts _ _ _ _) _) as [out' tr'].
  injection E as -> ->. cbn [fst snd Datatypes.app filter is_attempt sleeps]. auto.
Qed.

Lemma calm_sample_fails (e : exn) : calm (Sample.neo4j_fails e).
Proof. intros hist c. destruct c; cbn; eauto. Qed.

Lemma wait_for_neo4j_gives_up_witness :
  let r := run (Sample.neo4j_fails Sample.unauthorized) (Graphiti.wait_for_neo4j [] 60) [] in
  fst r = Raise (Exn "Exception" "Neo4j did not become ready in time") /\
  length (filter is_attempt (snd r)) = 60%nat /\
  length (filter sleeps (snd r)) = 60%nat.
Proof.
  apply (wait_for_neo4j_gives_up [] (Sample.neo4j_fails Sample.unauthorized) 60).
  - apply calm_sample_fails.
  - intros hist. exists Sample.unauthorized. reflexivity.
Defined.

(** Case analysis on what the environment answers to the next call. *)
Ltac next_answer o :=
  cbn [lift bind catch attempt invoke run fst snd];
  match goal with
  | |- context [o ?h ?c] => let E := fresh "E" in destruct (o h c) eqn:E
  | |- context [iter ?r] => let E := fresh "I" in destruct (iter r) eqn:E
  | |- context [Graphiti.names ?r] => let E := fresh "N" in destruct (Graphiti.names r) eqn:E
  | |- context [existsb (is_str ?k) ?l] =>
      let E := fresh "X" in destruct (existsb (is_str k) l) eqn:E; cbn [negb]
  end.

(** X27.  [create_fulltext_index_manually] always closes the driver it has
    opened: whatever the session does and whatever fails in between, once
    the driver exists [driver.close()] is called exactly once, as the last
    thing the function does; and if the driver could not be created the
    function has done nothing but print and try to create it. *)
Theorem create_index_closes_driver (env : list (string * string))
    (o : oracle Graphiti.boot_call) :
  let tr := snd (run o (Graphiti.create_fulltext_index_manually env) []) in
  (existsb opened_driver tr = true ->
   length (filter closes_driver tr) = 1%nat /\
   hd_error (List.rev (map fst tr)) = Some Graphiti.CloseDriver) /\
  (existsb opened_driver tr = false ->
   filter closes_driver tr = [] /\ (length tr <= 2)%nat).
Proof.
  cbv zeta. unfold Graphiti.create_fulltext_index_manually.
  repeat next_answer o;
    cbn [lift bind catch attempt invoke run fst snd Datatypes.app];
    (split; [intros H; (discriminate H || (split; reflexivity))
            |intros H; (discriminate H || (split; [reflexivity | cbn; lia]))]).
Qed.

Ltac missing_leaf :=
  let H := fresh "H" in
  intros H; unfold ran in H; cbn in H;
  first [ solve [intuition discriminate]
        | unfold not_listed; do 3 eexists;
          split; [cbn; repeat (first [left; reflexivity | right])
                 | split; [eassumption | split; eassumption]] ].

(** X28.  [create_fulltext_index_manually] creates an index only if it is
    missing: whatever the environment does, a CREATE statement for
    [node_name_and_summary] (or for [edge_name_and_fact]) is run only after
    [SHOW INDEXES] has answered with records among whose names that index
    does not occur. *)
Theorem create_index_only_missing (env : list (string * string))
    (o : oracle Graphiti.boot_call) :
  let tr := snd (run o (Graphiti.create_fulltext_index_manually env) []) in
  (ran Graphiti.CreateNodeIndex tr -> not_listed "node_name_and_summary" tr) /\
  (ran Graphiti.CreateEdgeIndex tr -> not_listed "edge_name_and_fact" tr).
Proof.
  cbv zeta. unfold Graphiti.create_fulltext_index_manually.
  repeat next_answer o;
    cbn [lift bind catch attempt invoke run fst snd Datatypes.app];
    (split; missing_leaf).
Qed.

Ltac impossible_answer :=
  match goal with
  | Q : calm ?o, E : ?o ?h (Graphiti.Print ?l) = Raise _ |- _ =>
      let v := fresh in let Hq := fresh in
      destruct (Q h (Graphiti.Print l)) as [v Hq]; rewrite Hq in E; discriminate E
  | D : forall hist, exists d, ?o hist (Graphiti.NewDriver _ _ _) = Ok d,
    E : ?o ?h (Graphiti.NewDriver _ _ _) = Raise _ |- _ =>
      let v := fresh in let Hq := fresh in
      destruct (D h) as [v Hq]; rewrite Hq in E; discriminate E
  | C : forall hist, exists v, ?o hist Graphiti.CloseDriver = Ok v,
    E : ?o ?h Graphiti.CloseDriver = Raise _ |- _ =>
      let v := fresh in let Hq := fresh in
      destruct (C h) as [v Hq]; rewrite Hq in E; discriminate E
  end.

(** X29.  [create_fulltext_index_manually] swallows every error of the
    session: if printing does not fail and the driver can be created and
    closed, the function returns normally, whatever opening the session,
    [SHOW INDEXES], reading the records, or creating an index does. *)
Theorem create_index_swallows_errors (env : list (string * string))
    (o : oracle Graphiti.boot_call) :
  calm o ->
  (forall hist, exists d,
      o hist (Graphiti.NewDriver (Graphiti.NEO4J_URI env) (Graphiti.NEO4J_USER env)
                (Graphiti.NEO4J_PASSWORD env)) = Ok d) ->
  (forall hist, exists v, o hist Graphiti.CloseDriver = Ok v) ->
  fst (run o (Graphiti.create_fulltext_index_manually env) []) = Ok VNone.
Proof.
  intros Q D C. unfold Graphiti.create_fulltext_index_manually.
  repeat next_answer o;
    cbn [lift bind catch attempt invoke run fst snd Datatypes.app];
    first [reflexivity | impossible_answer].
Qed.

Lemma create_index_swallows_errors_witness :
  fst (run (fun _ c => match c with
                       | Graphiti.OpenSession => Raise Sample.unauthorized
                       | _ => Ok VNone
                       end)
           (Graphiti.create_fulltext_index_manually []) []) = Ok VNone.
Proof.
  apply create_index_swallows_errors.
  - intros hist c. destruct c; cbn; eauto.
  - intros hist. eexists. reflexivity.
  - intros hist. eexists. reflexivity.
Defined.
